(** * NOMAD-CAMELS chat agents: a shallow embedding

    The two agent classes of [nomad_camels/gui/agents]
    ([ProtocolAgent] in [protocol_agent.py] and [MeasurementControlAgent]
    in [measurement_control_agent.py]) are embedded as functions in a small
    monad carrying the agent object, the exceptions a Python call may raise
    and the trace of outward effects (model calls, host calls, log lines,
    started threads).

    The development is organised as follows:
    - [Str], [Dict]: strings and insertion-ordered dictionaries;
    - [Py]: the fragment of the Python runtime the agents rely on (dynamic
      values, truthiness, [str]/[repr], [dict.get], [in], subscripts and
      the exceptions they raise);
    - [Eff]: the effect monad and the collaborators of an agent (model,
      host window, clock);
    - [ProtocolAgent], [MeasurementControlAgent]: the two classes, method
      by method; the registry of monitors and its records live in a store
      of shared, mutable dictionaries;
    - [Obs], [Examples]: what the properties observe of a run, and the
      concrete requests they are tried on;
    - [StrFacts] to [MonitorFacts]: the properties of the handlers and of
      the routers;
    - [Witnesses]: the properties at work on the concrete requests.

    Conventions.  The request text is a string; [parameters] and [context]
    are dictionaries with string keys, as their annotation [Dict[str, Any]]
    says, and what they hold is dynamic.  Strings are byte strings:
    [str.lower], [len] and [repr] are exact on ASCII text.  An exception is
    an instance of [Exception], given by its class name and its [str]. *)

From Stdlib Require Import String Ascii List ZArith Bool Arith Lia.
From Stdlib Require Import DecimalString.
Import ListNotations.

Local Open Scope list_scope.
Local Open Scope string_scope.

Set Warnings "-register-all".

(* ================================================================== *)
(** ** Strings *)

Module Str.

(** The empty string, a line feed and the double quote character. *)
Definition empty : string := EmptyString.
Definition nl : string := String (ascii_of_nat 10) EmptyString.
Definition dq : string := String (ascii_of_nat 34) EmptyString.

(** [cat] glues the pieces of an f-string together. *)
Definition cat (pieces : list string) : string := String.concat empty pieces.

(** [sep.join(items)]. *)
Definition join (sep : string) (items : list string) : string :=
  String.concat sep items.

(** The lines of a triple-quoted literal, one list item per source line. *)
Definition lines (ls : list string) : string := String.concat nl ls.

(** [needle in hay] on strings, executable. *)
Fixpoint find (needle hay : string) : bool :=
  if prefix needle hay then true
  else match hay with
       | EmptyString => false
       | String _ rest => find needle rest
       end.

(** [needle] occurs in [hay], as a proposition. *)
Definition occurs (needle hay : string) : Prop :=
  exists before after, hay = before ++ needle ++ after.

(** [str.lower] on the ASCII range; other bytes are left as they are. *)
Definition lower_ascii (c : ascii) : ascii :=
  let n := nat_of_ascii c in
  if (65 <=? n)%nat && (n <=? 90)%nat then ascii_of_nat (n + 32) else c.

Fixpoint lower (s : string) : string :=
  match s with
  | EmptyString => EmptyString
  | String c rest => String (lower_ascii c) (lower rest)
  end.

(** [any(word in text for word in words)]. *)
Definition any_in (words : list string) (text : string) : bool :=
  existsb (fun word => find word text) words.

(** Decimal rendering of an integer, as [str(int)]. *)
Definition of_Z (z : Z) : string := NilZero.string_of_int (Z.to_int z).
Definition of_nat (n : nat) : string := of_Z (Z.of_nat n).

(** Two decimal digits, zero padded: the [%H], [%M] and [%S] fields of
    [strftime]. *)
Definition pad2 (n : nat) : string :=
  if (n <? 10)%nat then "0" ++ of_nat n else of_nat n.

(** One hexadecimal digit, lower case. *)
Definition hex_digit (n : nat) : ascii :=
  if (n <? 10)%nat then ascii_of_nat (48 + n) else ascii_of_nat (87 + n).

(** Membership of a character in a string. *)
Fixpoint has_char (c : ascii) (s : string) : bool :=
  match s with
  | EmptyString => false
  | String d rest => Ascii.eqb c d || has_char c rest
  end.

End Str.

(* ================================================================== *)
(** ** Insertion-ordered dictionaries with string keys *)

Module Dict.

Section Ops.
Context {A : Type}.

(** A Python [dict] keeps its keys in insertion order, so a dictionary is
    an association list; a well-formed one has no duplicate key. *)
Definition t := list (string * A).

Definition keys (d : t) : list string := map fst d.

Definition wf (d : t) : Prop := NoDup (keys d).

(** [d.get(k)], with [None] for a missing key. *)
Fixpoint lookup (k : string) (d : t) : option A :=
  match d with
  | [] => None
  | (k', v) :: rest => if String.eqb k k' then Some v else lookup k rest
  end.

(** [k in d]. *)
Definition mem (k : string) (d : t) : bool :=
  match lookup k d with Some _ => true | None => false end.

(** [d[k] = v]: an existing key keeps its place, a new one goes last. *)
Fixpoint assign (k : string) (v : A) (d : t) : t :=
  match d with
  | [] => [(k, v)]
  | (k', v') :: rest =>
      if String.eqb k k' then (k, v) :: rest else (k', v') :: assign k v rest
  end.

(** [del d[k]] (a missing key is left to the caller to rule out). *)
Fixpoint remove (k : string) (d : t) : t :=
  match d with
  | [] => []
  | (k', v') :: rest =>
      if String.eqb k k' then rest else (k', v') :: remove k rest
  end.

End Ops.

Arguments t : clear implicits.

End Dict.

(* ================================================================== *)
(** ** The Python runtime fragment *)

Module Py.

(** Dynamic values: what a [Dict[str, Any]] snapshot or parameter mapping
    holds.  A float is carried by its [repr] (the agents only format and
    store floats). *)
Inductive value : Type :=
| VNone
| VBool (b : bool)
| VInt (z : Z)
| VFloat (text : string)
| VStr (s : string)
| VList (items : list value)
| VDict (entries : list (string * value)).

Definition dict := Dict.t value.

(** Exceptions deriving from [Exception]: the class name and [str(e)]. *)
Record exn := Exn { exn_class : string; exn_text : string }.

Inductive outcome (A : Type) : Type :=
| Ok (a : A)
| Raise (e : exn).
Arguments Ok {A} a.
Arguments Raise {A} e.

(** Sequencing of operations that may raise. *)
Definition and_then {A B} (o : outcome A) (k : A -> outcome B) : outcome B :=
  match o with
  | Ok a => k a
  | Raise e => Raise e
  end.

(** [type(v).__name__] *)
Definition type_name (v : value) : string :=
  match v with
  | VNone => "NoneType"
  | VBool _ => "bool"
  | VInt _ => "int"
  | VFloat _ => "float"
  | VStr _ => "str"
  | VList _ => "list"
  | VDict _ => "dict"
  end.

(** [bool(v)] *)
Definition truthy (v : value) : bool :=
  match v with
  | VNone => false
  | VBool b => b
  | VInt z => negb (Z.eqb z 0)
  | VFloat text => negb (String.eqb text "0.0" || String.eqb text "-0.0")
  | VStr s => negb (String.eqb s EmptyString)
  | VList items => match items with [] => false | _ => true end
  | VDict entries => match entries with [] => false | _ => true end
  end.

(** [v == 'literal'] for a string literal: only a string is equal to it. *)
Definition eq_str (v : value) (literal : string) : bool :=
  match v with
  | VStr s => String.eqb s literal
  | _ => false
  end.

(** *** [repr] and [str] *)

Definition backslash : ascii := ascii_of_nat 92.
Definition squote : ascii := ascii_of_nat 39.
Definition dquote : ascii := ascii_of_nat 34.

(** [repr] of a string prefers single quotes and switches to double quotes
    when the text has a single quote and no double quote. *)
Definition quote_for (s : string) : ascii :=
  if Str.has_char squote s && negb (Str.has_char dquote s)
  then dquote else squote.

Definition escape_char (q c : ascii) : string :=
  let n := nat_of_ascii c in
  if Ascii.eqb c q || Ascii.eqb c backslash
  then String backslash (String c EmptyString)
  else if (n =? 9)%nat then "\t"
  else if (n =? 10)%nat then "\n"
  else if (n =? 13)%nat then "\r"
  else if (n <? 32)%nat || (n =? 127)%nat
  then "\x" ++ String (Str.hex_digit (n / 16))
                 (String (Str.hex_digit (n mod 16)) EmptyString)
  else String c EmptyString.

Fixpoint escape (q : ascii) (s : string) : string :=
  match s with
  | EmptyString => EmptyString
  | String c rest => escape_char q c ++ escape q rest
  end.

Definition repr_str (s : string) : string :=
  let q := quote_for s in
  String q (escape q s ++ String q EmptyString).

Fixpoint repr (v : value) : string :=
  match v with
  | VNone => "None"
  | VBool true => "True"
  | VBool false => "False"
  | VInt z => Str.of_Z z
  | VFloat text => text
  | VStr s => repr_str s
  | VList items => "[" ++ Str.join ", " (map repr items) ++ "]"
  | VDict entries =>
      "{" ++ Str.join ", "
               (map (fun kv => repr_str (fst kv) ++ ": " ++ repr (snd kv))
                    entries) ++ "}"
  end.

(** [str(v)], which is what an f-string field [{v}] renders. *)
Definition str (v : value) : string :=
  match v with
  | VStr s => s
  | _ => repr v
  end.

(** [str(e)] *)
Definition str_exn (e : exn) : string := exn_text e.

(** [list(d.keys())] of a dictionary, as a value and as rendered. *)
Definition key_list (d : dict) : value := VList (map VStr (Dict.keys d)).

(** *** Equality, as used by [in] on lists *)

Definition float_of_int_text (z : Z) : string := Str.of_Z z ++ ".0".

Definition is_nan (text : string) : bool := String.eqb text "nan".

Fixpoint value_eq (a b : value) {struct a} : bool :=
  match a, b with
  | VNone, VNone => true
  | VBool x, VBool y => Bool.eqb x y
  | VBool x, VInt z => Z.eqb (Z.b2z x) z
  | VInt z, VBool x => Z.eqb z (Z.b2z x)
  | VInt x, VInt y => Z.eqb x y
  | VFloat t, VFloat u => negb (is_nan t) && String.eqb t u
  | VFloat t, VInt z => String.eqb t (float_of_int_text z)
  | VInt z, VFloat t => String.eqb t (float_of_int_text z)
  | VFloat t, VBool x => String.eqb t (float_of_int_text (Z.b2z x))
  | VBool x, VFloat t => String.eqb t (float_of_int_text (Z.b2z x))
  | VStr s, VStr t => String.eqb s t
  | VList l, VList m =>
      (fix go (l m : list value) {struct l} : bool :=
         match l, m with
         | [], [] => true
         | x :: l', y :: m' => value_eq x y && go l' m'
         | _, _ => false
         end) l m
  | VDict d, VDict e =>
      Nat.eqb (length d) (length e) &&
      (fix go (d : list (string * value)) {struct d} : bool :=
         match d with
         | [] => true
         | (k, v) :: d' =>
             match Dict.lookup k e with
             | Some w => value_eq v w
             | None => false
             end && go d'
         end) d
  | _, _ => false
  end.

(** *** Errors raised by the runtime *)

Definition AttributeError (v : value) (attr : string) : exn :=
  Exn "AttributeError"
      (Str.cat ["'"; type_name v; "' object has no attribute '"; attr; "'"]).

Definition Unhashable (v : value) : exn :=
  Exn "TypeError" (Str.cat ["unhashable type: '"; type_name v; "'"]).

Definition NotIterable (v : value) : exn :=
  Exn "TypeError"
      (Str.cat ["argument of type '"; type_name v; "' is not iterable"]).

Definition NotSubscriptable (v : value) : exn :=
  Exn "TypeError"
      (Str.cat ["'"; type_name v; "' object is not subscriptable"]).

Definition NoLen (v : value) : exn :=
  Exn "TypeError"
      (Str.cat ["object of type '"; type_name v; "' has no len()"]).

Definition KeyError (k : value) : exn := Exn "KeyError" (repr k).

Definition IndexError (what : string) : exn :=
  Exn "IndexError" (what ++ " index out of range").

Definition BadIndex (what : string) (k : value) : exn :=
  Exn "TypeError"
      (Str.cat [what; " indices must be integers or slices, not ";
                type_name k]).

Definition BadNeedle (k : value) : exn :=
  Exn "TypeError"
      (Str.cat ["'in <string>' requires string as left operand, not ";
                type_name k]).

(** Lists and dictionaries are not hashable. *)
Definition hashable (v : value) : bool :=
  match v with
  | VList _ | VDict _ => false
  | _ => true
  end.

(** *** Operations on dynamic values *)

(** [d.get(key, default)] on a mapping known to be a [dict]. *)
Definition dget (d : dict) (key : string) (default : value) : value :=
  match Dict.lookup key d with
  | Some x => x
  | None => default
  end.

(** [v.get(key, default)] with a literal key. *)
Definition get (v : value) (key : string) (default : value) : outcome value :=
  match v with
  | VDict d => Ok (dget d key default)
  | _ => Raise (AttributeError v "get")
  end.

(** [v.get(k, default)] with a dynamic key, which is hashed first. *)
Definition get_dyn (v k default : value) : outcome value :=
  match v with
  | VDict d =>
      if hashable k
      then Ok (match k with VStr s => dget d s default | _ => default end)
      else Raise (Unhashable k)
  | _ => Raise (AttributeError v "get")
  end.

(** [list(v.keys())] *)
Definition keys (v : value) : outcome value :=
  match v with
  | VDict d => Ok (key_list d)
  | _ => Raise (AttributeError v "keys")
  end.

(** The names bound by [for name in v.keys()]. *)
Definition key_names (v : value) : outcome (list string) :=
  match v with
  | VDict d => Ok (Dict.keys d)
  | _ => Raise (AttributeError v "keys")
  end.

(** [k in c] *)
Definition contains (k c : value) : outcome bool :=
  match c with
  | VDict d =>
      if hashable k
      then Ok (match k with VStr s => Dict.mem s d | _ => false end)
      else Raise (Unhashable k)
  | VList items => Ok (existsb (value_eq k) items)
  | VStr s =>
      match k with
      | VStr t => Ok (Str.find t s)
      | _ => Raise (BadNeedle k)
      end
  | _ => Raise (NotIterable c)
  end.

(** An integer index, with Python's wrap-around of negative positions. *)
Definition as_index (k : value) : option Z :=
  match k with
  | VInt z => Some z
  | VBool b => Some (Z.b2z b)
  | _ => None
  end.

Definition position (i : Z) (len : nat) : option nat :=
  let j := if (i <? 0)%Z then (i + Z.of_nat len)%Z else i in
  if (0 <=? j)%Z && (j <? Z.of_nat len)%Z then Some (Z.to_nat j) else None.

(** [c[k]] *)
Definition getitem (c k : value) : outcome value :=
  match c with
  | VDict d =>
      if hashable k
      then match k with
           | VStr s =>
               match Dict.lookup s d with
               | Some x => Ok x
               | None => Raise (KeyError k)
               end
           | _ => Raise (KeyError k)
           end
      else Raise (Unhashable k)
  | VList items =>
      match as_index k with
      | Some i =>
          match position i (length items) with
          | Some n =>
              match nth_error items n with
              | Some x => Ok x
              | None => Raise (IndexError "list")
              end
          | None => Raise (IndexError "list")
          end
      | None => Raise (BadIndex "list" k)
      end
  | VStr s =>
      match as_index k with
      | Some i =>
          match position i (String.length s) with
          | Some n =>
              match String.get n s with
              | Some ch => Ok (VStr (String ch EmptyString))
              | None => Raise (IndexError "string")
              end
          | None => Raise (IndexError "string")
          end
      | None => Raise (BadIndex "string" k)
      end
  | _ => Raise (NotSubscriptable c)
  end.

(** *** The snapshot

    Both agents read the intent and the protocol map through
    [context.get('system_state', {})]. *)
Definition snapshot_intent (context : dict) : outcome value :=
  get (dget context "system_state" (VDict [])) "intent" (VStr "unknown").

Definition snapshot_protocols (context : dict) : outcome value :=
  get (dget context "system_state" (VDict [])) "protocols" (VDict []).

(** [len(v)] *)
Definition len (v : value) : outcome nat :=
  match v with
  | VDict d => Ok (length d)
  | VList items => Ok (length items)
  | VStr s => Ok (String.length s)
  | _ => Raise (NoLen v)
  end.

End Py.

(* ================================================================== *)
(** ** Effects: state, exceptions and the trace of outward calls *)

Module Eff.

Import Py.

(** A reading of [datetime.now()]: the time of day that [strftime] prints
    and the rest of the instant. *)
Record datetime := Datetime {
  dt_hour : nat;
  dt_minute : nat;
  dt_second : nat;
  dt_rest : Z
}.

(** [dt.strftime('%H%M%S')] *)
Definition strftime_HMS (dt : datetime) : string :=
  Str.cat [Str.pad2 (dt_hour dt); Str.pad2 (dt_minute dt);
           Str.pad2 (dt_second dt)].

(** What an agent does to the outside, in order.  [EvCall] is a ghost
    event marking that the router entered one of its handlers. *)
Inductive event : Type :=
| EvCall (handler : string)
| EvAgentRun (prompt : string)
| EvHostRun (protocol_name : value)
| EvLog (level message : string)
| EvThreadStart (target monitor_id : string).

(** What a trace says about each kind of outward call. *)
Definition handler_call (ev : event) : list string :=
  match ev with EvCall handler => [handler] | _ => [] end.
Definition model_call (ev : event) : list string :=
  match ev with EvAgentRun prompt => [prompt] | _ => [] end.
Definition host_call (ev : event) : list value :=
  match ev with EvHostRun name => [name] | _ => [] end.
Definition thread_start (ev : event) : list (string * string) :=
  match ev with
  | EvThreadStart target monitor_id => [(target, monitor_id)]
  | _ => []
  end.

(** The handlers entered, the prompts sent to the model, the protocols
    handed to the host and the loops started, in order. *)
Definition handler_calls (t : list event) : list string :=
  flat_map handler_call t.
Definition model_calls (t : list event) : list string :=
  flat_map model_call t.
Definition host_calls (t : list event) : list value :=
  flat_map host_call t.
Definition thread_starts (t : list event) : list (string * string) :=
  flat_map thread_start t.

(** The collaborators of an agent: the hosted model behind
    [self.agent.run] (its answer as rendered by an f-string, or the
    exception it raises), the host window and the wall clock. *)
Record world := World {
  agent_run : string -> outcome string;
  has_run_protocol : bool;
  host_run_protocol : value -> option exn;
  clock : nat -> datetime
}.

(** The process: the number of clock readings so far and the agent
    object. *)
Record machine (S : Type) := Machine {
  ticks : nat;
  self : S
}.
Arguments Machine {S} ticks self.
Arguments ticks {S} m.
Arguments self {S} m.

Definition M (S A : Type) : Type :=
  machine S -> outcome A * machine S * list event.

(** The three components of a finished run. *)
Definition result {S A} (run : outcome A * machine S * list event)
  : outcome A := fst (fst run).
Definition final {S A} (run : outcome A * machine S * list event)
  : machine S := snd (fst run).
Definition trace {S A} (run : outcome A * machine S * list event)
  : list event := snd run.

Section Monad.
Context {S : Type}.

Definition ret {A} (a : A) : M S A := fun m => (Ok a, m, []).

Definition raise {A} (e : exn) : M S A := fun m => (Raise e, m, []).

Definition bind {A B} (c : M S A) (k : A -> M S B) : M S B :=
  fun m =>
    match c m with
    | (Ok a, m1, t1) =>
        match k a m1 with
        | (r, m2, t2) => (r, m2, (t1 ++ t2)%list)
        end
    | (Raise e, m1, t1) => (Raise e, m1, t1)
    end.

(** A pure runtime operation that may raise. *)
Definition lift {A} (o : outcome A) : M S A := fun m => (o, m, []).

Definition emit (ev : event) : M S unit := fun m => (Ok tt, m, [ev]).

Definition get_self : M S S := fun m => (Ok (self m), m, []).

Definition set_self (s : S) : M S unit :=
  fun m => (Ok tt, Machine (ticks m) s, []).

(** [try: c  except Exception as e: h e] *)
Definition try_except {A} (c : M S A) (h : exn -> M S A) : M S A :=
  fun m =>
    match c m with
    | (Ok a, m1, t1) => (Ok a, m1, t1)
    | (Raise e, m1, t1) =>
        match h e m1 with
        | (r, m2, t2) => (r, m2, (t1 ++ t2)%list)
        end
    end.

Section World.
Variable w : world.

(** [datetime.now()] *)
Definition now : M S datetime :=
  fun m => (Ok (clock w (ticks m)), Machine (Datatypes.S (ticks m)) (self m), []).

(** [self.agent.run(prompt)], rendered. *)
Definition run_agent (prompt : string) : M S string :=
  fun m => (agent_run w prompt, m, [EvAgentRun prompt]).

(** [self.main_window.run_protocol(name)] *)
Definition run_host (name : value) : M S unit :=
  fun m =>
    (match host_run_protocol w name with
     | None => Ok tt
     | Some e => Raise e
     end, m, [EvHostRun name]).

End World.

(** [self.logger.info(msg)] and [self.logger.error(msg)] *)
Definition log_info (msg : string) : M S unit := emit (EvLog "info" msg).
Definition log_error (msg : string) : M S unit := emit (EvLog "error" msg).

End Monad.

Declare Scope eff_scope.
Delimit Scope eff_scope with eff.
Notation "x <- c ;; k" := (bind c (fun x => k))
  (at level 61, c at next level, right associativity) : eff_scope.
Notation "c ;; k" := (bind c (fun _ => k))
  (at level 61, right associativity) : eff_scope.

End Eff.

(* ================================================================== *)
(** ** [ProtocolAgent] ([protocol_agent.py]) *)

Module ProtocolAgent.

Import Py Eff.
Local Open Scope eff_scope.

(** The mutable part of the object: [self.last_used].  The window, the
    logger and the model are collaborators and live in the [world]. *)
Record state := State { last_used : option datetime }.

Definition agent := M state.

Section Agent.
Variable w : world.

(** [_can_execute_protocol] *)
Definition _can_execute_protocol (protocol_name : value) (context : dict)
  : agent bool :=
  let system_state := dget context "system_state" (VDict []) in
  active_sample <- lift (get system_state "active_sample" VNone) ;;
  if eq_str active_sample "None" then ret false
  else
    running <- lift (get system_state "protocol_running" (VBool false)) ;;
    if truthy running then ret false
    else ret true.

(** [_run_protocol] *)
Definition _run_protocol (user_input : string) (parameters context : dict)
  : agent string :=
  let protocol_name := dget parameters "protocol_name" VNone in
  if negb (truthy protocol_name)
  then ret "I need a protocol name to execute. Which protocol would you like to run?"
  else
    let system_state := dget context "system_state" (VDict []) in
    available_protocols <- lift (get system_state "protocols" (VDict [])) ;;
    active_sample <- lift (get system_state "active_sample" (VStr "None")) ;;
    instruments <- lift (get system_state "instruments" (VDict [])) ;;
    known <- lift (contains protocol_name available_protocols) ;;
    if negb known
    then
      names <- lift (keys available_protocols) ;;
      ret (Str.cat ["Protocol '"; str protocol_name;
                   "' not found. Available protocols: "; str names])
    else
      instrument_keys <- lift (keys instruments) ;;
      details <- lift (get_dyn available_protocols protocol_name (VDict [])) ;;
      let execution_prompt :=
        Str.lines [
          Str.empty;
          Str.cat ["        The user wants to execute protocol '"; str protocol_name; "':"];
          Str.cat ["        "; Str.dq; user_input; Str.dq];
          "        ";
          "        Current context:";
          Str.cat ["        - Active sample: "; str active_sample];
          Str.cat ["        - Available instruments: "; str instrument_keys];
          Str.cat ["        - Protocol details: "; str details];
          "        ";
          "        Provide guidance for protocol execution, including:";
          "        1. Pre-execution checks";
          "        2. Required instruments and their status";
          "        3. Estimated execution time";
          "        4. Any warnings or considerations";
          "        5. Recommendations for conditional execution if applicable";
          "        "] in
      try_except
        (agent_response <- run_agent w execution_prompt ;;
         can_execute <- _can_execute_protocol protocol_name context ;;
         if can_execute
         then
           if has_run_protocol w
           then
             run_host w protocol_name ;;
             ret (Str.cat ["🔬 Starting protocol '"; str protocol_name; "':"; Str.nl;
                          agent_response; Str.nl; Str.nl;
                          "✅ Protocol execution initiated!"])
           else
             ret (Str.cat ["🔬 Protocol '"; str protocol_name; "' ready to start:"; Str.nl;
                          agent_response; Str.nl; Str.nl;
                          "⚠️ Please use the main interface to start execution."])
         else
           ret (Str.cat ["⚠️ Cannot execute protocol '"; str protocol_name;
                        "' right now:"; Str.nl; agent_response]))
        (fun e =>
           log_error (Str.cat ["Error in protocol execution: "; str_exn e]) ;;
           ret (Str.cat ["I encountered an error while preparing to execute the protocol: ";
                        str_exn e])).

(** [_inspect_protocol] *)
Definition _inspect_protocol (user_input : string) (parameters context : dict)
  : agent string :=
  let protocol_name := dget parameters "protocol_name" VNone in
  let system_state := dget context "system_state" (VDict []) in
  available_protocols <- lift (get system_state "protocols" (VDict [])) ;;
  if negb (truthy protocol_name)
  then
    if truthy available_protocols
    then
      names <- lift (keys available_protocols) ;;
      ret (Str.cat ["📋 I can inspect any of these protocols: "; str names;
                   ". Which one would you like to analyze?"])
    else ret "📋 No protocols are currently loaded. Please load a protocol first."
  else
    known <- lift (contains protocol_name available_protocols) ;;
    if negb known
    then
      names <- lift (keys available_protocols) ;;
      ret (Str.cat ["❌ Protocol '"; str protocol_name;
                   "' not found. Available protocols: "; str names])
    else
      protocol_data <- lift (getitem available_protocols protocol_name) ;;
      instruments <- lift (get system_state "instruments" (VDict [])) ;;
      instrument_keys <- lift (keys instruments) ;;
      active_sample <- lift (get system_state "active_sample" (VStr "None")) ;;
      let inspection_prompt :=
        Str.lines [
          Str.empty;
          Str.cat ["        The user wants to inspect protocol '"; str protocol_name; "':"];
          Str.cat ["        "; Str.dq; user_input; Str.dq];
          "        ";
          Str.cat ["        Protocol data: "; str protocol_data];
          Str.cat ["        Available instruments: "; str instrument_keys];
          Str.cat ["        Current sample: "; str active_sample];
          "        ";
          "        Provide a comprehensive protocol analysis including:";
          "        1. Protocol overview and purpose";
          "        2. Step-by-step breakdown of the measurement sequence";
          "        3. Required instruments and their specific roles";
          "        4. Expected data outputs and formats";
          "        5. Estimated execution time and resource usage";
          "        6. Safety considerations and potential risks";
          "        7. Prerequisites and dependencies";
          "        8. Suggestions for optimization or modifications";
          "        9. Compatibility with conditional execution features";
          "        "] in
      try_except
        (agent_response <- run_agent w inspection_prompt ;;
         ret (Str.cat ["🔍 Protocol Analysis for '"; str protocol_name; "':"; Str.nl;
                      Str.nl; agent_response]))
        (fun e =>
           log_error (Str.cat ["Error inspecting protocol: "; str_exn e]) ;;
           ret (Str.cat ["I encountered an error while inspecting the protocol: ";
                        str_exn e])).

(** [_get_protocol_status] *)
Definition _get_protocol_status (user_input : string)
  (parameters context : dict) : agent string :=
  let system_state := dget context "system_state" (VDict []) in
  protocol_running <- lift (get system_state "protocol_running" (VBool false)) ;;
  current_protocol <- lift (get system_state "current_protocol" VNone) ;;
  execution_progress <- lift (get system_state "execution_progress" (VInt 0)) ;;
  protocols <- lift (get system_state "protocols" (VDict [])) ;;
  names <- lift (keys protocols) ;;
  let status_prompt :=
    Str.lines [
      Str.empty;
      "        The user wants to check protocol status:";
      Str.cat ["        "; Str.dq; user_input; Str.dq];
      "        ";
      "        Current status:";
      Str.cat ["        - Protocol running: "; str protocol_running];
      Str.cat ["        - Current protocol: "; str current_protocol];
      Str.cat ["        - Execution progress: "; str execution_progress; "%"];
      Str.cat ["        - Available protocols: "; str names];
      "        ";
      "        Provide a clear status report and suggest next actions if appropriate.";
      "        "] in
  try_except
    (agent_response <- run_agent w status_prompt ;;
     ret (Str.cat ["📊 Protocol Status:"; Str.nl; Str.nl; agent_response]))
    (fun e =>
       log_error (Str.cat ["Error getting protocol status: "; str_exn e]) ;;
       ret (Str.cat ["I encountered an error while checking protocol status: ";
                    str_exn e])).

(** The text returned by [_list_protocols] when no protocol is loaded. *)
Definition no_protocols_message : string :=
  Str.lines [
    "📋 **No measurement protocols found.**";
    Str.empty;
    "This could be because:";
    "1. **No protocols have been loaded yet** - Protocols need to be loaded from files or created";
    "2. **The system is still initializing** - Please wait a moment and try again";
    "3. **Protocols are stored elsewhere** - Check if protocols are loaded in the main interface";
    Str.empty;
    "**To load or create protocols:**";
    Str.empty;
    "🔧 **Loading existing protocols:**";
    "- Go to **File → Load Protocol** in the main menu";
    "- Navigate to your protocol files (usually `.json` or `.camels` files)";
    "- Select and load your measurement protocols";
    Str.empty;
    "🔧 **Creating new protocols:**";
    "- Use the **Protocol Builder** in the main interface";
    "- Define measurement steps, instruments, and parameters";
    "- Save your protocol for future use";
    Str.empty;
    "🔧 **Importing protocols:**";
    "- Import protocols from previous NOMAD-CAMELS sessions";
    "- Load protocol templates from the examples folder";
    Str.empty;
    "📝 **Need help?** Ask me:";
    Str.cat ["- "; Str.dq; "How do I create a new protocol?"; Str.dq];
    Str.cat ["- "; Str.dq; "How do I load existing protocols?"; Str.dq];
    Str.cat ["- "; Str.dq; "Show me protocol examples"; Str.dq];
    Str.empty;
    "Would you like guidance on any of these options?"].

(** The bullet list built in the [except] branch of [_list_protocols]:
    one line per protocol name, a bullet before each. *)
Definition bullet_list (names : list string) : string :=
  Str.join Str.nl (map (fun name => Str.cat ["• "; name]) names).

(** The text [_list_protocols] falls back to when the model call fails. *)
Definition fallback_listing (count : nat) (protocol_list : string) (e : exn)
  : string :=
  Str.cat ["📋 **Available Protocols ("; Str.of_nat count; " found):**";
           Str.nl; Str.nl; protocol_list; Str.nl; Str.nl;
           "Note: Error occurred while getting detailed information: ";
           str_exn e].

(** [_list_protocols] *)
Definition _list_protocols (user_input : string) (parameters context : dict)
  : agent string :=
  let system_state := dget context "system_state" (VDict []) in
  available_protocols <- lift (get system_state "protocols" (VDict [])) ;;
  count <- lift (len available_protocols) ;;
  names <- lift (keys available_protocols) ;;
  log_info (Str.cat ["Listing protocols. Found "; Str.of_nat count; " protocols: ";
                    str names]) ;;
  if negb (truthy available_protocols)
  then ret no_protocols_message
  else
    active_sample <- lift (get system_state "active_sample" (VStr "None")) ;;
    instruments <- lift (get system_state "instruments" (VDict [])) ;;
    instrument_keys <- lift (keys instruments) ;;
    let list_prompt :=
      Str.lines [
        Str.empty;
        "        The user wants to see the protocol list:";
        Str.cat ["        "; Str.dq; user_input; Str.dq];
        "        ";
        Str.cat ["        Available protocols: "; str available_protocols];
        "        Current system context:";
        Str.cat ["        - Active sample: "; str active_sample];
        Str.cat ["        - Available instruments: "; str instrument_keys];
        "        ";
        "        Format this information in a user-friendly way, showing:";
        "        1. Protocol names and descriptions";
        "        2. Key requirements for each protocol";
        "        3. Estimated execution times (if available)";
        "        4. Compatibility with current setup";
        "        5. Recommended use cases";
        "        ";
        "        Present this as a numbered list with clear formatting.";
        "        "] in
    try_except
      (agent_response <- run_agent w list_prompt ;;
       count <- lift (len available_protocols) ;;
       ret (Str.cat ["📋 **Available Protocols ("; Str.of_nat count; " found):**";
                    Str.nl; Str.nl; agent_response]))
      (fun e =>
         log_error (Str.cat ["Error listing protocols: "; str_exn e]) ;;
         key_names <- lift (key_names available_protocols) ;;
         let protocol_list := bullet_list key_names in
         count <- lift (len available_protocols) ;;
         ret (fallback_listing count protocol_list e)).

(** [_general_protocol_query] *)
Definition _general_protocol_query (user_input : string)
  (parameters context : dict) : agent string :=
  let system_state := dget context "system_state" (VDict []) in
  available_protocols <- lift (get system_state "protocols" (VDict [])) ;;
  names <- lift (keys available_protocols) ;;
  active_sample <- lift (get system_state "active_sample" (VStr "None")) ;;
  instruments <- lift (get system_state "instruments" (VDict [])) ;;
  instrument_keys <- lift (keys instruments) ;;
  let query_prompt :=
    Str.lines [
      Str.empty;
      "        The user has a general protocol-related question:";
      Str.cat ["        "; Str.dq; user_input; Str.dq];
      "        ";
      "        Current context:";
      Str.cat ["        - Available protocols: "; str names];
      Str.cat ["        - Parameters extracted: "; str (VDict parameters)];
      Str.cat ["        - Active sample: "; str active_sample];
      Str.cat ["        - Available instruments: "; str instrument_keys];
      "        ";
      "        Provide a helpful response and suggest specific actions if appropriate.";
      "        Consider whether this query might benefit from:";
      "        1. Protocol inspection capabilities";
      "        2. Conditional execution features";
      "        3. Device monitoring";
      "        4. Protocol modification suggestions";
      "        "] in
  try_except
    (agent_response <- run_agent w query_prompt ;;
     ret (Str.cat ["🔬 Protocol Information: "; agent_response]))
    (fun e =>
       log_error (Str.cat ["Error handling protocol query: "; str_exn e]) ;;
       ret (Str.cat ["I encountered an error while processing your protocol query: ";
                    str_exn e])).

(** The intent the router dispatches on: the first part of the [try]
    block of [process_request].  The intent of the snapshot is used unless
    it is ['unknown'] or missing; then the last entry of the conversation
    history is asked, and then the keywords of the request. *)
Definition resolve_intent (user_input : string) (context : dict)
  : outcome value :=
  and_then (snapshot_intent context) (fun intent =>
  if eq_str intent "unknown"
  then
    let conv_history := dget context "conversation_history" (VList []) in
    and_then
      (if truthy conv_history
       then and_then (getitem conv_history (VInt (-1))) (fun latest =>
                      get latest "intent" (VStr "unknown"))
       else Ok intent)
      (fun intent =>
         if eq_str intent "unknown"
         then
           let user_lower := Str.lower user_input in
           if Str.any_in ["list"; "show"; "provide"] user_lower
              && Str.any_in ["protocol"; "measurement protocol"; "protocols"]
                            user_lower
           then Ok (VStr "list_protocols")
           else if Str.any_in ["run"; "execute"; "start"] user_lower
           then Ok (VStr "run_protocol")
           else if Str.any_in ["inspect"; "analyze"; "examine"] user_lower
           then Ok (VStr "inspect_protocol")
           else Ok intent
         else Ok intent)
  else Ok intent).

(** Entering a handler from the router. *)
Definition call {A} (handler : string) (body : agent A) : agent A :=
  emit (EvCall handler) ;; body.

(** The [try] block of [process_request]. *)
Definition dispatch (user_input : string) (parameters context : dict)
  : agent string :=
  intent <- lift (resolve_intent user_input context) ;;
  log_info (Str.cat ["Processing protocol request with intent: "; str intent]) ;;
  if eq_str intent "run_protocol"
  then call "_run_protocol" (_run_protocol user_input parameters context)
  else if eq_str intent "list_protocols"
  then call "_list_protocols" (_list_protocols user_input parameters context)
  else if eq_str intent "inspect_protocol"
  then call "_inspect_protocol"
            (_inspect_protocol user_input parameters context)
  else if eq_str intent "protocol_status"
  then call "_get_protocol_status"
            (_get_protocol_status user_input parameters context)
  else call "_general_protocol_query"
            (_general_protocol_query user_input parameters context).

(** The text [process_request] answers with when the [try] block raises. *)
Definition request_error_message (e : exn) : string :=
  Str.cat ["I encountered an error while processing your protocol request: ";
           str_exn e; ". Please try again."].

(** [self.last_used = datetime.now()] *)
Definition stamp_last_used : agent unit :=
  t <- now w ;;
  set_self (State (Some t)).

(** [process_request] *)
Definition process_request (user_input : string) (parameters context : dict)
  : agent string :=
  stamp_last_used ;;
  try_except
    (dispatch user_input parameters context)
    (fun e =>
       log_error (Str.cat ["Error processing protocol request: "; str_exn e]) ;;
       ret (request_error_message e)).

End Agent.

(** The intents [process_request] has a handler for. *)
Definition known_intents : list string :=
  ["run_protocol"; "list_protocols"; "inspect_protocol"; "protocol_status"].

End ProtocolAgent.


(* ================================================================== *)
(** ** [MeasurementControlAgent] ([measurement_control_agent.py]) *)

Module MeasurementControlAgent.

Import Py Eff.
Local Open Scope eff_scope.

(** *** The object store

    The monitor registry and its records are Python dictionaries that are
    mutated in place and shared by reference, so they live in a store of
    objects addressed by position.  A slot of such a dictionary holds a
    reference to another object, a plain value, an instant or a thread
    handle. *)
Inductive hval : Type :=
| HRef (address : nat)
| HVal (v : value)
| HTime (t : datetime)
| HThread (target monitor_id : string).

Definition object := Dict.t hval.
Definition heap := list object.

Definition deref (h : heap) (address : nat) : object := nth address h [].

Fixpoint update (h : heap) (address : nat) (o : object) : heap :=
  match h, address with
  | [], _ => []
  | _ :: rest, O => o :: rest
  | first :: rest, Datatypes.S a => first :: update rest a o
  end.

(** [self.active_monitors], [self.monitoring_threads] and
    [self.condition_handlers] are references into the store. *)
Record state := State {
  last_used : option datetime;
  store : heap;
  active_monitors : nat;
  monitoring_threads : nat;
  condition_handlers : nat
}.

Definition with_store (s : state) (h : heap) : state :=
  State (last_used s) h (active_monitors s) (monitoring_threads s)
        (condition_handlers s).

Definition with_last_used (s : state) (t : datetime) : state :=
  State (Some t) (store s) (active_monitors s) (monitoring_threads s)
        (condition_handlers s).

(** The three empty dictionaries made by [__init__]. *)
Definition init : state := State None [[]; []; []] 0 1 2.

Definition agent := M state.

(** The registry as the agent sees it. *)
Definition registry (s : state) : object := deref (store s) (active_monitors s).
Definition threads (s : state) : object := deref (store s) (monitoring_threads s).

Definition read (address : nat) : agent object :=
  s <- get_self ;; ret (deref (store s) address).

Definition write (address : nat) (o : object) : agent unit :=
  s <- get_self ;; set_self (with_store s (update (store s) address o)).

(** A new dictionary object; its address is the next free position. *)
Definition new (o : object) : agent nat :=
  s <- get_self ;;
  set_self (with_store s (store s ++ [o])%list) ;;
  ret (length (store s)).

(** [k in o], [o[k]] and [del o[k]] with a dynamic key. *)
Definition has (k : value) (o : object) : outcome bool :=
  if hashable k
  then Ok (match k with VStr key => Dict.mem key o | _ => false end)
  else Raise (Unhashable k).

Definition item (o : object) (k : value) : outcome hval :=
  if hashable k
  then match k with
       | VStr key =>
           match Dict.lookup key o with
           | Some x => Ok x
           | None => Raise (KeyError k)
           end
       | _ => Raise (KeyError k)
       end
  else Raise (Unhashable k).

Definition without (o : object) (k : value) : outcome object :=
  if hashable k
  then match k with
       | VStr key =>
           if Dict.mem key o then Ok (Dict.remove key o)
           else Raise (KeyError k)
       | _ => Raise (KeyError k)
       end
  else Raise (Unhashable k).

Definition NoItemAssignment : exn :=
  Exn "TypeError" "object does not support item assignment".

Definition NoSubscript : exn :=
  Exn "TypeError" "object is not subscriptable".

(** [for x in xs: body x] *)
Fixpoint for_each {A} (xs : list A) (body : A -> agent unit) : agent unit :=
  match xs with
  | [] => ret tt
  | x :: rest => body x ;; for_each rest body
  end.

Section Agent.
Variable w : world.

(** [_extract_condition_from_text] *)
Definition _extract_condition_from_text (text : string) : string := text.

(** [self.active_monitors[monitor_id]['status'] = status] *)
Definition set_status (monitor_id : value) (status : string) : agent unit :=
  s <- get_self ;;
  monitors <- read (active_monitors s) ;;
  entry <- lift (item monitors monitor_id) ;;
  match entry with
  | HRef r =>
      record <- read r ;;
      write r (Dict.assign "status" (HVal (VStr status)) record)
  | _ => raise NoItemAssignment
  end.

(** [_stop_monitor] *)
Definition _stop_monitor (monitor_id : value) : agent unit :=
  s <- get_self ;;
  monitors <- read (active_monitors s) ;;
  present <- lift (has monitor_id monitors) ;;
  (if present
   then
     set_status monitor_id "stopped" ;;
     monitors <- read (active_monitors s) ;;
     remaining <- lift (without monitors monitor_id) ;;
     write (active_monitors s) remaining
   else ret tt) ;;
  running <- read (monitoring_threads s) ;;
  present <- lift (has monitor_id running) ;;
  if present
  then
    remaining <- lift (without running monitor_id) ;;
    write (monitoring_threads s) remaining
  else ret tt.

(** The test of the [while] of both monitor loops:
    [monitor_id in self.active_monitors and
     self.active_monitors[monitor_id]['status'] == 'active']. *)
Definition monitor_is_active (monitor_id : string) : agent bool :=
  s <- get_self ;;
  monitors <- read (active_monitors s) ;;
  if Dict.mem monitor_id monitors
  then
    entry <- lift (item monitors (VStr monitor_id)) ;;
    status <- match entry with
              | HRef r =>
                  record <- read r ;;
                  lift (item record (VStr "status"))
              | HVal v =>
                  found <- lift (getitem v (VStr "status")) ;;
                  ret (HVal found)
              | _ => raise NoSubscript
              end ;;
    ret (match status with
         | HVal v => eq_str v "active"
         | _ => false
         end)
  else ret false.

(** The [except] branch of both monitor loops. *)
Definition monitor_failed (monitor_id : string) (message : string)
  : agent unit :=
  log_error message ;;
  s <- get_self ;;
  monitors <- read (active_monitors s) ;;
  if Dict.mem monitor_id monitors
  then set_status (VStr monitor_id) "error"
  else ret tt.

(** One turn of [_conditional_monitor_loop]: the test of the [while] and,
    when it holds, the body; the answer says whether the loop goes on.
    The turns run on the monitor's own thread, between the requests of
    the main thread; [time.sleep] has no counterpart here. *)
Definition _conditional_monitor_loop_turn (monitor_id : string)
  (protocol_name condition : value) : agent bool :=
  try_except
    (active <- monitor_is_active monitor_id ;;
     if active
     then
       log_info (Str.cat ["Monitoring condition '"; str condition; "' for protocol '";
                          str protocol_name; "'"]) ;;
       ret true
     else ret false)
    (fun e =>
       monitor_failed monitor_id
         (Str.cat ["Error in conditional monitor "; monitor_id; ": "; str_exn e]) ;;
       ret false).

(** One turn of [_device_monitor_loop]. *)
Definition _device_monitor_loop_turn (monitor_id : string)
  (device_name parameter interval : value) : agent bool :=
  try_except
    (active <- monitor_is_active monitor_id ;;
     if active
     then
       log_info (Str.cat ["Monitoring "; str device_name; "."; str parameter; " every ";
                          str interval; "s"]) ;;
       ret true
     else ret false)
    (fun e =>
       monitor_failed monitor_id
         (Str.cat ["Error in device monitor "; monitor_id; ": "; str_exn e]) ;;
       ret false).

(** [get_active_monitors]: [dict(self.active_monitors)] is a new
    dictionary object with the same slots. *)
Definition get_active_monitors : agent nat :=
  s <- get_self ;;
  monitors <- read (active_monitors s) ;;
  new monitors.

(** [_create_conditional_monitor].  The loop it starts runs on another
    thread; the trace records that it was started, and a turn of the loop
    is [_conditional_monitor_loop_turn]. *)
Definition _create_conditional_monitor (protocol_name condition : value)
  (context : dict) : agent string :=
  stamp <- now w ;;
  let monitor_id :=
    Str.cat ["conditional_"; str protocol_name; "_"; strftime_HMS stamp] in
  created <- now w ;;
  record <- new [("type", HVal (VStr "conditional"));
                 ("protocol", HVal protocol_name);
                 ("condition", HVal condition);
                 ("created", HTime created);
                 ("status", HVal (VStr "active"))] ;;
  s <- get_self ;;
  monitors <- read (active_monitors s) ;;
  write (active_monitors s) (Dict.assign monitor_id (HRef record) monitors) ;;
  emit (EvThreadStart "_conditional_monitor_loop" monitor_id) ;;
  running <- read (monitoring_threads s) ;;
  write (monitoring_threads s)
        (Dict.assign monitor_id
                     (HThread "_conditional_monitor_loop" monitor_id) running) ;;
  ret monitor_id.

(** [_create_device_monitor] *)
Definition _create_device_monitor (device_name parameter interval : value)
  (context : dict) : agent string :=
  stamp <- now w ;;
  let monitor_id :=
    Str.cat ["device_"; str device_name; "_"; strftime_HMS stamp] in
  created <- now w ;;
  record <- new [("type", HVal (VStr "device"));
                 ("device", HVal device_name);
                 ("parameter", HVal parameter);
                 ("interval", HVal interval);
                 ("created", HTime created);
                 ("status", HVal (VStr "active"))] ;;
  s <- get_self ;;
  monitors <- read (active_monitors s) ;;
  write (active_monitors s) (Dict.assign monitor_id (HRef record) monitors) ;;
  emit (EvThreadStart "_device_monitor_loop" monitor_id) ;;
  running <- read (monitoring_threads s) ;;
  write (monitoring_threads s)
        (Dict.assign monitor_id
                     (HThread "_device_monitor_loop" monitor_id) running) ;;
  ret monitor_id.

(** [_inspect_protocol] *)
Definition _inspect_protocol (user_input : string) (parameters context : dict)
  : agent string :=
  let protocol_name := dget parameters "protocol_name" VNone in
  let system_state := dget context "system_state" (VDict []) in
  available_protocols <- lift (get system_state "protocols" (VDict [])) ;;
  if negb (truthy protocol_name)
  then
    if truthy available_protocols
    then
      names <- lift (keys available_protocols) ;;
      ret (Str.cat ["📋 I can inspect any of these protocols: "; str names;
                   ". Which one would you like to analyze?"])
    else ret "📋 No protocols are currently loaded. Please load a protocol first."
  else
    known <- lift (contains protocol_name available_protocols) ;;
    if negb known
    then
      names <- lift (keys available_protocols) ;;
      ret (Str.cat ["❌ Protocol '"; str protocol_name;
                   "' not found. Available protocols: "; str names])
    else
      protocol_data <- lift (getitem available_protocols protocol_name) ;;
      instruments <- lift (get system_state "instruments" (VDict [])) ;;
      instrument_keys <- lift (keys instruments) ;;
      active_sample <- lift (get system_state "active_sample" (VStr "None")) ;;
      let inspection_prompt :=
        Str.lines [
          Str.empty;
          Str.cat ["        The user wants to inspect protocol '"; str protocol_name; "':"];
          Str.cat ["        "; Str.dq; user_input; Str.dq];
          "        ";
          Str.cat ["        Protocol data: "; str protocol_data];
          Str.cat ["        Available instruments: "; str instrument_keys];
          Str.cat ["        Current sample: "; str active_sample];
          "        ";
          "        Provide a comprehensive protocol analysis including:";
          "        1. Protocol overview and purpose";
          "        2. Detailed step-by-step breakdown";
          "        3. Required instruments and their roles";
          "        4. Estimated execution time";
          "        5. Resource requirements (memory, disk space, etc.)";
          "        6. Potential safety considerations";
          "        7. Optimization suggestions";
          "        8. Dependencies and prerequisites";
          "        "] in
      try_except
        (agent_response <- run_agent w inspection_prompt ;;
         ret (Str.cat ["🔍 Protocol Analysis for '"; str protocol_name; "':"; Str.nl;
                      Str.nl; agent_response]))
        (fun e =>
           log_error (Str.cat ["Error inspecting protocol: "; str_exn e]) ;;
           ret (Str.cat ["I encountered an error while inspecting the protocol: ";
                        str_exn e])).

(** The words that make [_setup_conditional_execution] take the request
    itself as the condition. *)
Definition condition_keywords : list string :=
  ["until"; "when"; "if"; "reaches"; "below"; "above"].

(** The condition after the keyword fallback of
    [_setup_conditional_execution]. *)
Definition effective_condition (user_input : string) (parameters : dict)
  : value :=
  let condition := dget parameters "condition" (VStr EmptyString) in
  if negb (truthy condition)
     && Str.any_in condition_keywords (Str.lower user_input)
  then VStr (_extract_condition_from_text user_input)
  else condition.

(** The two answers of [_setup_conditional_execution] once the model has
    answered: with the monitor it created, or with the analysis only. *)
Definition setup_message (agent_response monitor_id : string) : string :=
  Str.cat ["🎯 Conditional Execution Setup:"; Str.nl; Str.nl; agent_response;
           Str.nl; Str.nl; "✅ Monitor created with ID: "; monitor_id].

Definition analysis_message (agent_response : string) : string :=
  Str.cat ["🎯 Conditional Execution Analysis:"; Str.nl; Str.nl;
           agent_response; Str.nl; Str.nl;
           "⚠️ Please provide more specific details to set up the actual monitoring."].

(** [_setup_conditional_execution] *)
Definition _setup_conditional_execution (user_input : string)
  (parameters context : dict) : agent string :=
  let protocol_name := dget parameters "protocol_name" VNone in
  let device := dget parameters "device" (VStr EmptyString) in
  let parameter_name := dget parameters "parameter" (VStr EmptyString) in
  let threshold := dget parameters "threshold" (VStr EmptyString) in
  let system_state := dget context "system_state" (VDict []) in
  available_protocols <- lift (get system_state "protocols" (VDict [])) ;;
  instruments <- lift (get system_state "instruments" (VDict [])) ;;
  let condition := effective_condition user_input parameters in
  names <- lift (keys available_protocols) ;;
  instrument_keys <- lift (keys instruments) ;;
  let setup_prompt :=
    Str.lines [
      Str.empty;
      "        The user wants to set up conditional protocol execution:";
      Str.cat ["        "; Str.dq; user_input; Str.dq];
      "        ";
      "        Context:";
      Str.cat ["        - Protocol: "; str protocol_name];
      Str.cat ["        - Condition: "; str condition];
      Str.cat ["        - Device: "; str device];
      Str.cat ["        - Parameter: "; str parameter_name];
      Str.cat ["        - Threshold: "; str threshold];
      Str.cat ["        - Available protocols: "; str names];
      Str.cat ["        - Available instruments: "; str instrument_keys];
      "        ";
      "        Analyze this request and provide:";
      "        1. Interpretation of the condition";
      "        2. Required monitoring setup";
      "        3. Safety considerations";
      "        4. Estimated monitoring frequency needed";
      "        5. Clear execution plan";
      "        6. Fallback procedures if conditions aren't met";
      "        "] in
  try_except
    (agent_response <- run_agent w setup_prompt ;;
     if truthy protocol_name && truthy condition
     then
       monitor_id <- _create_conditional_monitor protocol_name condition
                                                 context ;;
       ret (setup_message agent_response monitor_id)
     else
       ret (analysis_message agent_response))
    (fun e =>
       log_error (Str.cat ["Error setting up conditional execution: "; str_exn e]) ;;
       ret (Str.cat ["I encountered an error while setting up conditional execution: ";
                    str_exn e])).

(** [_setup_device_monitoring] *)
Definition _setup_device_monitoring (user_input : string)
  (parameters context : dict) : agent string :=
  let device_name := dget parameters "device" (VStr EmptyString) in
  let parameter_name := dget parameters "parameter" (VStr EmptyString) in
  let interval := dget parameters "interval" (VFloat "1.0") in
  let system_state := dget context "system_state" (VDict []) in
  instruments <- lift (get system_state "instruments" (VDict [])) ;;
  instrument_keys <- lift (keys instruments) ;;
  let monitoring_prompt :=
    Str.lines [
      Str.empty;
      "        The user wants to set up device monitoring:";
      Str.cat ["        "; Str.dq; user_input; Str.dq];
      "        ";
      "        Context:";
      Str.cat ["        - Device: "; str device_name];
      Str.cat ["        - Parameter: "; str parameter_name];
      Str.cat ["        - Monitoring interval: "; str interval];
      Str.cat ["        - Available instruments: "; str instrument_keys];
      "        ";
      "        Provide guidance for:";
      "        1. Monitoring setup requirements";
      "        2. Recommended monitoring intervals";
      "        3. Data logging considerations";
      "        4. Alert conditions to watch for";
      "        5. Performance impact assessment";
      "        "] in
  try_except
    (agent_response <- run_agent w monitoring_prompt ;;
     if truthy device_name
     then
       monitor_id <- _create_device_monitor device_name parameter_name
                                            interval context ;;
       ret (Str.cat ["📊 Device Monitoring Setup:"; Str.nl; Str.nl; agent_response;
                    Str.nl; Str.nl; "✅ Monitor started with ID: "; monitor_id])
     else
       ret (Str.cat ["📊 Device Monitoring Analysis:"; Str.nl; Str.nl; agent_response]))
    (fun e =>
       log_error (Str.cat ["Error setting up device monitoring: "; str_exn e]) ;;
       ret (Str.cat ["I encountered an error while setting up device monitoring: ";
                    str_exn e])).

(** The text [_stop_monitoring] returns when it stops nothing. *)
Definition no_active_message : string :=
  "ℹ️ No active monitoring tasks to stop.".

(** [_stop_monitoring] *)
Definition _stop_monitoring (user_input : string) (parameters context : dict)
  : agent string :=
  let monitor_id := dget parameters "monitor_id" (VStr EmptyString) in
  s <- get_self ;;
  monitors <- read (active_monitors s) ;;
  named <- (if truthy monitor_id
            then lift (has monitor_id monitors)
            else ret false) ;;
  if named
  then
    _stop_monitor monitor_id ;;
    ret (Str.cat ["🛑 Stopped monitoring task: "; str monitor_id])
  else if negb (truthy monitor_id)
          && match monitors with [] => false | _ => true end
  then
    let stopped_monitors := Dict.keys monitors in
    for_each stopped_monitors (fun mid => _stop_monitor (VStr mid)) ;;
    ret (Str.cat ["🛑 Stopped all monitoring tasks: ";
                 str (VList (map VStr stopped_monitors))])
  else ret no_active_message.

(** [_analyze_measurement_request] *)
Definition _analyze_measurement_request (user_input : string)
  (parameters context : dict) : agent string :=
  let system_state := dget context "system_state" (VDict []) in
  protocols <- lift (get system_state "protocols" (VDict [])) ;;
  names <- lift (keys protocols) ;;
  instruments <- lift (get system_state "instruments" (VDict [])) ;;
  instrument_keys <- lift (keys instruments) ;;
  active_sample <- lift (get system_state "active_sample" (VStr "None")) ;;
  let analysis_prompt :=
    Str.lines [
      Str.empty;
      "        The user has a measurement control question or request:";
      Str.cat ["        "; Str.dq; user_input; Str.dq];
      "        ";
      "        Current system context:";
      Str.cat ["        - Available protocols: "; str names];
      Str.cat ["        - Available instruments: "; str instrument_keys];
      Str.cat ["        - Active sample: "; str active_sample];
      Str.cat ["        - Parameters extracted: "; str (VDict parameters)];
      "        ";
      "        Provide helpful guidance and suggest specific actions for measurement control.";
      "        "] in
  try_except
    (agent_response <- run_agent w analysis_prompt ;;
     ret (Str.cat ["🔬 Measurement Control Analysis:"; Str.nl; Str.nl;
                  agent_response]))
    (fun e =>
       log_error (Str.cat ["Error analyzing measurement request: "; str_exn e]) ;;
       ret (Str.cat ["I encountered an error while analyzing your measurement request: ";
                    str_exn e])).

(** Entering a handler from the router. *)
Definition call {A} (handler : string) (body : agent A) : agent A :=
  emit (EvCall handler) ;; body.

(** The [try] block of [process_request]. *)
Definition dispatch (user_input : string) (parameters context : dict)
  : agent string :=
  intent <- lift (snapshot_intent context) ;;
  if eq_str intent "inspect_protocol"
  then call "_inspect_protocol"
            (_inspect_protocol user_input parameters context)
  else if eq_str intent "conditional_execution"
  then call "_setup_conditional_execution"
            (_setup_conditional_execution user_input parameters context)
  else if eq_str intent "monitor_devices"
  then call "_setup_device_monitoring"
            (_setup_device_monitoring user_input parameters context)
  else if eq_str intent "stop_monitoring"
  then call "_stop_monitoring"
            (_stop_monitoring user_input parameters context)
  else call "_analyze_measurement_request"
            (_analyze_measurement_request user_input parameters context).

(** The text [process_request] answers with when the [try] block raises. *)
Definition request_error_message (e : exn) : string :=
  Str.cat ["I encountered an error while processing your measurement control request: ";
           str_exn e; ". Please try again."].

(** [self.last_used = datetime.now()] *)
Definition stamp_last_used : agent unit :=
  t <- now w ;;
  s <- get_self ;;
  set_self (with_last_used s t).

(** [process_request] *)
Definition process_request (user_input : string) (parameters context : dict)
  : agent string :=
  stamp_last_used ;;
  try_except
    (dispatch user_input parameters context)
    (fun e =>
       log_error (Str.cat ["Error processing measurement control request: "; str_exn e]) ;;
       ret (request_error_message e)).

End Agent.

(** The intents [process_request] has a handler for. *)
Definition known_intents : list string :=
  ["inspect_protocol"; "conditional_execution"; "monitor_devices";
   "stop_monitoring"].

(** What a caller can do to the entries of a dictionary it holds:
    bind a key, delete a key, or empty the dictionary. *)
Inductive mutation : Type :=
| SetItem (key : string) (slot : hval)
| DelItem (key : string)
| Clear.

Definition mutate (o : object) (mu : mutation) : object :=
  match mu with
  | SetItem key slot => Dict.assign key slot o
  | DelItem key => Dict.remove key o
  | Clear => []
  end.

(** The caller applies the mutations, in order, to the object at
    [address]. *)
Definition apply_mutations (address : nat) (mus : list mutation) (h : heap)
  : heap :=
  fold_left (fun h mu => update h address (mutate (deref h address) mu)) mus h.

End MeasurementControlAgent.


(* ================================================================== *)
(** ** Observations on runs *)

Module Obs.

Import Py Eff.

Section Emits.
Context {S : Type}.
Variable P : event -> Prop.

(** Every event a computation emits satisfies [P], whatever the start. *)
Definition emits {A} (c : M S A) : Prop :=
  forall m, Forall P (trace (c m)).

(** A computation that returns normally returns a value in [R]. *)
Definition yields {A} (c : M S A) (R : A -> Prop) : Prop :=
  forall m a, result (c m) = Ok a -> R a.

(** The outcome, the final machine and the trace of running [c] from [m]
    satisfy [Q]. *)
Definition wp {A} (c : M S A) (m : machine S)
  (Q : outcome A -> machine S -> list event -> Prop) : Prop :=
  Q (result (c m)) (final (c m)) (trace (c m)).

(** A computation keeps a property of the agent object. *)
Definition keeps {A} (I : S -> Prop) (c : M S A) : Prop :=
  forall m, I (self m) -> I (self (final (c m))).

End Emits.

(** Events that are not a call into the host, not the entry of a handler,
    not the start of a thread. *)
Definition not_host (ev : event) : Prop := host_call ev = [].
Definition not_handler (ev : event) : Prop := handler_call ev = [].
Definition not_thread (ev : event) : Prop := thread_start ev = [].

(** An intent that none of the listed ones is equal to. *)
Definition unknown_to (known : list string) (intent : value) : Prop :=
  forall k, In k known -> eq_str intent k = false.

(** *** The measurement control agent's store

    A slot of the registry refers to a record: an object of the store that
    is neither the registry nor the table of threads. *)
Definition record_ref (s : MeasurementControlAgent.state) (slot : MeasurementControlAgent.hval) : Prop :=
  exists r,
    slot = MeasurementControlAgent.HRef r
    /\ r < length (MeasurementControlAgent.store s)
    /\ r <> MeasurementControlAgent.active_monitors s
    /\ r <> MeasurementControlAgent.monitoring_threads s.

(** The shape [__init__] sets up and every method keeps: the registry and
    the table of threads are two distinct objects of the store, the
    registry has no duplicate key and each of its slots refers to a
    record. *)
Definition valid (s : MeasurementControlAgent.state) : Prop :=
  MeasurementControlAgent.active_monitors s
    < length (MeasurementControlAgent.store s)
  /\ MeasurementControlAgent.monitoring_threads s
     < length (MeasurementControlAgent.store s)
  /\ MeasurementControlAgent.active_monitors s
     <> MeasurementControlAgent.monitoring_threads s
  /\ Dict.wf (MeasurementControlAgent.registry s)
  /\ Forall (fun entry => record_ref s (snd entry))
            (MeasurementControlAgent.registry s).

(** Both a protocol name and a condition are there, after the keyword
    fallback of [_setup_conditional_execution]. *)
Definition both_present (user_input : string) (parameters : dict) : bool :=
  truthy (dget parameters "protocol_name" VNone)
  && truthy (MeasurementControlAgent.effective_condition user_input
                                                         parameters).

(** A run started exactly one conditional monitor loop, and the monitor of
    that loop is in the registry with an active record. *)
Definition started_and_registered
  (run : outcome string * machine MeasurementControlAgent.state * list event)
  : Prop :=
  exists id r,
    thread_starts (trace run) = [("_conditional_monitor_loop", id)]
    /\ Dict.lookup id (MeasurementControlAgent.registry (self (final run)))
       = Some (MeasurementControlAgent.HRef r)
    /\ Dict.lookup "status"
         (MeasurementControlAgent.deref
            (MeasurementControlAgent.store (self (final run))) r)
       = Some (MeasurementControlAgent.HVal (VStr "active")).

(** The model was called and answered. *)
Definition model_answered (w : world) (t : list event) (response : string)
  : Prop :=
  exists prompt, In prompt (model_calls t) /\ agent_run w prompt = Ok response.

(** The model was called and raised. *)
Definition model_failed (w : world) (t : list event) (e : exn) : Prop :=
  exists prompt, In prompt (model_calls t) /\ agent_run w prompt = Raise e.

(** *** Routing

    A request was served by one handler.  The router first emitted
    [before] (its log line, and the entry into the handler), then ran the
    handler's body once: [body] is that run, from the machine the router
    had reached.  The reply, the agent object and the outward effects of
    the request are those of the body; when the body raised [e], the router
    logged [error_log e] and answered with [error_reply e]. *)
Definition served_by {S} (before : list event)
  (error_log error_reply : exn -> string)
  (body run : outcome string * machine S * list event) : Prop :=
  final run = final body
  /\ trace run
     = (before ++ trace body
        ++ match result body with
           | Ok _ => []
           | Raise e => [EvLog "error" (error_log e)]
           end)%list
  /\ result run
     = match result body with
       | Ok reply => Ok reply
       | Raise e => Ok (error_reply e)
       end.

(** Neither the snapshot nor the conversation history names an intent:
    the intent of the snapshot is ['unknown'] (or missing), and the history
    is empty or its last entry says ['unknown'] (or nothing) too. *)
Definition undetermined (context : dict) : Prop :=
  snapshot_intent context = Ok (VStr "unknown")
  /\ (dget context "conversation_history" (VList []) = VList []
      \/ exists earlier latest,
          dget context "conversation_history" (VList [])
          = VList (earlier ++ [VDict latest])
          /\ dget latest "intent" (VStr "unknown") = VStr "unknown").

End Obs.

(* ================================================================== *)
(** ** Concrete worlds, snapshots and agents used in the examples *)

Module Examples.

Import Py Eff.

Definition nine_oh_five (n : nat) : datetime := Datetime 9 5 n 0.

(** A model that always answers, and one that is unreachable. *)
Definition answering : world :=
  World (fun _ => Ok "Looks fine.") true (fun _ => None) nine_oh_five.

Definition unreachable : world :=
  World (fun _ => Raise (Exn "ConnectionError" "connection refused"))
        true (fun _ => None) nine_oh_five.

(** A snapshot with two protocols and no active sample. *)
Definition two_protocols : dict :=
  [("scan", VDict [("steps", VInt 3)]); ("anneal", VDict [])].

Definition snapshot_no_sample : dict :=
  [("system_state",
    VDict [("protocols", VDict two_protocols);
           ("active_sample", VStr "None")])].

Definition snapshot_with (intent : string) : dict :=
  [("system_state",
    VDict [("intent", VStr intent);
           ("protocols", VDict two_protocols);
           ("active_sample", VStr "wafer-7")])].

(** A fresh protocol agent and a fresh measurement control agent. *)
Definition protocol_agent : machine ProtocolAgent.state :=
  Machine 0 (ProtocolAgent.State None).

Definition control_agent : machine MeasurementControlAgent.state :=
  Machine 0 MeasurementControlAgent.init.

(** A measurement control agent with two monitors in its registry. *)
Definition two_monitors : machine MeasurementControlAgent.state :=
  final (MeasurementControlAgent._create_device_monitor answering
           (VStr "gauge") (VStr "pressure") (VFloat "1.0") []
           (final (MeasurementControlAgent._create_conditional_monitor
                     answering (VStr "scan") (VStr "stop when cold") []
                     control_agent))).

End Examples.

(* ================================================================== *)
(** ** Further observations and examples *)

Module Views.

Import Py Eff Obs.

Module PA := ProtocolAgent.
Module MC := MeasurementControlAgent.

(** Events that are not a call of the model. *)
Definition not_model (ev : event) : Prop := model_call ev = [].

(** The host is only reached after the model has answered: a trace with a
    call into the host has exactly one prompt, the model answered it, and
    the host window has the entry point. *)
Definition host_after_model (w : world) (t : list event) : Prop :=
  host_calls t <> [] ->
  has_run_protocol w = true
  /\ exists prompt response,
      model_calls t = [prompt] /\ agent_run w prompt = Ok response.

(** The snapshot allows execution as [_can_execute_protocol] sees it: the
    sample is not the string ['None'] and no protocol is running. *)
Definition executable (ss : dict) : bool :=
  negb (eq_str (dget ss "active_sample" VNone) "None")
  && negb (truthy (dget ss "protocol_running" (VBool false))).

(** The registry and the table of threads list the same monitors, in the
    same order. *)
Definition synced (s : MC.state) : Prop :=
  Dict.keys (MC.registry s) = Dict.keys (MC.threads s).

(** The handler each router has for an intent. *)
Definition protocol_handler (intent : value) : string :=
  if eq_str intent "run_protocol" then "_run_protocol"
  else if eq_str intent "list_protocols" then "_list_protocols"
  else if eq_str intent "inspect_protocol" then "_inspect_protocol"
  else if eq_str intent "protocol_status" then "_get_protocol_status"
  else "_general_protocol_query".

Definition control_handler (intent : value) : string :=
  if eq_str intent "inspect_protocol" then "_inspect_protocol"
  else if eq_str intent "conditional_execution"
  then "_setup_conditional_execution"
  else if eq_str intent "monitor_devices" then "_setup_device_monitoring"
  else if eq_str intent "stop_monitoring" then "_stop_monitoring"
  else "_analyze_measurement_request".

(** What the trace of a handler of the protocol agent is like: no other
    handler is entered, no thread is started, and the model is called at
    most once. *)
Definition protocol_tidy (t : list event) : Prop :=
  handler_calls t = [] /\ thread_starts t = []
  /\ length (model_calls t) <= 1.

(** And of a handler of the measurement control agent, which never calls
    the host. *)
Definition control_tidy (t : list event) : Prop :=
  handler_calls t = [] /\ host_calls t = []
  /\ length (model_calls t) <= 1.

(** A run started exactly one loop of the given kind, and the monitor of
    that loop is in the registry with an active record. *)
Definition loop_registered (target : string)
  (run : outcome string * machine MC.state * list event) : Prop :=
  exists id r,
    thread_starts (trace run) = [(target, id)]
    /\ Dict.lookup id (MC.registry (self (final run))) = Some (MC.HRef r)
    /\ Dict.lookup "status" (MC.deref (MC.store (self (final run))) r)
       = Some (MC.HVal (VStr "active")).

(** The status a monitor has in the registry, if it is there. *)
Definition status_of (s : MC.state) (id : string) : option MC.hval :=
  match Dict.lookup id (MC.registry s) with
  | Some (MC.HRef r) => Dict.lookup "status" (MC.deref (MC.store s) r)
  | _ => None
  end.

(** The shape of the agent together with the agreement of its two
    tables. *)
Definition coherent (s : MC.state) : Prop := valid s /\ synced s.

(** The record at [r] has been marked as stopped. *)
Definition stopped (s : MC.state) (r : nat) : Prop :=
  Dict.lookup "status" (MC.deref (MC.store s) r)
  = Some (MC.HVal (VStr "stopped")).

End Views.

(** ** A monitor loop beside the main thread

    The loops of the measurement control agent run on threads of their
    own and share [active_monitors] with the requests of the main thread,
    without a lock.  The test of their [while],
    [monitor_id in self.active_monitors and
     self.active_monitors[monitor_id]['status'] == 'active'],
    reads the shared objects three times: for the membership test, for the
    subscript and for the status.  Here the test and the turns of the two
    loops are written with room for another thread between these reads:
    [gap1] is what happens to the agent between the membership test and
    the subscript, [gap2] between the subscript and the reading of the
    status.  With nothing in the gaps they are the turns of
    [MeasurementControlAgent]. *)
Module Schedule.

Import Py Eff.
Import MeasurementControlAgent.
Local Open Scope eff_scope.

(** What another thread does in the meantime: its writes reach the agent
    object and its outward effects the world, in this order; whether it
    raised is its own business. *)
Definition meanwhile {A} (other : agent A) : agent unit :=
  fun m => (Ok tt, final (other m), trace (other m)).

(** Nothing happens in the meantime. *)
Definition undisturbed : agent unit := ret tt.

Definition monitor_is_active_amid (gap1 gap2 : agent unit)
  (monitor_id : string) : agent bool :=
  s <- get_self ;;
  monitors <- read (active_monitors s) ;;
  if Dict.mem monitor_id monitors
  then
    gap1 ;;
    monitors <- read (active_monitors s) ;;
    entry <- lift (item monitors (VStr monitor_id)) ;;
    gap2 ;;
    status <- match entry with
              | HRef r =>
                  record <- read r ;;
                  lift (item record (VStr "status"))
              | HVal v =>
                  found <- lift (getitem v (VStr "status")) ;;
                  ret (HVal found)
              | _ => raise NoSubscript
              end ;;
    ret (match status with
         | HVal v => eq_str v "active"
         | _ => false
         end)
  else ret false.

(** One turn of [_conditional_monitor_loop]. *)
Definition _conditional_monitor_loop_turn_amid (gap1 gap2 : agent unit)
  (monitor_id : string) (protocol_name condition : value) : agent bool :=
  try_except
    (active <- monitor_is_active_amid gap1 gap2 monitor_id ;;
     if active
     then
       log_info (Str.cat ["Monitoring condition '"; str condition;
                          "' for protocol '"; str protocol_name; "'"]) ;;
       ret true
     else ret false)
    (fun e =>
       monitor_failed monitor_id
         (Str.cat ["Error in conditional monitor "; monitor_id; ": ";
                   str_exn e]) ;;
       ret false).

(** One turn of [_device_monitor_loop]. *)
Definition _device_monitor_loop_turn_amid (gap1 gap2 : agent unit)
  (monitor_id : string) (device_name parameter interval : value)
  : agent bool :=
  try_except
    (active <- monitor_is_active_amid gap1 gap2 monitor_id ;;
     if active
     then
       log_info (Str.cat ["Monitoring "; str device_name; ".";
                          str parameter; " every "; str interval; "s"]) ;;
       ret true
     else ret false)
    (fun e =>
       monitor_failed monitor_id
         (Str.cat ["Error in device monitor "; monitor_id; ": ";
                   str_exn e]) ;;
       ret false).

End Schedule.

(** Further worlds, requests and snapshots for the examples. *)
Module Cases.

Import Py Eff Examples.

(** A world whose clock stands still. *)
Definition frozen : world :=
  World (fun _ => Ok "Looks fine.") true (fun _ => None)
        (fun _ => Datetime 9 5 0 0).

(** The parameters of a request that names [scan]. *)
Definition naming_scan : dict := [("protocol_name", VStr "scan")].

(** The [system_state] of [snapshot_with]. *)
Definition state_with (intent : string) : dict :=
  [("intent", VStr intent);
   ("protocols", VDict two_protocols);
   ("active_sample", VStr "wafer-7")].

(** A snapshot taken while a protocol is running. *)
Definition busy_state : dict :=
  [("protocols", VDict two_protocols);
   ("active_sample", VStr "wafer-7");
   ("protocol_running", VBool true)].

Definition busy_context : dict := [("system_state", VDict busy_state)].

(** A context whose [system_state] is [None]. *)
Definition unreadable_context : dict := [("system_state", VNone)].

(** A context with an empty protocol map. *)
Definition nothing_loaded : dict :=
  [("system_state", VDict [("protocols", VDict [])])].

End Cases.

(* ================================================================== *)
(** * Properties *)

(** ** Strings and dictionaries *)

Module StrFacts.

Lemma append_nil_r (s : string) : s ++ EmptyString = s.
Proof. induction s as [|c s IH]; simpl; [reflexivity | now rewrite IH]. Qed.

Lemma append_assoc (a b c : string) : (a ++ b) ++ c = a ++ (b ++ c).
Proof. induction a as [|x a IH]; simpl; [reflexivity | now rewrite IH]. Qed.

Lemma occurs_refl (x : string) : Str.occurs x x.
Proof. exists EmptyString, EmptyString. simpl. now rewrite append_nil_r. Qed.

Lemma occurs_prefix (x rest : string) : Str.occurs x (x ++ rest).
Proof. now exists EmptyString, rest. Qed.

Lemma occurs_skip (x before s : string) :
  Str.occurs x s -> Str.occurs x (before ++ s).
Proof.
  intros (b & a & ->). exists (before ++ b), a. now rewrite append_assoc.
Qed.

Lemma occurs_skip_char (x : string) (c : ascii) (s : string) :
  Str.occurs x s -> Str.occurs x (String c s).
Proof. intros (b & a & ->). now exists (String c b), a. Qed.

Lemma occurs_keep (x s after : string) :
  Str.occurs x s -> Str.occurs x (s ++ after).
Proof.
  intros (b & a & ->). exists b, (a ++ after).
  now rewrite !append_assoc.
Qed.

Lemma occurs_trans (x y z : string) :
  Str.occurs x y -> Str.occurs y z -> Str.occurs x z.
Proof.
  intros (b1 & a1 & ->) (b2 & a2 & ->).
  exists (b2 ++ b1), (a1 ++ a2). now rewrite !append_assoc.
Qed.

(** A piece of an f-string occurs in the finished text. *)
Lemma occurs_cat (x : string) (pieces : list string) :
  In x pieces -> Str.occurs x (Str.cat pieces).
Proof.
  unfold Str.cat, Str.empty.
  induction pieces as [|p ps IH]; intros Hin; [contradiction|].
  assert (Hstep : String.concat EmptyString (p :: ps)
                  = p ++ String.concat EmptyString ps).
  { destruct ps; simpl; [now rewrite append_nil_r | reflexivity]. }
  rewrite Hstep. destruct Hin as [-> | Hin].
  - apply occurs_prefix.
  - apply occurs_skip, IH, Hin.
Qed.

(** An item of [sep.join(items)] occurs in the joined text. *)
Lemma occurs_join (sep x : string) (items : list string) :
  In x items -> Str.occurs x (Str.join sep items).
Proof.
  unfold Str.join.
  induction items as [|p ps IH]; intros Hin; [contradiction|].
  destruct ps as [|q ps].
  - destruct Hin as [-> | []]. apply occurs_refl.
  - change (String.concat sep (p :: q :: ps))
      with (p ++ sep ++ String.concat sep (q :: ps)).
    destruct Hin as [-> | Hin].
    + apply occurs_prefix.
    + apply occurs_skip, occurs_skip, IH, Hin.
Qed.

Lemma prefix_append (p rest : string) : prefix p (p ++ rest) = true.
Proof.
  induction p as [|c p IH]; simpl.
  - now destruct rest.
  - destruct (ascii_dec c c); [assumption | congruence].
Qed.

End StrFacts.

Module DictFacts.

Section Facts.
Context {A : Type}.
Implicit Types (d : Dict.t A) (k : string) (v : A).

Lemma mem_lookup k d :
  Dict.mem k d = true <-> exists v, Dict.lookup k d = Some v.
Proof.
  unfold Dict.mem. destruct (Dict.lookup k d) as [v|].
  - split; [eauto | reflexivity].
  - split; [discriminate | intros (v & ?); discriminate].
Qed.

Lemma mem_keys k d : Dict.mem k d = true <-> In k (Dict.keys d).
Proof.
  unfold Dict.mem, Dict.keys.
  induction d as [|[k' v'] d IH]; simpl.
  - split; [discriminate | contradiction].
  - destruct (String.eqb_spec k k') as [->|Hne].
    + split; auto.
    + rewrite IH. split; [auto | intros [?|?]; [congruence | assumption]].
Qed.

Lemma not_mem_keys k d : Dict.mem k d = false <-> ~ In k (Dict.keys d).
Proof.
  rewrite <- mem_keys. destruct (Dict.mem k d); split; congruence.
Qed.

Lemma lookup_assign_same k v d : Dict.lookup k (Dict.assign k v d) = Some v.
Proof.
  induction d as [|[k' v'] d IH]; simpl.
  - now rewrite String.eqb_refl.
  - destruct (String.eqb_spec k k') as [->|Hne]; simpl.
    + now rewrite String.eqb_refl.
    + apply String.eqb_neq in Hne. now rewrite Hne.
Qed.

Lemma lookup_assign_other k k' v d :
  k <> k' -> Dict.lookup k (Dict.assign k' v d) = Dict.lookup k d.
Proof.
  intros Hne. induction d as [|[k2 v2] d IH]; simpl.
  - apply String.eqb_neq in Hne. now rewrite Hne.
  - destruct (String.eqb_spec k' k2) as [->|Hne2]; simpl.
    + apply String.eqb_neq in Hne. now rewrite Hne.
    + now rewrite IH.
Qed.

Lemma mem_assign_same k v d : Dict.mem k (Dict.assign k v d) = true.
Proof. unfold Dict.mem. now rewrite lookup_assign_same. Qed.

Lemma lookup_In k v d : Dict.lookup k d = Some v -> In (k, v) d.
Proof.
  induction d as [|[k' v'] d IH]; simpl; [discriminate|].
  destruct (String.eqb_spec k k') as [->|Hne].
  - intros [= ->]. now left.
  - intros H. right. auto.
Qed.

Lemma In_remove k d entry : In entry (Dict.remove k d) -> In entry d.
Proof.
  induction d as [|[k' v'] d IH]; simpl; [auto|].
  destruct (String.eqb k k'); simpl; intuition.
Qed.

Lemma keys_remove_incl k d x :
  In x (Dict.keys (Dict.remove k d)) -> In x (Dict.keys d).
Proof.
  unfold Dict.keys. rewrite !in_map_iff.
  intros (entry & Hx & Hin). exists entry. split; [assumption|].
  eapply In_remove; eassumption.
Qed.

Lemma wf_remove k d : Dict.wf d -> Dict.wf (Dict.remove k d).
Proof.
  unfold Dict.wf. induction d as [|[k' v'] d IH]; simpl; [auto|].
  intros Hnd. inversion Hnd as [|? ? Hnotin Hrest]; subst.
  destruct (String.eqb k k'); [assumption|].
  simpl. constructor; [|auto].
  intros Hin. apply Hnotin. eapply keys_remove_incl; eassumption.
Qed.

Lemma In_assign k v d entry :
  In entry (Dict.assign k v d) -> entry = (k, v) \/ In entry d.
Proof.
  induction d as [|[k' v'] d IH]; simpl.
  - intuition.
  - destruct (String.eqb k k'); simpl; intuition.
Qed.

Lemma keys_assign k v d x :
  In x (Dict.keys (Dict.assign k v d)) -> x = k \/ In x (Dict.keys d).
Proof.
  unfold Dict.keys. rewrite !in_map_iff.
  intros ([k' v'] & Hx & Hin). apply In_assign in Hin.
  destruct Hin as [[= -> ->] | Hin]; [now left|].
  right. exists (k', v'). auto.
Qed.

Lemma wf_assign k v d : Dict.wf d -> Dict.wf (Dict.assign k v d).
Proof.
  unfold Dict.wf. induction d as [|[k' v'] d IH]; simpl.
  - intros _. repeat constructor. auto.
  - intros Hnd. inversion Hnd as [|? ? Hnotin Hrest]; subst.
    destruct (String.eqb_spec k k') as [->|Hne]; simpl.
    + constructor; assumption.
    + constructor; [|auto].
      intros Hin. apply keys_assign in Hin. destruct Hin; [congruence|auto].
Qed.

Lemma remove_head k v d : Dict.remove k ((k, v) :: d) = d.
Proof. simpl. now rewrite String.eqb_refl. Qed.

End Facts.

End DictFacts.

(** ** Traces of monadic code *)

Module EffFacts.

Import Py Eff Obs.
Local Open Scope eff_scope.

Section Emits.
Context {S : Type}.
Variable P : event -> Prop.

Lemma emits_ret {A} (a : A) : emits (S := S) P (ret a).
Proof. intros m. constructor. Qed.

Lemma emits_raise {A} (e : exn) : emits (S := S) P (raise (A := A) e).
Proof. intros m. constructor. Qed.

Lemma emits_lift {A} (o : outcome A) : emits (S := S) P (lift o).
Proof. intros m. constructor. Qed.

Lemma emits_get_self : emits (S := S) P get_self.
Proof. intros m. constructor. Qed.

Lemma emits_set_self (s : S) : emits (S := S) P (set_self s).
Proof. intros m. constructor. Qed.

Lemma emits_now (w : world) : emits (S := S) P (now w).
Proof. intros m. constructor. Qed.

Lemma emits_emit (ev : event) : P ev -> emits (S := S) P (emit ev).
Proof. intros H m. repeat constructor. exact H. Qed.

Lemma emits_log_info (msg : string) : P (EvLog "info" msg) -> emits (S := S) P (log_info msg).
Proof. apply emits_emit. Qed.

Lemma emits_log_error (msg : string) :
  P (EvLog "error" msg) -> emits (S := S) P (log_error msg).
Proof. apply emits_emit. Qed.

Lemma emits_run_agent (w : world) (prompt : string) :
  P (EvAgentRun prompt) -> emits (S := S) P (run_agent w prompt).
Proof. intros H m. repeat constructor. exact H. Qed.

Lemma emits_run_host (w : world) (name : value) :
  P (EvHostRun name) -> emits (S := S) P (run_host w name).
Proof. intros H m. repeat constructor. exact H. Qed.

Lemma emits_bind_yields {A B} (c : M S A) (k : A -> M S B) (R : A -> Prop) :
  emits (S := S) P c -> yields c R -> (forall a, R a -> emits (S := S) P (k a)) -> emits (S := S) P (bind c k).
Proof.
  intros Hc Hy Hk m. unfold bind.
  specialize (Hc m). specialize (Hy m). unfold trace, result in *.
  destruct (c m) as [[[a|e] m1] t1]; simpl in *; [|exact Hc].
  specialize (Hk a (Hy a eq_refl) m1). unfold trace in Hk.
  destruct (k a m1) as [[r m2] t2]; simpl in *.
  apply Forall_app. split; assumption.
Qed.

Lemma emits_bind {A B} (c : M S A) (k : A -> M S B) :
  emits (S := S) P c -> (forall a, emits (S := S) P (k a)) -> emits (S := S) P (bind c k).
Proof.
  intros Hc Hk. apply emits_bind_yields with (R := fun _ => True); auto.
  intros m a _. exact I.
Qed.

Lemma emits_try_except {A} (c : M S A) (h : exn -> M S A) :
  emits (S := S) P c -> (forall e, emits (S := S) P (h e)) -> emits (S := S) P (try_except c h).
Proof.
  intros Hc Hh m. unfold try_except.
  specialize (Hc m). unfold trace in *.
  destruct (c m) as [[[a|e] m1] t1]; simpl in *; [exact Hc|].
  specialize (Hh e m1). unfold trace in Hh.
  destruct (h e m1) as [[r m2] t2]; simpl in *.
  apply Forall_app. split; assumption.
Qed.

End Emits.

(** *** Running a computation step by step *)

Section Wp.
Context {S : Type}.
Implicit Types (m : machine S).

Lemma wp_run {A} (c : M S A) m
      (P : outcome A * machine S * list event -> Prop) :
  wp c m (fun r m' t => P (r, m', t)) -> P (c m).
Proof. unfold wp, result, final, trace. now destruct (c m) as [[r m'] t]. Qed.

Lemma wp_ret {A} (a : A) m Q : Q (Ok a) m [] -> wp (ret a) m Q.
Proof. exact (fun H => H). Qed.

Lemma wp_raise {A} (e : exn) m (Q : outcome A -> _) :
  Q (Raise e) m [] -> wp (raise e) m Q.
Proof. exact (fun H => H). Qed.

Lemma wp_lift {A} (o : outcome A) m Q : Q o m [] -> wp (lift o) m Q.
Proof. exact (fun H => H). Qed.

Lemma wp_get_self m Q : Q (Ok (self m)) m [] -> wp get_self m Q.
Proof. exact (fun H => H). Qed.

Lemma wp_set_self (s : S) m Q :
  Q (Ok tt) (Machine (ticks m) s) [] -> wp (set_self s) m Q.
Proof. exact (fun H => H). Qed.

Lemma wp_emit (ev : event) m Q : Q (Ok tt) m [ev] -> wp (emit ev) m Q.
Proof. exact (fun H => H). Qed.

Lemma wp_now (w : world) m Q :
  Q (Ok (clock w (ticks m))) (Machine (Datatypes.S (ticks m)) (self m)) [] ->
  wp (now w) m Q.
Proof. exact (fun H => H). Qed.

Lemma wp_run_agent (w : world) (prompt : string) m Q :
  Q (agent_run w prompt) m [EvAgentRun prompt] -> wp (run_agent w prompt) m Q.
Proof. exact (fun H => H). Qed.

Lemma wp_bind {A B} (c : M S A) (k : A -> M S B) m Q :
  wp c m (fun r m1 t1 =>
            match r with
            | Ok a => wp (k a) m1 (fun r2 m2 t2 => Q r2 m2 (t1 ++ t2)%list)
            | Raise e => Q (Raise e) m1 t1
            end) ->
  wp (bind c k) m Q.
Proof.
  unfold wp, bind, result, final, trace.
  destruct (c m) as [[[a|e] m1] t1]; cbn; [|exact (fun H => H)].
  now destruct (k a m1) as [[r m2] t2].
Qed.

Lemma wp_try_except {A} (c : M S A) (h : exn -> M S A) m Q :
  wp c m (fun r m1 t1 =>
            match r with
            | Ok a => Q (Ok a) m1 t1
            | Raise e => wp (h e) m1 (fun r2 m2 t2 => Q r2 m2 (t1 ++ t2)%list)
            end) ->
  wp (try_except c h) m Q.
Proof.
  unfold wp, try_except, result, final, trace.
  destruct (c m) as [[[a|e] m1] t1]; cbn; [exact (fun H => H)|].
  now destruct (h e m1) as [[r m2] t2].
Qed.

Lemma wp_mono {A} (c : M S A) m
      (Q Q' : outcome A -> machine S -> list event -> Prop) :
  wp c m Q -> (forall r m' t, Q r m' t -> Q' r m' t) -> wp c m Q'.
Proof. unfold wp. auto. Qed.

(** A known run of [c] can stand for [c]. *)
Lemma wp_known {A} (c : M S A) m r m' t Q :
  c m = (r, m', t) -> Q r m' t -> wp c m Q.
Proof. unfold wp. now intros ->. Qed.

End Wp.

(** *** Properties of the agent that a computation keeps *)

Section Keeps.
Context {S : Type}.
Variable I : S -> Prop.

Lemma keeps_wp {A} (c : M S A) :
  (forall m, I (self m) -> wp c m (fun _ m' _ => I (self m'))) -> keeps I c.
Proof. intros H m Hm. exact (H m Hm). Qed.

Lemma keeps_still {A} (c : M S A) :
  (forall m, self (final (c m)) = self m) -> keeps I c.
Proof. intros H m Hm. now rewrite H. Qed.

Lemma keeps_bind {A B} (c : M S A) (k : A -> M S B) :
  keeps I c -> (forall a, keeps I (k a)) -> keeps I (bind c k).
Proof.
  intros Hc Hk m Hm. specialize (Hc m Hm). unfold bind, final in *.
  destruct (c m) as [[[a|e] m1] t1]; cbn in *; [|exact Hc].
  specialize (Hk a m1 Hc). unfold final in Hk.
  now destruct (k a m1) as [[r m2] t2].
Qed.

Lemma keeps_try_except {A} (c : M S A) (h : exn -> M S A) :
  keeps I c -> (forall e, keeps I (h e)) -> keeps I (try_except c h).
Proof.
  intros Hc Hh m Hm. specialize (Hc m Hm). unfold try_except, final in *.
  destruct (c m) as [[[a|e] m1] t1]; cbn in *; [exact Hc|].
  specialize (Hh e m1 Hc). unfold final in Hh.
  now destruct (h e m1) as [[r m2] t2].
Qed.

End Keeps.

(** A trace whose events all project to nothing projects to nothing. *)
Lemma flat_map_silent {X} (f : event -> list X) (t : list event) :
  Forall (fun ev => f ev = []) t -> flat_map f t = [].
Proof.
  induction 1 as [|ev t Hev _ IH]; simpl; [reflexivity|].
  now rewrite Hev, IH.
Qed.

(** Stepping through the structure of a handler. *)
Ltac emits_step :=
  lazymatch goal with
  | |- emits _ (bind _ _) => apply emits_bind; [| intros ?]
  | |- emits _ (try_except _ _) => apply emits_try_except; [| intros ?]
  | |- emits _ (ret _) => apply emits_ret
  | |- emits _ (raise _) => apply emits_raise
  | |- emits _ (lift _) => apply emits_lift
  | |- emits _ get_self => apply emits_get_self
  | |- emits _ (set_self _) => apply emits_set_self
  | |- emits _ (now _) => apply emits_now
  | |- emits _ (log_info _) => apply emits_log_info; reflexivity
  | |- emits _ (log_error _) => apply emits_log_error; reflexivity
  | |- emits _ (emit _) => apply emits_emit; reflexivity
  | |- emits _ (run_agent _ _) => apply emits_run_agent; reflexivity
  | |- emits _ (run_host _ _) => apply emits_run_host; reflexivity
  | |- emits _ (if ?b then _ else _) => destruct b
  | |- emits _ (match ?x with _ => _ end) => destruct x
  end.

Ltac emits_auto := cbv zeta; repeat emits_step.

(** One step of a run; a step leaves a [match] on the outcome of the
    operation it ran, which reduces when the outcome is known. *)
Ltac wp_step :=
  lazymatch goal with
  | |- wp (bind _ _) _ _ => apply wp_bind
  | |- wp (try_except _ _) _ _ => apply wp_try_except
  | |- wp (ret _) _ _ => apply wp_ret
  | |- wp (raise _) _ _ => apply wp_raise
  | |- wp (lift _) _ _ => apply wp_lift
  | |- wp get_self _ _ => apply wp_get_self
  | |- wp (set_self _) _ _ => apply wp_set_self
  | |- wp (now _) _ _ => apply wp_now
  | |- wp (emit _) _ _ => apply wp_emit
  | |- wp (log_info _) _ _ => apply wp_emit
  | |- wp (log_error _) _ _ => apply wp_emit
  | |- wp (run_agent _ _) _ _ => apply wp_run_agent
  end; cbv beta iota.

Ltac wp_steps := repeat wp_step.

Ltac keeps_step :=
  lazymatch goal with
  | |- keeps _ (bind _ _) => apply keeps_bind; [| intros ?]
  | |- keeps _ (try_except _ _) => apply keeps_try_except; [| intros ?]
  | |- keeps _ (ret _) => apply keeps_still; reflexivity
  | |- keeps _ (raise _) => apply keeps_still; reflexivity
  | |- keeps _ (lift _) => apply keeps_still; reflexivity
  | |- keeps _ get_self => apply keeps_still; reflexivity
  | |- keeps _ (now _) => apply keeps_still; reflexivity
  | |- keeps _ (log_info _) => apply keeps_still; reflexivity
  | |- keeps _ (log_error _) => apply keeps_still; reflexivity
  | |- keeps _ (emit _) => apply keeps_still; reflexivity
  | |- keeps _ (run_agent _ _) => apply keeps_still; reflexivity
  | |- keeps _ (if ?b then _ else _) => destruct b
  end.

Ltac keeps_auto := cbv zeta; repeat keeps_step.

End EffFacts.

(** ** The protocol agent *)

Module ProtocolAgentFacts.

Import Py Eff Obs EffFacts ProtocolAgent.
Local Open Scope eff_scope.

Section Host.
Variable w : world.
Variables (user_input : string) (parameters context : dict).

Lemma list_protocols_not_host :
  emits not_host (_list_protocols w user_input parameters context).
Proof. unfold _list_protocols. emits_auto. Qed.

Lemma inspect_protocol_not_host :
  emits not_host (_inspect_protocol w user_input parameters context).
Proof. unfold _inspect_protocol. emits_auto. Qed.

Lemma protocol_status_not_host :
  emits not_host (_get_protocol_status w user_input parameters context).
Proof. unfold _get_protocol_status. emits_auto. Qed.

Lemma general_query_not_host :
  emits not_host (_general_protocol_query w user_input parameters context).
Proof. unfold _general_protocol_query. emits_auto. Qed.

(** With the sample recorded as the string ['None'], the execution check
    fails. *)
Lemma can_execute_without_sample (protocol_name : value) (ss : dict) :
  Dict.lookup "system_state" context = Some (VDict ss) ->
  Dict.lookup "active_sample" ss = Some (VStr "None") ->
  forall m : machine state,
    _can_execute_protocol protocol_name context m = (Ok false, m, []).
Proof.
  intros Hss Hsample m.
  unfold _can_execute_protocol, dget, get, dget.
  rewrite Hss. unfold bind, lift. rewrite Hsample. reflexivity.
Qed.

Lemma run_protocol_not_host (ss : dict) :
  Dict.lookup "system_state" context = Some (VDict ss) ->
  Dict.lookup "active_sample" ss = Some (VStr "None") ->
  emits not_host (_run_protocol w user_input parameters context).
Proof.
  intros Hss Hsample. unfold _run_protocol. cbv zeta.
  repeat lazymatch goal with
         | |- emits _ (bind (_can_execute_protocol _ _) _) =>
             apply emits_bind_yields with (R := fun b => b = false);
             [ intros m; rewrite (can_execute_without_sample _ ss Hss Hsample);
               cbn; constructor
             | intros m b;
               rewrite (can_execute_without_sample _ ss Hss Hsample);
               cbn; intros Heq; now inversion Heq
             | intros ? Hfalse; cbv beta in Hfalse; subst ]
         | |- _ => emits_step
         end.
Qed.

End Host.

(** C1. A protocol-execution request whose snapshot records the active
    sample as the string ['None'] never reaches the host's [run_protocol],
    whatever the model answers: neither [_run_protocol] on its own nor
    [process_request] on such a snapshot hands a protocol to the host. *)
Theorem no_sample_no_host_run :
  forall (w : world) (user_input : string) (parameters context ss : dict)
         (m : machine state),
    Dict.lookup "system_state" context = Some (VDict ss) ->
    Dict.lookup "active_sample" ss = Some (VStr "None") ->
    host_calls (trace (_run_protocol w user_input parameters context m)) = []
    /\ host_calls (trace (process_request w user_input parameters context m))
       = [].
Proof.
  intros w user_input parameters context ss m Hss Hsample.
  pose proof (run_protocol_not_host w user_input parameters context ss
                Hss Hsample) as Hrun.
  split; apply flat_map_silent.
  - apply Hrun.
  - revert m. change (emits not_host
                        (process_request w user_input parameters context)).
    unfold process_request, stamp_last_used, dispatch, call.
    repeat lazymatch goal with
           | |- emits _ (_run_protocol _ _ _ _) => exact Hrun
           | |- emits _ (_list_protocols _ _ _ _) =>
               apply list_protocols_not_host
           | |- emits _ (_inspect_protocol _ _ _ _) =>
               apply inspect_protocol_not_host
           | |- emits _ (_get_protocol_status _ _ _ _) =>
               apply protocol_status_not_host
           | |- emits _ (_general_protocol_query _ _ _ _) =>
               apply general_query_not_host
           | |- _ => emits_step
           end.
Qed.

(** *** Listing *)

Lemma failed_with (w : world) (t : list event) (e : exn) (prompt : string) :
  model_calls t = [prompt] ->
  model_failed w t e -> agent_run w prompt = Raise e.
Proof.
  intros Hcalls (p & Hin & Hp). rewrite Hcalls in Hin.
  now destruct Hin as [<- | []].
Qed.

Lemma failed_without (w : world) (t : list event) (e : exn) :
  model_calls t = [] -> ~ model_failed w t e.
Proof. intros Hcalls (p & Hin & _). now rewrite Hcalls in Hin. Qed.

(** C9. When the protocol map is not empty and the model call of
    [_list_protocols] raises, the handler returns its fallback text: the
    count, then one bullet line per protocol name, then the error.  The
    text depends on the map and the exception only, and it is not the
    apology of [process_request]. *)
Theorem listing_falls_back_to_bullets :
  forall (w : world) (user_input : string) (parameters context : dict)
         (protocols : dict) (e : exn) (m : machine state),
    snapshot_protocols context = Ok (VDict protocols) ->
    protocols <> [] ->
    let run := _list_protocols w user_input parameters context m in
    model_failed w (trace run) e ->
    exists msg,
      result run = Ok msg
      /\ msg = fallback_listing (length protocols)
                                (bullet_list (Dict.keys protocols)) e
      /\ Str.occurs (bullet_list (Dict.keys protocols)) msg
      /\ (forall name, In name (Dict.keys protocols) ->
                       Str.occurs (Str.cat ["• "; name]) msg)
      /\ prefix "I encountered an error" msg = false
      /\ msg <> request_error_message e.
Proof.
  intros w user_input parameters context protocols e m Hmap Hsome.
  apply wp_run. unfold _list_protocols. cbv zeta.
  unfold snapshot_protocols in Hmap.
  destruct (dget context "system_state" (VDict [])) as [| | | | | |ss] eqn:Hss;
    try discriminate Hmap.
  wp_step. wp_step. rewrite Hmap. wp_steps.
  cbn [len keys truthy negb].
  destruct protocols as [|entry rest] eqn:Hprotocols; [congruence|].
  rewrite <- Hprotocols in *. cbn [negb].
  wp_steps. cbn [get]. wp_steps.
  destruct (keys (dget ss "instruments" (VDict []))) as [instrument_keys|e0].
  2:{ intros Hfailed. now apply failed_without in Hfailed. }
  wp_steps.
  match goal with |- context [agent_run w ?p] => set (prompt := p) end.
  cbn [trace result fst snd app].
  destruct (agent_run w prompt) as [response|e0] eqn:Hanswer.
  - wp_steps. intros Hfailed.
    apply failed_with with (prompt := prompt) in Hfailed; [congruence|].
    reflexivity.
  - wp_steps. cbn [key_names]. wp_steps.
    intros Hfailed.
    apply failed_with with (prompt := prompt) in Hfailed; [|reflexivity].
    assert (e0 = e) by congruence. subst e0.
    eexists. split; [reflexivity|]. split; [reflexivity|].
    assert (Hlist : Str.occurs (bullet_list (Dict.keys protocols))
                      (fallback_listing (length protocols)
                         (bullet_list (Dict.keys protocols)) e)).
    { apply StrFacts.occurs_cat. cbn [In]. tauto. }
    split; [exact Hlist|]. split; [|split].
    + intros name Hname. eapply StrFacts.occurs_trans; [|exact Hlist].
      apply StrFacts.occurs_join.
      apply in_map with (f := fun name => Str.cat ["• "; name]). exact Hname.
    + reflexivity.
    + intros Heq. apply (f_equal (prefix "I encountered an error")) in Heq.
      discriminate Heq.
Qed.

End ProtocolAgentFacts.

(** ** Both agents: inspection and routing *)

Module AgentFacts.

Import Py Eff Obs EffFacts.
Local Open Scope eff_scope.

Module PA := ProtocolAgent.
Module MC := MeasurementControlAgent.

Lemma truthy_nonempty (name : string) :
  name <> EmptyString -> truthy (VStr name) = true.
Proof. destruct name; simpl; congruence. Qed.

Lemma dget_found (d : dict) (key : string) (default v : value) :
  Dict.lookup key d = Some v -> dget d key default = v.
Proof. unfold dget. now intros ->. Qed.

Lemma dget_missing (d : dict) (key : string) (default : value) :
  Dict.lookup key d = None -> dget d key default = default.
Proof. unfold dget. now intros ->. Qed.

(** C2. Inspecting a name that is not a key of the snapshot's protocol map
    returns, in both agents, a message that contains the rendered list of
    the available protocol names, and the model is not called: the trace
    has no prompt and the agent is left as it was. *)
Theorem inspect_unknown_protocol_lists_names :
  forall (w : world) (user_input : string) (parameters context : dict)
         (name : string) (protocols : dict),
    Dict.lookup "protocol_name" parameters = Some (VStr name) ->
    name <> EmptyString ->
    snapshot_protocols context = Ok (VDict protocols) ->
    ~ In name (Dict.keys protocols) ->
    (forall m,
        let run := PA._inspect_protocol w user_input parameters context m in
        exists msg,
          result run = Ok msg
          /\ Str.occurs (str (key_list protocols)) msg
          /\ model_calls (trace run) = []
          /\ final run = m)
    /\
    (forall m,
        let run := MC._inspect_protocol w user_input parameters context m in
        exists msg,
          result run = Ok msg
          /\ Str.occurs (str (key_list protocols)) msg
          /\ model_calls (trace run) = []
          /\ final run = m).
Proof.
  intros w user_input parameters context name protocols Hname Hne Hmap Hnew.
  apply DictFacts.not_mem_keys in Hnew.
  unfold snapshot_protocols in Hmap.
  split; intros m run; subst run.
  - unfold PA._inspect_protocol.
    rewrite (dget_found _ _ _ _ Hname), (truthy_nonempty _ Hne).
    unfold bind, lift. rewrite Hmap.
    cbn [negb contains hashable keys ret]. rewrite Hnew.
    cbn [negb contains hashable keys ret app result trace final fst snd].
    eexists. split; [reflexivity|]. split; [|split; reflexivity].
    apply StrFacts.occurs_cat. cbn [In]. tauto.
  - unfold MC._inspect_protocol.
    rewrite (dget_found _ _ _ _ Hname), (truthy_nonempty _ Hne).
    unfold bind, lift. rewrite Hmap.
    cbn [negb contains hashable keys ret]. rewrite Hnew.
    cbn [negb contains hashable keys ret app result trace final fst snd].
    eexists. split; [reflexivity|]. split; [|split; reflexivity].
    apply StrFacts.occurs_cat. cbn [In]. tauto.
Qed.

(** *** Routing *)

Section Routing.
Variable w : world.
Variables (user_input : string) (parameters context : dict).

Lemma general_query_not_handler :
  emits not_handler
        (PA._general_protocol_query w user_input parameters context).
Proof. unfold PA._general_protocol_query. emits_auto. Qed.

Lemma analyze_request_not_handler :
  emits not_handler
        (MC._analyze_measurement_request w user_input parameters context).
Proof. unfold MC._analyze_measurement_request. emits_auto. Qed.

End Routing.

Lemma handler_calls_app (t1 t2 : list event) :
  handler_calls (t1 ++ t2) = (handler_calls t1 ++ handler_calls t2)%list.
Proof. apply flat_map_app. Qed.

Lemma unknown_to_cons (k : string) (known : list string) (intent : value) :
  unknown_to (k :: known) intent ->
  eq_str intent k = false /\ unknown_to known intent.
Proof.
  intros H. split; [apply H; now left | intros k' Hk'; apply H; now right].
Qed.

(** **** The intent the protocol agent dispatches on *)

(** [items[-1]] is the last item. *)
Lemma last_item (earlier : list value) (x : value) :
  getitem (VList (earlier ++ [x])) (VInt (-1)) = Ok x.
Proof.
  unfold getitem, as_index, position.
  rewrite length_app, Nat.add_comm. cbn [length Nat.add].
  change (-1 <? 0)%Z with true. cbv iota.
  replace (-1 + Z.of_nat (Datatypes.S (length earlier)))%Z
    with (Z.of_nat (length earlier)) by lia.
  replace ((0 <=? Z.of_nat (length earlier))%Z
           && (Z.of_nat (length earlier)
               <? Z.of_nat (Datatypes.S (length earlier)))%Z)
    with true
    by (symmetry; apply andb_true_iff; split;
        [apply Z.leb_le | apply Z.ltb_lt]; lia).
  rewrite Nat2Z.id, nth_error_app2 by lia.
  now rewrite Nat.sub_diag.
Qed.

(** An intent named by the snapshot is taken as it is. *)
Lemma resolve_named (user_input : string) (context : dict) (intent : value) :
  snapshot_intent context = Ok intent ->
  eq_str intent "unknown" = false ->
  PA.resolve_intent user_input context = Ok intent.
Proof.
  intros Hintent Hnamed. unfold PA.resolve_intent, and_then.
  now rewrite Hintent, Hnamed.
Qed.

(** Without one, the last entry of the conversation history is asked. *)
Lemma resolve_from_history (user_input : string) (context : dict)
      (earlier : list value) (latest : dict) (intent : value) :
  snapshot_intent context = Ok (VStr "unknown") ->
  dget context "conversation_history" (VList [])
  = VList (earlier ++ [VDict latest]) ->
  dget latest "intent" (VStr "unknown") = intent ->
  eq_str intent "unknown" = false ->
  PA.resolve_intent user_input context = Ok intent.
Proof.
  intros Hintent Hhistory Hlatest Hnamed.
  unfold PA.resolve_intent, and_then. rewrite Hintent, Hhistory.
  cbn [eq_str String.eqb Ascii.eqb Bool.eqb].
  replace (truthy (VList (earlier ++ [VDict latest]))) with true
    by (destruct earlier; reflexivity).
  rewrite last_item. cbn [get]. now rewrite Hlatest, Hnamed.
Qed.

(** And when the history has none either, the keywords of the request
    decide, in this order. *)
Lemma resolve_from_keywords (user_input : string) (context : dict) :
  undetermined context ->
  PA.resolve_intent user_input context
  = let user_lower := Str.lower user_input in
    if Str.any_in ["list"; "show"; "provide"] user_lower
       && Str.any_in ["protocol"; "measurement protocol"; "protocols"]
                     user_lower
    then Ok (VStr "list_protocols")
    else if Str.any_in ["run"; "execute"; "start"] user_lower
    then Ok (VStr "run_protocol")
    else if Str.any_in ["inspect"; "analyze"; "examine"] user_lower
    then Ok (VStr "inspect_protocol")
    else Ok (VStr "unknown").
Proof.
  intros [Hintent [Hempty | (earlier & latest & Hhistory & Hlatest)]];
    unfold PA.resolve_intent, and_then; rewrite Hintent.
  - rewrite Hempty. reflexivity.
  - rewrite Hhistory.
    cbn [eq_str String.eqb Ascii.eqb Bool.eqb].
    replace (truthy (VList (earlier ++ [VDict latest]))) with true
      by (destruct earlier; reflexivity).
    rewrite last_item. cbn [get]. rewrite Hlatest. reflexivity.
Qed.

(** **** The fallback handlers *)

Section Fallback.
Variable w : world.
Variables (user_input : string) (parameters context : dict).

Lemma analyze_request_not_thread :
  emits not_thread
        (MC._analyze_measurement_request w user_input parameters context).
Proof. unfold MC._analyze_measurement_request. emits_auto. Qed.

(** The measurement control agent, on an intent it has no handler for. *)
Lemma control_falls_back (intent : value) (m : machine MC.state) :
  snapshot_intent context = Ok intent ->
  unknown_to MC.known_intents intent ->
  served_by
    [EvCall "_analyze_measurement_request"]
    (fun e => Str.cat ["Error processing measurement control request: ";
                       str_exn e])
    (fun e =>
       Str.cat ["I encountered an error while processing your measurement control request: ";
                str_exn e; ". Please try again."])
    (MC._analyze_measurement_request w user_input parameters context
       (final (MC.stamp_last_used w m)))
    (MC.process_request w user_input parameters context m).
Proof.
  intros Hintent Hunknown.
  unfold MC.known_intents in Hunknown.
  repeat (apply unknown_to_cons in Hunknown;
          destruct Hunknown as [? Hunknown]).
  unfold served_by.
  unfold MC.process_request, MC.stamp_last_used, MC.dispatch, MC.call,
    MC.request_error_message.
  unfold log_error, log_info.
  unfold bind, try_except, now, get_self, set_self, lift, emit, ret.
  rewrite Hintent.
  repeat match goal with H : eq_str intent _ = false |- _ =>
                           rewrite H; clear H end.
  cbn [self ticks final fst snd].
  destruct (MC._analyze_measurement_request w user_input parameters context _)
    as [[[reply|e] m1] t1];
    cbn [result final trace fst snd app];
    rewrite ?app_nil_r; repeat split; reflexivity.
Qed.

(** The protocol agent, on a resolved intent it has no handler for. *)
Lemma protocol_falls_back (intent : value) (m : machine PA.state) :
  PA.resolve_intent user_input context = Ok intent ->
  unknown_to PA.known_intents intent ->
  served_by
    [EvLog "info"
       (Str.cat ["Processing protocol request with intent: "; str intent]);
     EvCall "_general_protocol_query"]
    (fun e => Str.cat ["Error processing protocol request: "; str_exn e])
    (fun e =>
       Str.cat ["I encountered an error while processing your protocol request: ";
                str_exn e; ". Please try again."])
    (PA._general_protocol_query w user_input parameters context
       (final (PA.stamp_last_used w m)))
    (PA.process_request w user_input parameters context m).
Proof.
  intros Hintent Hunknown.
  unfold PA.known_intents in Hunknown.
  repeat (apply unknown_to_cons in Hunknown;
          destruct Hunknown as [? Hunknown]).
  unfold served_by.
  unfold PA.process_request, PA.stamp_last_used, PA.dispatch, PA.call,
    PA.request_error_message.
  unfold log_error, log_info.
  unfold bind, try_except, now, get_self, set_self, lift, emit, ret.
  rewrite Hintent.
  repeat match goal with H : eq_str intent _ = false |- _ =>
                           rewrite H; clear H end.
  cbn [self ticks final fst snd].
  destruct (PA._general_protocol_query w user_input parameters context _)
    as [[[reply|e] m1] t1];
    cbn [result final trace fst snd app];
    rewrite ?app_nil_r; repeat split; reflexivity.
Qed.

End Fallback.

(** C4, as the code has it.  When the intent the router dispatches on is
    none of the agent's known intents, [process_request] runs the body of
    the generic fallback handler exactly once and nothing else: the reply,
    the agent object and the outward effects of the request are those of
    that one run ([_analyze_measurement_request], which starts no monitor,
    in the measurement control agent; [_general_protocol_query], which
    never calls the host, in the protocol agent), and a failure of the run
    is logged and answered with the router's error text.

    The measurement control agent dispatches on the intent of the snapshot.
    The protocol agent dispatches on the intent it resolves: the intent of
    the snapshot when it names one; else the intent of the last entry of
    the conversation history when that names one; else [list_protocols]
    when the request, in lower case, has one of [list], [show], [provide]
    and one of [protocol], [measurement protocol], [protocols]; else
    [run_protocol] when it has one of [run], [execute], [start]; else
    [inspect_protocol] when it has one of [inspect], [analyze], [examine];
    else ['unknown'], which has no handler and falls back. *)
Theorem unknown_intent_falls_back_once :
  forall (w : world) (user_input : string) (parameters context : dict),
    (forall (intent : value) (m : machine MC.state),
        snapshot_intent context = Ok intent ->
        unknown_to MC.known_intents intent ->
        let run := MC.process_request w user_input parameters context m in
        served_by
          [EvCall "_analyze_measurement_request"]
          (fun e => Str.cat ["Error processing measurement control request: ";
                             str_exn e])
          (fun e =>
             Str.cat ["I encountered an error while processing your measurement control request: ";
                      str_exn e; ". Please try again."])
          (MC._analyze_measurement_request w user_input parameters context
             (final (MC.stamp_last_used w m)))
          run
        /\ thread_starts (trace run) = []
        /\ handler_calls (trace run) = ["_analyze_measurement_request"])
    /\
    (forall (intent : value) (m : machine PA.state),
        PA.resolve_intent user_input context = Ok intent ->
        unknown_to PA.known_intents intent ->
        let run := PA.process_request w user_input parameters context m in
        served_by
          [EvLog "info"
             (Str.cat ["Processing protocol request with intent: ";
                       str intent]);
           EvCall "_general_protocol_query"]
          (fun e => Str.cat ["Error processing protocol request: "; str_exn e])
          (fun e =>
             Str.cat ["I encountered an error while processing your protocol request: ";
                      str_exn e; ". Please try again."])
          (PA._general_protocol_query w user_input parameters context
             (final (PA.stamp_last_used w m)))
          run
        /\ host_calls (trace run) = []
        /\ handler_calls (trace run) = ["_general_protocol_query"])
    /\
    (forall intent : value,
        snapshot_intent context = Ok intent ->
        eq_str intent "unknown" = false ->
        PA.resolve_intent user_input context = Ok intent)
    /\
    (forall (earlier : list value) (latest : dict) (intent : value),
        snapshot_intent context = Ok (VStr "unknown") ->
        dget context "conversation_history" (VList [])
        = VList (earlier ++ [VDict latest]) ->
        dget latest "intent" (VStr "unknown") = intent ->
        eq_str intent "unknown" = false ->
        PA.resolve_intent user_input context = Ok intent)
    /\
    (undetermined context ->
     let said := fun words => Str.any_in words (Str.lower user_input) in
     let listing :=
       said ["list"; "show"; "provide"]
       && said ["protocol"; "measurement protocol"; "protocols"] in
     let running := said ["run"; "execute"; "start"] in
     let inspecting := said ["inspect"; "analyze"; "examine"] in
     (listing = true ->
      PA.resolve_intent user_input context = Ok (VStr "list_protocols"))
     /\ (listing = false -> running = true ->
         PA.resolve_intent user_input context = Ok (VStr "run_protocol"))
     /\ (listing = false -> running = false -> inspecting = true ->
         PA.resolve_intent user_input context
         = Ok (VStr "inspect_protocol"))
     /\ (listing = false -> running = false -> inspecting = false ->
         PA.resolve_intent user_input context = Ok (VStr "unknown"))).
Proof.
  intros w user_input parameters context.
  split; [|split; [|split; [|split]]].
  - intros intent m Hintent Hunknown run.
    pose proof (control_falls_back w user_input parameters context intent m
                  Hintent Hunknown) as Hserved.
    fold run in Hserved. split; [exact Hserved|].
    destruct Hserved as (_ & Htrace & _). rewrite Htrace.
    pose proof (analyze_request_not_thread w user_input parameters context
                  (final (MC.stamp_last_used w m))) as Hquiet.
    pose proof (analyze_request_not_handler w user_input parameters context
                  (final (MC.stamp_last_used w m))) as Hsilent.
    apply flat_map_silent in Hquiet, Hsilent.
    unfold thread_starts, handler_calls in *.
    rewrite !flat_map_app, Hquiet, Hsilent.
    split; destruct (result _); reflexivity.
  - intros intent m Hintent Hunknown run.
    pose proof (protocol_falls_back w user_input parameters context intent m
                  Hintent Hunknown) as Hserved.
    fold run in Hserved. split; [exact Hserved|].
    destruct Hserved as (_ & Htrace & _). rewrite Htrace.
    pose proof (ProtocolAgentFacts.general_query_not_host w user_input parameters context
                  (final (PA.stamp_last_used w m))) as Hquiet.
    pose proof (general_query_not_handler w user_input parameters context
                  (final (PA.stamp_last_used w m))) as Hsilent.
    apply flat_map_silent in Hquiet, Hsilent.
    unfold host_calls, handler_calls in *.
    rewrite !flat_map_app, Hquiet, Hsilent.
    split; destruct (result _); reflexivity.
  - intros intent. apply resolve_named.
  - intros earlier latest intent. apply resolve_from_history.
  - intros Hnone. cbv zeta.
    rewrite (resolve_from_keywords user_input context Hnone). cbv zeta.
    repeat split.
    + now intros ->.
    + now intros -> ->.
    + now intros -> -> ->.
    + now intros -> -> ->.
Qed.

(** C4, as stated, fails for the protocol agent: with the intent
    ['unknown'] in the snapshot, which is none of the known intents, a
    request to [run the scan] is not served by the fallback handler.  It
    is routed to [_run_protocol], which hands the protocol to the host;
    the fallback handler never does. *)
Lemma unknown_intent_with_keyword_skips_fallback :
  ~ (forall (w : world) (user_input : string) (parameters context : dict)
            (intent : value) (m : machine PA.state),
        snapshot_intent context = Ok intent ->
        unknown_to PA.known_intents intent ->
        served_by
          [EvLog "info"
             (Str.cat ["Processing protocol request with intent: ";
                       str intent]);
           EvCall "_general_protocol_query"]
          (fun e => Str.cat ["Error processing protocol request: "; str_exn e])
          (fun e =>
             Str.cat ["I encountered an error while processing your protocol request: ";
                      str_exn e; ". Please try again."])
          (PA._general_protocol_query w user_input parameters context
             (final (PA.stamp_last_used w m)))
          (PA.process_request w user_input parameters context m)).
Proof.
  intros Hclaim.
  pose (context :=
          [("system_state",
            VDict [("intent", VStr "unknown");
                   ("protocols", VDict Examples.two_protocols);
                   ("active_sample", VStr "wafer-7")])]).
  specialize (Hclaim Examples.answering "run the scan"
                     [("protocol_name", VStr "scan")] context
                     (VStr "unknown") Examples.protocol_agent eq_refl).
  assert (Hunknown : unknown_to PA.known_intents (VStr "unknown")).
  { intros k Hk. unfold PA.known_intents in Hk. cbn [In] in Hk.
    repeat (destruct Hk as [<- | Hk]; [reflexivity|]). contradiction. }
  destruct (Hclaim Hunknown) as (_ & Htrace & _).
  apply (f_equal host_calls) in Htrace.
  assert (Hhost :
            host_calls
              (trace (PA.process_request Examples.answering "run the scan"
                        [("protocol_name", VStr "scan")] context
                        Examples.protocol_agent))
            = [VStr "scan"]) by (vm_compute; reflexivity).
  rewrite Hhost in Htrace. vm_compute in Htrace. discriminate Htrace.
Qed.

(** *** Failure containment *)

Lemma contained_is_ok {S A} (c : M S A) (h : exn -> M S A) (m : machine S) :
  (forall e m1, exists a, result (h e m1) = Ok a) ->
  exists a, result (try_except c h m) = Ok a.
Proof.
  intros Hh. unfold try_except, result.
  destruct (c m) as [[[a|e] m1] t1]; cbn; [eauto|].
  destruct (Hh e m1) as (a & Ha). unfold result in Ha.
  destruct (h e m1) as [[r m2] t2]; cbn in *. eauto.
Qed.

(** C5. [process_request] never raises, in either agent: it always returns
    a text, and when the handler it selected raises [e], the text is the
    agent's error message: [I encountered an error while processing your
    protocol request: ] (or [... measurement control request: ]), then
    [str(e)], then [. Please try again.] *)
Theorem process_request_contains_failures :
  forall (w : world) (user_input : string) (parameters context : dict),
    (forall m, exists msg,
        result (PA.process_request w user_input parameters context m)
        = Ok msg)
    /\
    (forall m, exists msg,
        result (MC.process_request w user_input parameters context m)
        = Ok msg)
    /\
    (forall m e,
        result (PA.dispatch w user_input parameters context
                            (final (PA.stamp_last_used w m))) = Raise e ->
        result (PA.process_request w user_input parameters context m)
        = Ok (Str.cat ["I encountered an error while processing your protocol request: ";
                       str_exn e; ". Please try again."]))
    /\
    (forall m e,
        result (MC.dispatch w user_input parameters context
                            (final (MC.stamp_last_used w m))) = Raise e ->
        result (MC.process_request w user_input parameters context m)
        = Ok (Str.cat ["I encountered an error while processing your measurement control request: ";
                       str_exn e; ". Please try again."])).
Proof.
  intros w user_input parameters context. repeat split.
  - intros m. unfold PA.process_request, PA.stamp_last_used.
    unfold bind at 1 2. unfold now, set_self. cbn [self ticks].
    match goal with
    | |- context [try_except ?c ?h ?m'] =>
        destruct (contained_is_ok c h m') as (msg & Hmsg);
        [ intros e m1; eexists; reflexivity | ];
        unfold result in Hmsg;
        destruct (try_except c h m') as [[r m2] t2]
    end.
    cbn in *. eauto.
  - intros m. unfold MC.process_request, MC.stamp_last_used.
    unfold bind at 1 2 3. unfold now, get_self, set_self. cbn [self ticks].
    match goal with
    | |- context [try_except ?c ?h ?m'] =>
        destruct (contained_is_ok c h m') as (msg & Hmsg);
        [ intros e m1; eexists; reflexivity | ];
        unfold result in Hmsg;
        destruct (try_except c h m') as [[r m2] t2]
    end.
    cbn in *. eauto.
  - intros m e. unfold PA.process_request, PA.stamp_last_used.
    unfold bind at 1 2 3. unfold now, set_self, try_except.
    cbn [self ticks final fst snd].
    destruct (PA.dispatch w user_input parameters context _)
      as [[[msg|e'] m1] t1]; cbn; [discriminate|].
    now intros [= ->].
  - intros m e. unfold MC.process_request, MC.stamp_last_used.
    unfold bind at 1 2 3 4 5. unfold now, get_self, set_self, try_except.
    cbn [self ticks final fst snd].
    destruct (MC.dispatch w user_input parameters context _)
      as [[[msg|e'] m1] t1]; cbn; [discriminate|].
    now intros [= ->].
Qed.

End AgentFacts.

(** ** The measurement control agent *)

Module MonitorFacts.

Import Py Eff Obs EffFacts MeasurementControlAgent.
Local Open Scope eff_scope.

(** *** The store *)

Lemma length_update (h : heap) (a : nat) (o : object) :
  length (update h a o) = length h.
Proof.
  revert a. induction h as [|x h IH]; intros [|a]; simpl; auto.
Qed.

Lemma deref_update_same (h : heap) (a : nat) (o : object) :
  a < length h -> deref (update h a o) a = o.
Proof.
  unfold deref. revert a.
  induction h as [|x h IH]; intros [|a] Ha; simpl in *; try lia; auto.
  apply IH. lia.
Qed.

Lemma deref_update_other (h : heap) (a b : nat) (o : object) :
  a <> b -> deref (update h a o) b = deref h b.
Proof.
  unfold deref. revert a b.
  induction h as [|x h IH]; intros [|a] [|b] Hab; simpl; auto; try congruence.
Qed.

Lemma deref_grown (h : heap) (a : nat) (o : object) :
  a < length h -> deref (h ++ [o])%list a = deref h a.
Proof. intros Ha. unfold deref. now rewrite app_nth1. Qed.

Lemma deref_fresh (h : heap) (o : object) : deref (h ++ [o])%list (length h) = o.
Proof.
  unfold deref. rewrite app_nth2 by lia. now rewrite Nat.sub_diag.
Qed.

Lemma length_grown (h : heap) (o : object) :
  length (h ++ [o])%list = Datatypes.S (length h).
Proof. rewrite length_app. simpl. lia. Qed.

(** *** Stopping a monitor that is not registered *)

(** C3.  A stop request that names a monitor (a non-empty identifier)
    which is not in the registry falls through to the last branch of
    [_stop_monitoring]: nothing is changed, and the reply is
    [No active monitoring tasks to stop.], whether the registry is empty
    or not.  With monitors running, that reply is false of the agent: the
    request is not acknowledged, and the monitors it says are not there
    go on. *)
Theorem stop_unregistered_monitor :
  forall (user_input : string) (parameters context : dict) (id : string)
         (m : machine state),
    Dict.lookup "monitor_id" parameters = Some (VStr id) ->
    id <> EmptyString ->
    Dict.mem id (registry (self m)) = false ->
    _stop_monitoring user_input parameters context m
    = (Ok "ℹ️ No active monitoring tasks to stop.", m, []).
Proof.
  intros user_input parameters context id m Hid Hne Hnew.
  unfold _stop_monitoring, dget. rewrite Hid.
  assert (Htruthy : truthy (VStr id) = true) by (destruct id; simpl; congruence).
  rewrite Htruthy. destruct m as [ticks0 s]. unfold registry in Hnew.
  cbn [self] in Hnew.
  cbv [bind get_self read lift ret has hashable self].
  rewrite Hnew. reflexivity.
Qed.

(** *** Stopping registered monitors *)

Lemma has_key (k : string) (o : object) : has (VStr k) o = Ok (Dict.mem k o).
Proof. reflexivity. Qed.

Lemma without_key (k : string) (o : object) :
  Dict.mem k o = true -> without o (VStr k) = Ok (Dict.remove k o).
Proof. unfold without. cbn [hashable]. now intros ->. Qed.

(** Validity, spelled out on the fields. *)
Lemma valid_fields lu (h : heap) (a b c : nat) :
  valid (State lu h a b c) <->
  a < length h /\ b < length h /\ a <> b /\ Dict.wf (deref h a)
  /\ Forall (fun entry =>
               exists r, snd entry = HRef r /\ r < length h /\ r <> a /\ r <> b)
            (deref h a).
Proof. reflexivity. Qed.

Lemma stop_monitor_run (k : string) (r : nat) (m : machine state) :
  valid (self m) ->
  Dict.lookup k (registry (self m)) = Some (HRef r) ->
  wp (_stop_monitor (VStr k)) m (fun res m' t =>
    res = Ok tt /\ t = []
    /\ registry (self m') = Dict.remove k (registry (self m))
    /\ valid (self m')).
Proof.
  destruct m as [ticks0 [lu h a b c]]. cbn [self].
  rewrite valid_fields. unfold registry.
  cbn [self store active_monitors monitoring_threads].
  intros (Ha & Hb & Hab & Hwf & Hrefs) Hk.
  assert (Hmem : Dict.mem k (deref h a) = true).
  { unfold Dict.mem. now rewrite Hk. }
  assert (Hr : r < length h /\ r <> a /\ r <> b).
  { rewrite Forall_forall in Hrefs.
    destruct (Hrefs _ (DictFacts.lookup_In _ _ _ Hk)) as (r' & [= <-] & ?). assumption. }
  destruct Hr as (Hr & Hra & Hrb).
  set (h1 := update h r (Dict.assign "status" (HVal (VStr "stopped")) (deref h r))).
  assert (Hvalid : forall h', length h' = length h ->
                              deref h' a = Dict.remove k (deref h a) ->
                              valid (State lu h' a b c)).
  { intros h' Hlen Hreg. rewrite valid_fields, Hlen, Hreg.
    repeat split; try assumption.
    - now apply DictFacts.wf_remove.
    - rewrite Forall_forall in *. intros entry Hin.
      apply Hrefs. eapply DictFacts.In_remove; eassumption. }
  unfold _stop_monitor, set_status, read, write.
  wp_steps. cbn [self store active_monitors monitoring_threads].
  rewrite has_key, Hmem. wp_steps.
  cbn [self store active_monitors monitoring_threads].
  unfold item. cbn [hashable]. rewrite Hk.
  wp_steps. cbn [self store active_monitors monitoring_threads with_store ticks].
  fold h1.
  assert (Hh1 : deref h1 a = deref h a)
    by (subst h1; now apply deref_update_other).
  rewrite Hh1.
  rewrite (without_key _ _ Hmem). wp_steps.
  cbn [self store active_monitors monitoring_threads with_store ticks].
  rewrite has_key.
  destruct (Dict.mem k (deref (update h1 a (Dict.remove k (deref h a))) b)) eqn:Hthread.
  - wp_steps. rewrite (without_key _ _ Hthread). wp_steps.
    cbn [self store active_monitors monitoring_threads with_store ticks].
    refine (conj eq_refl (conj eq_refl (conj _ _))).
    + rewrite deref_update_other by congruence.
      apply deref_update_same. subst h1. now rewrite length_update.
    + apply Hvalid.
      * subst h1. now rewrite !length_update.
      * rewrite deref_update_other by congruence.
        apply deref_update_same. subst h1. now rewrite length_update.
  - wp_steps. refine (conj eq_refl (conj eq_refl (conj _ _))).
    + apply deref_update_same. subst h1. now rewrite length_update.
    + apply Hvalid.
      * subst h1. now rewrite !length_update.
      * apply deref_update_same. subst h1. now rewrite length_update.
Qed.

Lemma stop_each_run (entries : object) :
  forall m : machine state,
    valid (self m) ->
    registry (self m) = entries ->
    wp (for_each (Dict.keys entries) (fun mid => _stop_monitor (VStr mid))) m
       (fun res m' t =>
          res = Ok tt /\ t = [] /\ registry (self m') = [] /\ valid (self m')).
Proof.
  induction entries as [|[k slot] rest IH]; intros m Hvalid Hreg.
  - cbn [Dict.keys map for_each]. wp_steps. auto.
  - cbn [Dict.keys map for_each fst]. apply wp_bind.
    assert (Hslot : exists r, slot = HRef r).
    { destruct Hvalid as (_ & _ & _ & _ & Hrefs). rewrite Hreg in Hrefs.
      inversion Hrefs as [|? ? (r & Hr & _) _]; subst. now exists r. }
    destruct Hslot as (r & ->).
    assert (Hk : Dict.lookup k (registry (self m)) = Some (HRef r)).
    { rewrite Hreg. simpl. now rewrite String.eqb_refl. }
    eapply wp_mono; [exact (stop_monitor_run k r m Hvalid Hk)|].
    intros res m1 t1 (-> & -> & Hreg1 & Hvalid1).
    rewrite Hreg, DictFacts.remove_head in Hreg1.
    eapply wp_mono; [exact (IH m1 Hvalid1 Hreg1)|].
    intros res m2 t2 (-> & -> & Hreg2 & Hvalid2). auto.
Qed.

Lemma repr_list (items : list value) :
  repr (VList items) = "[" ++ Str.join ", " (map repr items) ++ "]".
Proof. reflexivity. Qed.

Lemma occurs_in_list (k : string) (items : list value) :
  In (VStr k) items -> Str.occurs (repr_str k) (str (VList items)).
Proof.
  intros Hin. unfold str. rewrite repr_list.
  apply StrFacts.occurs_skip, StrFacts.occurs_keep, StrFacts.occurs_join.
  change (repr_str k) with (repr (VStr k)). now apply in_map.
Qed.

(** C8. A stop request without a monitor identifier, made while exactly
    two monitors are registered, leaves the registry empty and answers with
    the confirmation that lists both identifiers, in the order in which
    they were registered. *)
Theorem stop_all_empties_registry :
  forall (user_input : string) (parameters context : dict)
         (m : machine state) (k1 k2 : string) (slot1 slot2 : hval),
    truthy (dget parameters "monitor_id" (VStr EmptyString)) = false ->
    valid (self m) ->
    registry (self m) = [(k1, slot1); (k2, slot2)] ->
    let run := _stop_monitoring user_input parameters context m in
    registry (self (final run)) = []
    /\ exists msg,
        result run = Ok msg
        /\ msg = Str.cat ["🛑 Stopped all monitoring tasks: ";
                          str (VList [VStr k1; VStr k2])]
        /\ Str.occurs (repr_str k1) msg
        /\ Str.occurs (repr_str k2) msg.
Proof.
  intros user_input parameters context m k1 k2 slot1 slot2 Hnone Hvalid Hreg.
  apply wp_run. unfold _stop_monitoring. rewrite Hnone.
  unfold read. wp_steps. fold (registry (self m)). rewrite Hreg.
  cbn [negb andb]. wp_steps.
  eapply wp_mono; [exact (stop_each_run _ m Hvalid Hreg)|].
  intros res m1 t1 (-> & -> & Hempty & _). wp_steps.
  cbn [result final trace fst snd].
  split; [exact Hempty|]. eexists. split; [reflexivity|]. split; [reflexivity|].
  split; (eapply StrFacts.occurs_trans;
          [|apply StrFacts.occurs_cat; right; left; reflexivity]);
    apply occurs_in_list; cbn; auto.
Qed.

(** *** Creating and listing monitors *)

Lemma valid_init : valid init.
Proof.
  unfold init. rewrite valid_fields. cbn.
  repeat split; try lia; constructor.
Qed.

(** The second half of both [_create_conditional_monitor] and
    [_create_device_monitor]: the record is allocated, registered under its
    identifier, the loop is started and its thread is noted. *)
Lemma register_run (id target : string) (record : object)
      (m : machine state) :
  valid (self m) ->
  wp (address <- new record ;;
      s <- get_self ;;
      monitors <- read (active_monitors s) ;;
      write (active_monitors s) (Dict.assign id (HRef address) monitors) ;;
      emit (EvThreadStart target id) ;;
      running <- read (monitoring_threads s) ;;
      write (monitoring_threads s)
            (Dict.assign id (HThread target id) running) ;;
      ret id) m
     (fun res m' t =>
        res = Ok id
        /\ t = [EvThreadStart target id]
        /\ registry (self m')
           = Dict.assign id (HRef (length (store (self m)))) (registry (self m))
        /\ deref (store (self m')) (length (store (self m))) = record
        /\ valid (self m')).
Proof.
  destruct m as [ticks0 [lu h a b c]]. cbn [self ticks store].
  rewrite valid_fields. unfold registry.
  cbn [self store active_monitors monitoring_threads].
  intros (Ha & Hb & Hab & Hwf & Hrefs).
  unfold new, read, write.
  wp_steps.
  cbn [self store active_monitors monitoring_threads with_store ticks app].
  set (h1 := (h ++ _)%list).
  assert (Hlen1 : length h1 = Datatypes.S (length h))
    by (subst h1; apply length_grown).
  assert (Hreg1 : deref h1 a = deref h a)
    by (subst h1; now apply deref_grown).
  rewrite Hreg1.
  set (h2 := update h1 a (Dict.assign id (HRef (length h)) (deref h a))).
  assert (Hlen2 : length h2 = Datatypes.S (length h))
    by (subst h2; now rewrite length_update).
  assert (Hreg2 : deref h2 a = Dict.assign id (HRef (length h)) (deref h a))
    by (subst h2; apply deref_update_same; lia).
  refine (conj eq_refl (conj eq_refl (conj _ (conj _ _)))).
  - rewrite deref_update_other by congruence. exact Hreg2.
  - rewrite deref_update_other by lia. subst h2.
    rewrite deref_update_other by lia. subst h1.
    apply deref_fresh.
  - unfold with_store.
    cbn [last_used store active_monitors monitoring_threads
         condition_handlers].
    fold h2. rewrite valid_fields, length_update, Hlen2.
    rewrite deref_update_other by congruence. rewrite Hreg2.
    repeat split; try lia.
    + now apply DictFacts.wf_assign.
    + rewrite Forall_forall in *. intros entry Hin.
      apply DictFacts.In_assign in Hin. destruct Hin as [-> | Hin].
      * exists (length h). cbn. repeat split; lia.
      * destruct (Hrefs _ Hin) as (r & ? & ? & ? & ?).
        exists r. repeat split; auto; lia.
Qed.

Lemma create_conditional_monitor_run (w : world)
      (protocol_name condition : value) (context : dict)
      (m : machine state) :
  valid (self m) ->
  forall id,
    id = Str.cat ["conditional_"; str protocol_name; "_";
                  strftime_HMS (clock w (ticks m))] ->
  wp (_create_conditional_monitor w protocol_name condition context) m
     (fun res m' t =>
        res = Ok id
        /\ t = [EvThreadStart "_conditional_monitor_loop" id]
        /\ registry (self m')
           = Dict.assign id (HRef (length (store (self m)))) (registry (self m))
        /\ Dict.lookup "status"
             (deref (store (self m')) (length (store (self m))))
           = Some (HVal (VStr "active"))
        /\ valid (self m')).
Proof.
  intros Hvalid id ->. unfold _create_conditional_monitor.
  wp_step. wp_step. wp_step. wp_step.
  eapply wp_mono; [apply register_run; exact Hvalid|].
  cbn [self ticks]. intros res m1 t1 (-> & -> & Hreg & Hrecord & Hvalid1).
  refine (conj eq_refl (conj eq_refl (conj Hreg (conj _ Hvalid1)))).
  now rewrite Hrecord.
Qed.

Lemma create_device_monitor_run (w : world)
      (device_name parameter interval : value) (context : dict)
      (m : machine state) :
  valid (self m) ->
  forall id,
    id = Str.cat ["device_"; str device_name; "_";
                  strftime_HMS (clock w (ticks m))] ->
  wp (_create_device_monitor w device_name parameter interval context) m
     (fun res m' t =>
        res = Ok id
        /\ t = [EvThreadStart "_device_monitor_loop" id]
        /\ registry (self m')
           = Dict.assign id (HRef (length (store (self m)))) (registry (self m))
        /\ Dict.lookup "status"
             (deref (store (self m')) (length (store (self m))))
           = Some (HVal (VStr "active"))
        /\ valid (self m')).
Proof.
  intros Hvalid id ->. unfold _create_device_monitor.
  wp_step. wp_step. wp_step. wp_step.
  eapply wp_mono; [apply register_run; exact Hvalid|].
  cbn [self ticks]. intros res m1 t1 (-> & -> & Hreg & Hrecord & Hvalid1).
  refine (conj eq_refl (conj eq_refl (conj Hreg (conj _ Hvalid1)))).
  now rewrite Hrecord.
Qed.

Lemma get_active_monitors_run (m : machine state) :
  active_monitors (self m) < length (store (self m)) ->
  wp get_active_monitors m
     (fun res m' t =>
        res = Ok (length (store (self m)))
        /\ t = []
        /\ active_monitors (self m') = active_monitors (self m)
        /\ deref (store (self m')) (length (store (self m))) = registry (self m)
        /\ registry (self m') = registry (self m)).
Proof.
  destruct m as [ticks0 [lu h a b c]].
  cbn [self store active_monitors]. intros Ha.
  unfold get_active_monitors, new, read. wp_steps.
  unfold registry.
  cbn [self store active_monitors monitoring_threads with_store ticks app].
  refine (conj eq_refl (conj eq_refl (conj eq_refl (conj _ _)))).
  - apply deref_fresh.
  - now apply deref_grown.
Qed.

(** *** The listing is a copy *)

Lemma apply_mutations_elsewhere (a copy : nat) (mus : list mutation)
      (h : heap) :
  copy <> a -> deref (apply_mutations copy mus h) a = deref h a.
Proof.
  intros Hne. unfold apply_mutations. revert h.
  induction mus as [|mu mus IH]; intros h; simpl; [reflexivity|].
  rewrite IH. now apply deref_update_other.
Qed.

(** C10. [get_active_monitors] returns a new dictionary with the entries
    of the registry: whatever entries the caller then binds, deletes or
    clears in the returned dictionary, the agent's [active_monitors] is as
    it was. *)
Theorem listing_is_a_fresh_copy :
  forall (m : machine state),
    active_monitors (self m) < length (store (self m)) ->
    let listing := get_active_monitors m in
    exists copy,
      result listing = Ok copy
      /\ copy <> active_monitors (self m)
      /\ active_monitors (self (final listing)) = active_monitors (self m)
      /\ deref (store (self (final listing))) copy = registry (self m)
      /\ registry (self (final listing)) = registry (self m)
      /\ forall mus,
          deref (apply_mutations copy mus (store (self (final listing))))
                (active_monitors (self m))
          = registry (self m).
Proof.
  intros m Hvalid. apply wp_run.
  eapply wp_mono; [apply get_active_monitors_run, Hvalid|].
  intros res m1 t1 (-> & -> & Hsame & Hcopy & Hreg).
  cbn [result final trace fst snd]. eexists. split; [reflexivity|].
  assert (Hfresh : length (store (self m)) <> active_monitors (self m))
    by lia.
  repeat split; auto.
  intros mus. rewrite apply_mutations_elsewhere by exact Hfresh.
  fold (registry (self m)) in Hreg. unfold registry in Hreg.
  rewrite Hsame in Hreg. exact Hreg.
Qed.

(** C7. The identifier [_create_conditional_monitor] returns for protocol
    [P] contains [conditional] and [P], and right after the creation it is a
    key of the listing [get_active_monitors] returns. *)
Theorem conditional_monitor_is_listed :
  forall (w : world) (P condition : string) (context : dict)
         (m : machine state),
    valid (self m) ->
    let created :=
      _create_conditional_monitor w (VStr P) (VStr condition) context m in
    exists id,
      result created = Ok id
      /\ Str.occurs "conditional" id
      /\ Str.occurs P id
      /\ let listing := get_active_monitors (final created) in
         exists copy,
           result listing = Ok copy
           /\ Dict.mem id (deref (store (self (final listing))) copy) = true.
Proof.
  intros w P condition context m Hvalid.
  apply wp_run.
  eapply wp_mono;
    [exact (create_conditional_monitor_run w _ _ context m Hvalid _ eq_refl)|].
  intros res m1 t1 (-> & -> & Hreg & _ & Hvalid1).
  cbn [result final trace fst snd]. eexists. split; [reflexivity|].
  split; [|split].
  - apply StrFacts.occurs_trans with (y := "conditional_").
    + now exists EmptyString, "_".
    + apply StrFacts.occurs_cat. now left.
  - apply StrFacts.occurs_cat. cbn [In str]. tauto.
  - apply wp_run.
    eapply wp_mono; [apply get_active_monitors_run, Hvalid1|].
    intros res m2 t2 (-> & -> & _ & Hcopy & _).
    cbn [result final trace fst snd]. eexists. split; [reflexivity|].
    rewrite Hcopy, Hreg. apply DictFacts.mem_assign_same.
Qed.

(** *** Turns of the monitor loops *)

Lemma valid_same_registry lu (h h' : heap) (a b c : nat) :
  length h' = length h ->
  deref h' a = deref h a ->
  valid (State lu h a b c) -> valid (State lu h' a b c).
Proof.
  intros Hlen Hreg. rewrite !valid_fields, Hlen, Hreg. auto.
Qed.

(** The loop test reads and changes nothing. *)
Lemma monitor_is_active_run (monitor_id : string) (m : machine state) :
  valid (self m) ->
  wp (monitor_is_active monitor_id) m (fun _ m' t => m' = m /\ t = []).
Proof.
  destruct m as [ticks0 [lu h a b c]]. cbn [self]. rewrite valid_fields.
  intros (Ha & Hb & Hab & Hwf & Hrefs).
  unfold monitor_is_active, read. wp_steps.
  cbn [self store active_monitors].
  destruct (Dict.mem monitor_id (deref h a)) eqn:Hmem; [|wp_steps; auto].
  apply DictFacts.mem_lookup in Hmem. destruct Hmem as (slot & Hslot).
  rewrite Forall_forall in Hrefs.
  destruct (Hrefs _ (DictFacts.lookup_In _ _ _ Hslot)) as (r & Hr & _).
  cbn [snd] in Hr. subst slot.
  wp_steps. unfold item at 1. cbn [hashable]. rewrite Hslot. wp_steps.
  cbn [self store].
  destruct (item (deref h r) (VStr "status")); wp_steps; auto.
Qed.

(** The [except] branch of a loop marks the record and leaves the registry
    as it is. *)
Lemma monitor_failed_run (monitor_id message : string) (m : machine state) :
  valid (self m) ->
  wp (monitor_failed monitor_id message) m
     (fun _ m' _ => registry (self m') = registry (self m) /\ valid (self m')).
Proof.
  destruct m as [ticks0 [lu h a b c]]. cbn [self]. intros Hvalid.
  pose proof Hvalid as Hfields. rewrite valid_fields in Hfields.
  destruct Hfields as (Ha & Hb & Hab & Hwf & Hrefs).
  unfold monitor_failed, set_status, read, write. wp_steps.
  cbn [self store active_monitors].
  destruct (Dict.mem monitor_id (deref h a)) eqn:Hmem; [|wp_steps; auto].
  apply DictFacts.mem_lookup in Hmem. destruct Hmem as (slot & Hslot).
  rewrite Forall_forall in Hrefs.
  destruct (Hrefs _ (DictFacts.lookup_In _ _ _ Hslot)) as (r & Hr & Hlt & Hra & Hrb).
  cbn [snd] in Hr. subst slot.
  wp_steps. cbn [self store active_monitors].
  unfold item. cbn [hashable]. rewrite Hslot. wp_steps.
  unfold registry, with_store.
  cbn [self store active_monitors monitoring_threads last_used condition_handlers].
  split.
  - now apply deref_update_other.
  - apply valid_same_registry with (h := h); [apply length_update | | exact Hvalid].
    now apply deref_update_other.
Qed.

(** A turn of a monitor loop, run between two requests, leaves the keys and
    slots of the registry as they are. *)
Lemma conditional_loop_turn_keeps_registry (monitor_id : string)
      (protocol_name condition : value) (m : machine state) :
  valid (self m) ->
  wp (_conditional_monitor_loop_turn monitor_id protocol_name condition) m
     (fun _ m' _ => registry (self m') = registry (self m) /\ valid (self m')).
Proof.
  intros Hvalid. unfold _conditional_monitor_loop_turn.
  wp_step. wp_step.
  eapply wp_mono; [exact (monitor_is_active_run monitor_id m Hvalid)|].
  intros [active|e] m1 t1 (-> & ->).
  - destruct active; wp_steps; auto.
  - wp_step.
    eapply wp_mono; [exact (monitor_failed_run _ _ m Hvalid)|].
    intros [[]|e'] m1 t1 Hkept; wp_steps; exact Hkept.
Qed.

Lemma device_loop_turn_keeps_registry (monitor_id : string)
      (device_name parameter interval : value) (m : machine state) :
  valid (self m) ->
  wp (_device_monitor_loop_turn monitor_id device_name parameter interval) m
     (fun _ m' _ => registry (self m') = registry (self m) /\ valid (self m')).
Proof.
  intros Hvalid. unfold _device_monitor_loop_turn.
  wp_step. wp_step.
  eapply wp_mono; [exact (monitor_is_active_run monitor_id m Hvalid)|].
  intros [active|e] m1 t1 (-> & ->).
  - destruct active; wp_steps; auto.
  - wp_step.
    eapply wp_mono; [exact (monitor_failed_run _ _ m Hvalid)|].
    intros [[]|e'] m1 t1 Hkept; wp_steps; exact Hkept.
Qed.

(** *** The shape of the agent is kept *)

Section Valid.
Variable w : world.
Variables (user_input : string) (parameters context : dict).

Lemma inspect_keeps_valid :
  keeps valid (_inspect_protocol w user_input parameters context).
Proof. unfold _inspect_protocol. cbv zeta. repeat keeps_step. Qed.

Lemma analyze_keeps_valid :
  keeps valid (_analyze_measurement_request w user_input parameters context).
Proof. unfold _analyze_measurement_request. cbv zeta. repeat keeps_step. Qed.

Lemma create_conditional_keeps_valid protocol_name condition :
  keeps valid (_create_conditional_monitor w protocol_name condition context).
Proof.
  apply keeps_wp. intros m Hm.
  eapply wp_mono;
    [exact (create_conditional_monitor_run w _ _ context m Hm _ eq_refl)|].
  now intros r m' t (_ & _ & _ & _ & Hvalid).
Qed.

Lemma setup_conditional_keeps_valid :
  keeps valid (_setup_conditional_execution w user_input parameters context).
Proof.
  unfold _setup_conditional_execution. cbv zeta.
  repeat first [apply create_conditional_keeps_valid | keeps_step].
Qed.

Lemma stop_monitoring_keeps_valid :
  keeps valid (_stop_monitoring user_input parameters context).
Proof.
  apply keeps_wp. intros m Hm. unfold _stop_monitoring. cbv zeta.
  unfold read. wp_step. wp_step. wp_step. wp_step. wp_step. wp_step.
  fold (registry (self m)).
  destruct (truthy (dget parameters "monitor_id" (VStr EmptyString))) eqn:Hid.
  - wp_step.
    destruct (dget parameters "monitor_id" (VStr EmptyString)) as [| | | |k| |];
      cbn [has hashable]; try exact Hm.
    destruct (Dict.mem k (registry (self m))) eqn:Hmem.
    + apply DictFacts.mem_lookup in Hmem. destruct Hmem as (slot & Hslot).
      assert (Href : exists r, slot = HRef r).
      { destruct Hm as (_ & _ & _ & _ & Hrefs). rewrite Forall_forall in Hrefs.
        destruct (Hrefs _ (DictFacts.lookup_In _ _ _ Hslot)) as (r & Hr & _).
        now exists r. }
      destruct Href as (r & ->). wp_steps.
      eapply wp_mono; [exact (stop_monitor_run k r m Hm Hslot)|].
      intros res m1 t1 (-> & -> & _ & Hvalid). wp_steps. exact Hvalid.
    + cbn [negb andb]. wp_steps. exact Hm.
  - wp_step. cbn [negb andb].
    destruct (registry (self m)) as [|entry rest] eqn:Hreg.
    + wp_steps. exact Hm.
    + rewrite <- Hreg. wp_steps.
      eapply wp_mono; [exact (stop_each_run _ m Hm eq_refl)|].
      intros res m1 t1 (-> & -> & _ & Hvalid). wp_steps. exact Hvalid.
Qed.

Lemma create_device_keeps_valid device_name parameter interval :
  keeps valid
        (_create_device_monitor w device_name parameter interval context).
Proof.
  apply keeps_wp. intros m Hm.
  eapply wp_mono;
    [exact (create_device_monitor_run w _ _ _ context m Hm _ eq_refl)|].
  now intros r m' t (_ & _ & _ & _ & Hvalid).
Qed.

Lemma setup_device_keeps_valid :
  keeps valid (_setup_device_monitoring w user_input parameters context).
Proof.
  unfold _setup_device_monitoring. cbv zeta.
  repeat first [apply create_device_keeps_valid | keeps_step].
Qed.

Lemma stamp_keeps_valid : keeps valid (stamp_last_used w).
Proof.
  intros [ticks0 [lu h a b c]] Hm. exact Hm.
Qed.

(** Every request leaves the agent in the shape [__init__] set up, so
    [valid] holds of every agent a sequence of requests can produce. *)
Lemma process_request_keeps_valid :
  keeps valid (process_request w user_input parameters context).
Proof.
  unfold process_request, dispatch, call.
  repeat first
         [ apply stamp_keeps_valid
         | apply inspect_keeps_valid
         | apply setup_conditional_keeps_valid
         | apply setup_device_keeps_valid
         | apply stop_monitoring_keeps_valid
         | apply analyze_keeps_valid
         | keeps_step ].
Qed.

End Valid.

(** *** Setting up conditional execution *)

Lemma not_answered_silent (w : world) (response : string) :
  ~ model_answered w [] response.
Proof. intros (prompt & [] & _). Qed.

Lemma answered_once (w : world) (prompt response : string) (t : list event) :
  model_calls t = [] ->
  model_answered w (EvAgentRun prompt :: t) response
  <-> agent_run w prompt = Ok response.
Proof.
  intros Hrest. unfold model_answered, model_calls in *. cbn. rewrite Hrest.
  split.
  - intros (p & [<- | []] & Hp). exact Hp.
  - intros Hp. exists prompt. auto.
Qed.

(** C6, as the code has it.  [_setup_conditional_execution] registers a
    monitor record and starts its background loop if and only if a protocol
    name and a condition are both present (after the keyword fallback) and
    the model call it makes first has answered.  In every other case the
    agent is left as it was and no loop is started; when the model has
    answered and a name or a condition is missing, the reply is the
    analysis text alone. *)
Theorem conditional_setup_registers_iff :
  forall (w : world) (user_input : string) (parameters context : dict)
         (m : machine state),
    valid (self m) ->
    let run := _setup_conditional_execution w user_input parameters context m in
    let answered := exists response, model_answered w (trace run) response in
    (started_and_registered run
     <-> both_present user_input parameters = true /\ answered)
    /\ (~ (both_present user_input parameters = true /\ answered) ->
        self (final run) = self m /\ thread_starts (trace run) = [])
    /\ (both_present user_input parameters = false ->
        forall response,
          model_answered w (trace run) response ->
          result run = Ok (analysis_message response)).
Proof.
  intros w user_input parameters context m Hvalid.
  apply wp_run. unfold _setup_conditional_execution. cbv zeta.
  fold (both_present user_input parameters).
  assert (Hquiet : forall (r : outcome string),
             (started_and_registered (r, m, [])
              <-> both_present user_input parameters = true
                  /\ exists response, model_answered w (trace (r, m, [])) response)
             /\ (~ (both_present user_input parameters = true
                    /\ exists response, model_answered w (trace (r, m, [])) response) ->
                 self (final (r, m, [])) = self m
                 /\ thread_starts (trace (r, m, [])) = [])
             /\ (both_present user_input parameters = false ->
                 forall response,
                   model_answered w (trace (r, m, [])) response ->
                   result (r, m, []) = Ok (analysis_message response))).
  { intros r. cbn [trace final result fst snd]. split; [|split].
    - split.
      + intros (id & r0 & Hstart & _). discriminate Hstart.
      + intros (_ & response & Hans). now apply not_answered_silent in Hans.
    - auto.
    - intros _ response Hans. now apply not_answered_silent in Hans. }
  wp_step. destruct (get _ "protocols" _) as [available_protocols|e]; [|apply Hquiet].
  wp_step. wp_step. destruct (get _ "instruments" _) as [instruments|e]; [|apply Hquiet].
  wp_step. wp_step. destruct (keys available_protocols) as [names|e]; [|apply Hquiet].
  wp_step. wp_step. destruct (keys instruments) as [instrument_keys|e]; [|apply Hquiet].
  clear Hquiet.
  wp_steps.
  match goal with |- context [agent_run w ?p] => set (prompt := p) end.
  destruct (agent_run w prompt) as [response|e] eqn:Hanswer.
  - destruct (both_present user_input parameters) eqn:Hboth.
    + wp_step.
      eapply wp_mono;
        [exact (create_conditional_monitor_run w _ _ context m Hvalid _ eq_refl)|].
      intros res m1 t1 (-> & -> & Hreg & Hstatus & Hvalid1).
      wp_steps. cbn [trace final result fst snd app].
      assert (Hans : exists response0,
                 model_answered w [EvAgentRun prompt; EvThreadStart "_conditional_monitor_loop" (Str.cat ["conditional_"; str (dget parameters "protocol_name" VNone); "_"; strftime_HMS (clock w (ticks m))])] response0).
      { exists response. apply answered_once; [reflexivity | exact Hanswer]. }
      split; [|split].
      * split; [auto|]. intros _. unfold started_and_registered.
        cbn [trace final result fst snd]. eexists. eexists.
        split; [reflexivity|]. split; [|exact Hstatus].
        rewrite Hreg. apply DictFacts.lookup_assign_same.
      * intros Hnot. exfalso. apply Hnot. auto.
      * discriminate.
    + wp_steps. cbn [trace final result fst snd app].
      split; [|split].
      * split.
        -- intros (id & r0 & Hstart & _). discriminate Hstart.
        -- intros (Hf & _). discriminate Hf.
      * auto.
      * intros _ response0 Hans. apply answered_once in Hans; [|reflexivity].
        congruence.
  - wp_steps. cbn [trace final result fst snd app].
    assert (Hnone : forall response, ~ model_answered w [EvAgentRun prompt; EvLog "error" (Str.cat ["Error setting up conditional execution: "; str_exn e])] response).
    { intros response Hans. apply answered_once in Hans; [|reflexivity]. congruence. }
    split; [|split].
    + split.
      * intros (id & r0 & Hstart & _). discriminate Hstart.
      * intros (_ & response & Hans). now apply Hnone in Hans.
    + auto.
    + intros _ response Hans. now apply Hnone in Hans.
Qed.

(** C6, as stated, fails: a request with both a protocol name and a
    condition registers nothing when the model call raises, because the
    monitor is only created after the model has answered. *)
Lemma conditional_setup_needs_the_model :
  ~ (forall (w : world) (user_input : string) (parameters context : dict)
            (m : machine state),
        valid (self m) ->
        started_and_registered
          (_setup_conditional_execution w user_input parameters context m)
        <-> both_present user_input parameters = true).
Proof.
  intros Hclaim.
  destruct (Hclaim Examples.unreachable "run scan until cold"
                   [("protocol_name", VStr "scan")]
                   (Examples.snapshot_with "conditional_execution")
                   Examples.control_agent valid_init) as [_ Hreg].
  destruct (Hreg eq_refl) as (id & r & Hstart & _).
  vm_compute in Hstart. discriminate Hstart.
Qed.

End MonitorFacts.

(* ================================================================== *)
(** ** The protocol agent: running a protocol *)

Module MoreEffFacts.

Import Py Eff Obs EffFacts Views.
Local Open Scope eff_scope.

Lemma wp_run_host {S} (w : world) (name : value) (m : machine S) Q :
  Q (match host_run_protocol w name with
     | None => Ok tt
     | Some e => Raise e
     end) m [EvHostRun name] ->
  wp (run_host w name) m Q.
Proof. exact (fun H => H). Qed.

(** What every event of a computation satisfies holds of its trace. *)
Lemma emits_wp {S A} (P : event -> Prop) (c : M S A) (m : machine S) :
  emits P c -> wp c m (fun _ _ t => Forall P t).
Proof. intros H. exact (H m). Qed.

Lemma host_calls_app (t1 t2 : list event) :
  host_calls (t1 ++ t2) = (host_calls t1 ++ host_calls t2)%list.
Proof. apply flat_map_app. Qed.

Lemma model_calls_app (t1 t2 : list event) :
  model_calls (t1 ++ t2) = (model_calls t1 ++ model_calls t2)%list.
Proof. apply flat_map_app. Qed.

Lemma thread_starts_app (t1 t2 : list event) :
  thread_starts (t1 ++ t2) = (thread_starts t1 ++ thread_starts t2)%list.
Proof. apply flat_map_app. Qed.

Lemma answered_with (w : world) (t : list event) (prompt response : string) :
  model_calls t = [prompt] ->
  model_answered w t response -> agent_run w prompt = Ok response.
Proof.
  intros Hcalls (p & Hin & Hp). rewrite Hcalls in Hin.
  now destruct Hin as [<- | []].
Qed.

Lemma answered_without (w : world) (t : list event) (response : string) :
  model_calls t = [] -> ~ model_answered w t response.
Proof. intros Hcalls (p & Hin & _). now rewrite Hcalls in Hin. Qed.

(** One step of a run, the host call included. *)
Ltac wp_go := first [wp_step | apply wp_run_host; cbv beta iota].

(** Case analysis on the next outcome or test the run depends on. *)
Ltac wp_case :=
  match goal with
  | |- context [match ?x with Ok _ => _ | Raise _ => _ end] =>
      destruct x eqn:?
  | |- context [if ?b then _ else _] => destruct b eqn:?
  | |- context [match ?x with None => _ | Some _ => _ end] =>
      destruct x eqn:?
  end.

Ltac wp_all := repeat first [wp_go | wp_case].

(** Reading the projections of an explicit trace. *)
Ltac trace_simpl :=
  cbn [app flat_map host_calls model_calls handler_calls thread_starts
       host_call model_call handler_call thread_start
       result final trace fst snd length] in *.

End MoreEffFacts.

Module RunFacts.

Import Py Eff Obs EffFacts Views MoreEffFacts ProtocolAgent.
Local Open Scope eff_scope.

(** [_can_execute_protocol] on a snapshot whose [system_state] is a
    dictionary: it answers without raising and without any effect. *)
Lemma can_execute_run (protocol_name : value) (context ss : dict)
      (m : machine state) :
  Dict.lookup "system_state" context = Some (VDict ss) ->
  _can_execute_protocol protocol_name context m = (Ok (executable ss), m, []).
Proof.
  intros Hss. unfold _can_execute_protocol, executable.
  rewrite (AgentFacts.dget_found _ _ _ _ Hss).
  unfold bind, lift, ret, get.
  destruct (eq_str (dget ss "active_sample" VNone) "None"); [reflexivity|].
  destruct (truthy (dget ss "protocol_running" (VBool false))); reflexivity.
Qed.

Section Handler.
Variable w : world.
Variables (user_input : string) (parameters context : dict).

Lemma run_protocol_host_after_model (m : machine state) :
  wp (_run_protocol w user_input parameters context) m
     (fun _ _ t => host_after_model w t).
Proof.
  unfold _run_protocol, _can_execute_protocol. cbv zeta.
  wp_all; unfold host_after_model; trace_simpl;
    try (intros Hhost; now contradiction Hhost).
  all: intros _; split; [assumption|]; eauto.
Qed.

(** X1. A request to run that names no protocol, or one that is not
    loaded, is answered at once: the model and the host are not called,
    nothing is logged and the agent is left as it was. *)
Theorem run_refused_without_outward_call :
  forall (m : machine state),
    (truthy (dget parameters "protocol_name" VNone) = false
     \/ exists name protocols,
         Dict.lookup "protocol_name" parameters = Some (VStr name)
         /\ snapshot_protocols context = Ok (VDict protocols)
         /\ ~ In name (Dict.keys protocols)) ->
    let run := _run_protocol w user_input parameters context m in
    trace run = [] /\ final run = m /\ exists msg, result run = Ok msg.
Proof.
  intros m [Hnone | (name & protocols & Hname & Hmap & Hnew)].
  - unfold _run_protocol. rewrite Hnone. cbn. eauto.
  - apply DictFacts.not_mem_keys in Hnew. unfold snapshot_protocols in Hmap.
    apply wp_run. unfold _run_protocol. cbv zeta.
    rewrite (AgentFacts.dget_found _ _ _ _ Hname).
    destruct (truthy (VStr name)); cbn [negb]; [|wp_steps; cbn; eauto].
    wp_step. wp_step. rewrite Hmap. wp_step. wp_step.
    destruct (dget context "system_state" (VDict [])) as [| | | | | |ss];
      try discriminate Hmap.
    cbn [get]. wp_steps. cbn [contains hashable]. rewrite Hnew.
    cbn [negb keys]. wp_steps. cbn. eauto.
Qed.

(** The host is not reached unless the snapshot allows execution. *)
Lemma run_protocol_guarded (ss : dict) :
  Dict.lookup "system_state" context = Some (VDict ss) ->
  executable ss = false ->
  emits not_host (_run_protocol w user_input parameters context).
Proof.
  intros Hss Hno. unfold _run_protocol. cbv zeta.
  repeat lazymatch goal with
         | |- emits _ (bind (_can_execute_protocol _ _) _) =>
             apply emits_bind_yields with (R := fun b => b = false);
             [ intros m; rewrite (can_execute_run _ _ ss m Hss);
               cbn; constructor
             | intros m b; rewrite (can_execute_run _ _ ss m Hss);
               cbn; intros Heq; inversion Heq; congruence
             | intros ? Hfalse; cbv beta in Hfalse; subst ]
         | |- _ => emits_step
         end.
Qed.

End Handler.

(** X2. A request never reaches the host while another protocol is
    running or the sample is recorded as ['None']: with such a snapshot
    neither [_run_protocol] nor [process_request] calls
    [main_window.run_protocol]. *)
Theorem host_needs_executable_snapshot :
  forall (w : world) (user_input : string) (parameters context ss : dict)
         (m : machine state),
    Dict.lookup "system_state" context = Some (VDict ss) ->
    executable ss = false ->
    host_calls (trace (_run_protocol w user_input parameters context m)) = []
    /\ host_calls (trace (process_request w user_input parameters context m))
       = [].
Proof.
  intros w user_input parameters context ss m Hss Hno.
  pose proof (run_protocol_guarded w user_input parameters context ss
                Hss Hno) as Hrun.
  split; apply flat_map_silent.
  - apply Hrun.
  - revert m. change (emits not_host
                        (process_request w user_input parameters context)).
    unfold process_request, stamp_last_used, dispatch, call.
    repeat lazymatch goal with
           | |- emits _ (_run_protocol _ _ _ _) => exact Hrun
           | |- emits _ (_list_protocols _ _ _ _) =>
               apply ProtocolAgentFacts.list_protocols_not_host
           | |- emits _ (_inspect_protocol _ _ _ _) =>
               apply ProtocolAgentFacts.inspect_protocol_not_host
           | |- emits _ (_get_protocol_status _ _ _ _) =>
               apply ProtocolAgentFacts.protocol_status_not_host
           | |- emits _ (_general_protocol_query _ _ _ _) =>
               apply ProtocolAgentFacts.general_query_not_host
           | |- _ => emits_step
           end.
Qed.

(** X3. A request to run a loaded protocol on a snapshot that allows
    execution, once the model has answered: the host is handed the protocol
    exactly once when the window has the entry point, and the reply tells
    which of the three ways it went. *)
Theorem run_protocol_outcomes :
  forall (w : world) (user_input : string) (parameters context ss : dict)
         (name : string) (protocols : dict) (response : string)
         (m : machine state),
    Dict.lookup "protocol_name" parameters = Some (VStr name) ->
    name <> EmptyString ->
    Dict.lookup "system_state" context = Some (VDict ss) ->
    dget ss "protocols" (VDict []) = VDict protocols ->
    In name (Dict.keys protocols) ->
    executable ss = true ->
    let run := _run_protocol w user_input parameters context m in
    model_answered w (trace run) response ->
    (has_run_protocol w = true ->
     host_run_protocol w (VStr name) = None ->
     host_calls (trace run) = [VStr name]
     /\ exists msg,
         result run = Ok msg
         /\ Str.occurs response msg
         /\ Str.occurs "✅ Protocol execution initiated!" msg)
    /\ (has_run_protocol w = true ->
        forall e,
          host_run_protocol w (VStr name) = Some e ->
          host_calls (trace run) = [VStr name]
          /\ result run
             = Ok (Str.cat ["I encountered an error while preparing to execute the protocol: ";
                            str_exn e]))
    /\ (has_run_protocol w = false ->
        host_calls (trace run) = []
        /\ exists msg,
            result run = Ok msg
            /\ Str.occurs response msg
            /\ Str.occurs
                 "⚠️ Please use the main interface to start execution." msg).
Proof.
  intros w user_input parameters context ss name protocols response m
         Hname Hne Hss Hmap Hkey Hexec.
  apply DictFacts.mem_keys in Hkey.
  apply wp_run. unfold _run_protocol. cbv zeta.
  rewrite (AgentFacts.dget_found _ _ _ _ Hname),
          (AgentFacts.truthy_nonempty _ Hne),
          (AgentFacts.dget_found _ _ _ _ Hss).
  cbn [negb get]. rewrite Hmap. wp_steps.
  cbn [contains hashable]. rewrite Hkey. cbn [negb]. wp_steps.
  destruct (keys (dget ss "instruments" (VDict []))) as [instrument_keys|e0].
  2:{ cbn [trace snd app]. intros Hans.
      now apply answered_without in Hans. }
  wp_steps. cbn [get_dyn hashable]. wp_steps.
  match goal with |- context [agent_run w ?p] => set (prompt := p) end.
  destruct (agent_run w prompt) as [answer|e0] eqn:Hanswer.
  2:{ wp_steps. cbn [trace snd app]. intros Hans.
      apply answered_with with (prompt := prompt) in Hans; [congruence|].
      reflexivity. }
  wp_step.
  eapply wp_known; [exact (can_execute_run _ _ ss m Hss)|].
  rewrite Hexec. cbv beta iota.
  destruct (has_run_protocol w) eqn:Hhas.
  - wp_go. wp_go.
    destruct (host_run_protocol w (VStr name)) as [e|] eqn:Hhost.
    + wp_steps. cbn [trace result fst snd app]. intros Hans.
      split; [intros _ Hnone; discriminate Hnone|].
      split; [|intros Hfalse; discriminate Hfalse].
      intros _ e' [= <-]. split; reflexivity.
    + wp_steps. cbn [trace result fst snd app]. intros Hans.
      apply answered_with with (prompt := prompt) in Hans; [|reflexivity].
      assert (answer = response) by congruence. subst answer.
      split; [|split; [intros _ e Hsome; discriminate Hsome
                      |intros Hfalse; discriminate Hfalse]].
      intros _ _. split; [reflexivity|]. eexists. split; [reflexivity|].
      split; apply StrFacts.occurs_cat; cbn [In]; tauto.
  - wp_steps. cbn [trace result fst snd app]. intros Hans.
    apply answered_with with (prompt := prompt) in Hans; [|reflexivity].
    assert (answer = response) by congruence. subst answer.
    split; [intros Htrue; discriminate Htrue|].
    split; [intros Htrue; discriminate Htrue|].
    intros _. split; [reflexivity|]. eexists. split; [reflexivity|].
    split; apply StrFacts.occurs_cat; cbn [In]; tauto.
Qed.

(** X4. Whatever the request, [process_request] calls the host only after
    the model has answered the one prompt of the request, and only when
    the host window has a [run_protocol] entry. *)
Theorem host_only_after_model :
  forall (w : world) (user_input : string) (parameters context : dict)
         (m : machine state),
    host_after_model w
      (trace (process_request w user_input parameters context m)).
Proof.
  intros w user_input parameters context m. apply wp_run.
  unfold process_request, stamp_last_used, dispatch, call.
  repeat first
         [ wp_go
         | match goal with
           | |- wp (_run_protocol _ _ _ _) _ _ =>
               eapply wp_mono;
               [apply run_protocol_host_after_model|]; intros r1 m1 t1 Hrun
           | |- wp (_list_protocols ?a ?b ?c ?d) ?m0 _ =>
               eapply wp_mono;
               [exact (emits_wp _ _ m0
                         (ProtocolAgentFacts.list_protocols_not_host a b c d))|];
               intros r1 m1 t1 Hsilent
           | |- wp (_inspect_protocol ?a ?b ?c ?d) ?m0 _ =>
               eapply wp_mono;
               [exact (emits_wp _ _ m0
                         (ProtocolAgentFacts.inspect_protocol_not_host a b c d))|];
               intros r1 m1 t1 Hsilent
           | |- wp (_get_protocol_status ?a ?b ?c ?d) ?m0 _ =>
               eapply wp_mono;
               [exact (emits_wp _ _ m0
                         (ProtocolAgentFacts.protocol_status_not_host a b c d))|];
               intros r1 m1 t1 Hsilent
           | |- wp (_general_protocol_query ?a ?b ?c ?d) ?m0 _ =>
               eapply wp_mono;
               [exact (emits_wp _ _ m0
                         (ProtocolAgentFacts.general_query_not_host a b c d))|];
               intros r1 m1 t1 Hsilent
           end
         | wp_case ].
  all: unfold host_after_model; cbn [trace snd];
    rewrite ?host_calls_app, ?model_calls_app;
    change (host_calls []) with (@nil value);
    change (model_calls []) with (@nil string);
    repeat match goal with
           | |- context [host_calls [?ev]] =>
               change (host_calls [ev]) with (@nil value)
           | |- context [model_calls [?ev]] =>
               change (model_calls [ev]) with (@nil string)
           end;
    cbn [app]; rewrite ?app_nil_r.
  all: try exact Hrun.
  all: try (apply flat_map_silent in Hsilent; fold (host_calls t1) in Hsilent;
            rewrite Hsilent).
  all: intros Hhost; now contradiction Hhost.
Qed.

End RunFacts.

(* ================================================================== *)
(** ** Both agents: what every request looks like *)

Module RouterFacts.

Import Py Eff Obs EffFacts Views MoreEffFacts.
Local Open Scope eff_scope.

Ltac tidy_leaf :=
  unfold protocol_tidy, control_tidy; trace_simpl;
  repeat split; try reflexivity; try lia.

Section Protocol.
Variable w : world.
Variables (user_input : string) (parameters context : dict).

Lemma run_protocol_tidy m :
  wp (PA._run_protocol w user_input parameters context) m
     (fun _ m' t => protocol_tidy t /\ m' = m).
Proof.
  unfold PA._run_protocol, PA._can_execute_protocol. cbv zeta.
  wp_all; tidy_leaf.
Qed.

Lemma list_protocols_tidy m :
  wp (PA._list_protocols w user_input parameters context) m
     (fun _ m' t => protocol_tidy t /\ m' = m).
Proof. unfold PA._list_protocols. cbv zeta. wp_all; tidy_leaf. Qed.

Lemma inspect_protocol_tidy m :
  wp (PA._inspect_protocol w user_input parameters context) m
     (fun _ m' t => protocol_tidy t /\ m' = m).
Proof. unfold PA._inspect_protocol. cbv zeta. wp_all; tidy_leaf. Qed.

Lemma protocol_status_tidy m :
  wp (PA._get_protocol_status w user_input parameters context) m
     (fun _ m' t => protocol_tidy t /\ m' = m).
Proof. unfold PA._get_protocol_status. cbv zeta. wp_all; tidy_leaf. Qed.

Lemma general_query_tidy m :
  wp (PA._general_protocol_query w user_input parameters context) m
     (fun _ m' t => protocol_tidy t /\ m' = m).
Proof. unfold PA._general_protocol_query. cbv zeta. wp_all; tidy_leaf. Qed.

End Protocol.

Ltac via H := eapply wp_mono; [apply H|]; intros ?r ?m ?t [Htidy Hsame].

Ltac protocol_router :=
  unfold PA.process_request, PA.stamp_last_used, PA.dispatch, PA.call;
  repeat first
         [ wp_go
         | match goal with
           | |- wp (PA._run_protocol _ _ _ _) _ _ => via run_protocol_tidy
           | |- wp (PA._list_protocols _ _ _ _) _ _ => via list_protocols_tidy
           | |- wp (PA._inspect_protocol _ _ _ _) _ _ =>
               via inspect_protocol_tidy
           | |- wp (PA._get_protocol_status _ _ _ _) _ _ =>
               via protocol_status_tidy
           | |- wp (PA._general_protocol_query _ _ _ _) _ _ =>
               via general_query_tidy
           end
         | wp_case ].

Ltac router_leaf :=
  repeat match goal with
         | H : protocol_tidy _ |- _ => destruct H as (?Hh & ?Ht & ?Hm)
         | H : control_tidy _ |- _ => destruct H as (?Hh & ?Ht & ?Hm)
         end;
  subst;
  unfold protocol_handler, control_handler,
    handler_calls, model_calls, thread_starts, host_calls in *;
  cbn [trace final result self fst snd ticks app flat_map
       handler_call model_call thread_start host_call];
  rewrite ?flat_map_app;
  cbn [app flat_map handler_call model_call thread_start host_call];
  rewrite ?app_nil_r;
  repeat match goal with
         | H : eq_str _ _ = _ |- _ => rewrite H; clear H
         | H : flat_map _ _ = [] |- _ => rewrite H; clear H
         end;
  repeat split; try reflexivity; try assumption; try (cbn [length]; lia).

(** What a request to the protocol agent always looks like. *)
Lemma protocol_request_summary :
  forall (w : world) (user_input : string) (parameters context : dict)
         (m : machine PA.state),
    let run := PA.process_request w user_input parameters context m in
    length (model_calls (trace run)) <= 1
    /\ thread_starts (trace run) = []
    /\ final run = Machine (S (ticks m))
                           (PA.State (Some (clock w (ticks m))))
    /\ match PA.resolve_intent user_input context with
       | Ok intent => handler_calls (trace run) = [protocol_handler intent]
       | Raise e =>
           trace run
           = [EvLog "error"
                (Str.cat ["Error processing protocol request: "; str_exn e])]
           /\ result run = Ok (PA.request_error_message e)
       end.
Proof.
  intros w user_input parameters context m. apply wp_run.
  protocol_router; router_leaf.
Qed.

(** *** The handlers of the measurement control agent *)

Ltac wp_any :=
  first [ wp_go | wp_case
        | match goal with
          | |- context [match ?x with MC.HRef _ => _ | _ => _ end] =>
              destruct x eqn:?
          end ].

Ltac control_leaf :=
  unfold control_tidy; trace_simpl;
  cbn [self MC.last_used MC.with_store];
  repeat split; try reflexivity; try lia.

Lemma stop_monitor_quiet (monitor_id : value) (m : machine MC.state) :
  wp (MC._stop_monitor monitor_id) m
     (fun _ m' t =>
        (t = [] /\ ticks m' = ticks m)
        /\ MC.last_used (self m') = MC.last_used (self m)).
Proof.
  unfold MC._stop_monitor, MC.set_status, MC.read, MC.write.
  repeat wp_any; cbn [self ticks MC.last_used MC.with_store]; auto.
Qed.

Lemma stop_each_quiet (ids : list string) :
  forall m : machine MC.state,
    wp (MC.for_each ids (fun mid => MC._stop_monitor (VStr mid))) m
       (fun _ m' t =>
          (t = [] /\ ticks m' = ticks m)
          /\ MC.last_used (self m') = MC.last_used (self m)).
Proof.
  induction ids as [|mid ids IH]; intros m; cbn [MC.for_each].
  - wp_steps. auto.
  - wp_step. eapply wp_mono; [apply stop_monitor_quiet|].
    intros [[]|e] m1 t1 ((-> & Hticks) & Hused); [|auto].
    eapply wp_mono; [apply IH|].
    intros r m2 t2 ((-> & Hticks2) & Hused2). cbn [app].
    split; [split; [reflexivity | congruence] | congruence].
Qed.

Section Control.
Variable w : world.
Variables (user_input : string) (parameters context : dict).

Lemma control_inspect_tidy m :
  wp (MC._inspect_protocol w user_input parameters context) m
     (fun _ m' t =>
        control_tidy t /\ MC.last_used (self m') = MC.last_used (self m)).
Proof. unfold MC._inspect_protocol. cbv zeta. wp_all; control_leaf. Qed.

Lemma control_analyze_tidy m :
  wp (MC._analyze_measurement_request w user_input parameters context) m
     (fun _ m' t =>
        control_tidy t /\ MC.last_used (self m') = MC.last_used (self m)).
Proof.
  unfold MC._analyze_measurement_request. cbv zeta. wp_all; control_leaf.
Qed.

Lemma control_conditional_tidy m :
  wp (MC._setup_conditional_execution w user_input parameters context) m
     (fun _ m' t =>
        control_tidy t /\ MC.last_used (self m') = MC.last_used (self m)).
Proof.
  unfold MC._setup_conditional_execution, MC._create_conditional_monitor,
    MC.new, MC.read, MC.write.
  cbv zeta. wp_all; control_leaf.
Qed.

Lemma control_device_tidy m :
  wp (MC._setup_device_monitoring w user_input parameters context) m
     (fun _ m' t =>
        control_tidy t /\ MC.last_used (self m') = MC.last_used (self m)).
Proof.
  unfold MC._setup_device_monitoring, MC._create_device_monitor,
    MC.new, MC.read, MC.write.
  cbv zeta. wp_all; control_leaf.
Qed.

Lemma control_stop_tidy m :
  wp (MC._stop_monitoring user_input parameters context) m
     (fun _ m' t =>
        control_tidy t /\ MC.last_used (self m') = MC.last_used (self m)).
Proof.
  unfold MC._stop_monitoring, MC.read. cbv zeta.
  repeat first
         [ wp_go
         | match goal with
           | |- wp (MC._stop_monitor _) _ _ =>
               eapply wp_mono; [apply stop_monitor_quiet|];
               intros ?r ?m ?t ((-> & _) & ?Hused)
           | |- wp (MC.for_each _ _) _ _ =>
               eapply wp_mono; [apply stop_each_quiet|];
               intros ?r ?m ?t ((-> & _) & ?Hused)
           end
         | wp_case ];
    control_leaf; assumption.
Qed.

End Control.

Ltac via_control H :=
  eapply wp_mono; [apply H|]; intros ?r ?m ?t [Htidy Hused].

Ltac control_router :=
  unfold MC.process_request, MC.stamp_last_used, MC.dispatch, MC.call;
  repeat first
         [ wp_go
         | match goal with
           | |- wp (MC._inspect_protocol _ _ _ _) _ _ =>
               via_control control_inspect_tidy
           | |- wp (MC._setup_conditional_execution _ _ _ _) _ _ =>
               via_control control_conditional_tidy
           | |- wp (MC._setup_device_monitoring _ _ _ _) _ _ =>
               via_control control_device_tidy
           | |- wp (MC._stop_monitoring _ _ _) _ _ =>
               via_control control_stop_tidy
           | |- wp (MC._analyze_measurement_request _ _ _ _) _ _ =>
               via_control control_analyze_tidy
           end
         | wp_case ].

(** What a request to the measurement control agent always looks like. *)
Lemma control_request_summary :
  forall (w : world) (user_input : string) (parameters context : dict)
         (m : machine MC.state),
    let run := MC.process_request w user_input parameters context m in
    length (model_calls (trace run)) <= 1
    /\ host_calls (trace run) = []
    /\ MC.last_used (self (final run)) = Some (clock w (ticks m))
    /\ match snapshot_intent context with
       | Ok intent => handler_calls (trace run) = [control_handler intent]
       | Raise e =>
           trace run
           = [EvLog "error"
                (Str.cat ["Error processing measurement control request: ";
                          str_exn e])]
           /\ result run = Ok (MC.request_error_message e)
       end.
Proof.
  intros w user_input parameters context m. apply wp_run.
  control_router; router_leaf.
Qed.

End RouterFacts.

(* ================================================================== *)
(** ** Both agents: requests and the plain handlers *)

Module RequestFacts.

Import Py Eff Obs EffFacts Views MoreEffFacts RouterFacts.
Local Open Scope eff_scope.

(** A snapshot whose intent cannot be read leaves the protocol agent
    without an intent too. *)
Lemma resolve_intent_unreadable (user_input : string) (context : dict)
      (e : exn) :
  snapshot_intent context = Raise e ->
  PA.resolve_intent user_input context = Raise e.
Proof. intros H. unfold PA.resolve_intent. now rewrite H. Qed.

(** X6. One request, one prompt at most: whatever the request and the
    snapshot, [process_request] of either agent calls the model at most
    once; the protocol agent starts no thread and the measurement control
    agent never calls the host window. *)
Theorem request_calls_model_at_most_once :
  forall (w : world) (user_input : string) (parameters context : dict),
    (forall m,
        let run := PA.process_request w user_input parameters context m in
        length (model_calls (trace run)) <= 1
        /\ thread_starts (trace run) = [])
    /\ (forall m,
           let run := MC.process_request w user_input parameters context m in
           length (model_calls (trace run)) <= 1
           /\ host_calls (trace run) = []).
Proof.
  intros w user_input parameters context. split; intros m.
  - destruct (protocol_request_summary w user_input parameters context m)
      as (Hone & Hnone & _).
    now split.
  - destruct (control_request_summary w user_input parameters context m)
      as (Hone & Hnone & _).
    now split.
Qed.

(** X7. [last_used] after a request is the reading of the clock taken when
    the request came in, whether a handler ran, failed or was never
    reached; the protocol agent has no other state, and the request takes
    one reading of the clock. *)
Theorem request_stamps_last_used :
  forall (w : world) (user_input : string) (parameters context : dict),
    (forall m,
        final (PA.process_request w user_input parameters context m)
        = Machine (S (ticks m)) (PA.State (Some (clock w (ticks m)))))
    /\ (forall m,
           MC.last_used
             (self (final (MC.process_request w user_input parameters
                             context m)))
           = Some (clock w (ticks m))).
Proof.
  intros w user_input parameters context. split; intros m.
  - now destruct (protocol_request_summary w user_input parameters context m)
      as (_ & _ & Hfinal & _).
  - now destruct (control_request_summary w user_input parameters context m)
      as (_ & _ & Hused & _).
Qed.

(** X10. A snapshot whose intent cannot be read (a [system_state] that is
    not a dictionary) is answered by both agents with their apology text:
    the only event is the logged error, so no handler is entered and the
    model is not called. *)
Theorem unreadable_snapshot_is_contained :
  forall (w : world) (user_input : string) (parameters context : dict)
         (e : exn),
    snapshot_intent context = Raise e ->
    (forall m,
        let run := PA.process_request w user_input parameters context m in
        trace run
        = [EvLog "error"
             (Str.cat ["Error processing protocol request: "; str_exn e])]
        /\ result run = Ok (PA.request_error_message e))
    /\ (forall m,
           let run := MC.process_request w user_input parameters context m in
           trace run
           = [EvLog "error"
                (Str.cat ["Error processing measurement control request: ";
                          str_exn e])]
           /\ result run = Ok (MC.request_error_message e)).
Proof.
  intros w user_input parameters context e Hbad. split; intros m.
  - destruct (protocol_request_summary w user_input parameters context m)
      as (_ & _ & _ & Hcalls).
    now rewrite (resolve_intent_unreadable user_input context e Hbad)
      in Hcalls.
  - destruct (control_request_summary w user_input parameters context m)
      as (_ & _ & _ & Hcalls).
    now rewrite Hbad in Hcalls.
Qed.

(** The host is only called by a request whose intent is to run. *)
Lemma host_calls_by_intent :
  forall (w : world) (user_input : string) (parameters context : dict)
         (m : machine PA.state),
    let run := PA.process_request w user_input parameters context m in
    match PA.resolve_intent user_input context with
    | Ok intent =>
        eq_str intent "run_protocol" = false -> host_calls (trace run) = []
    | Raise _ => host_calls (trace run) = []
    end.
Proof.
  intros w user_input parameters context m. apply wp_run.
  unfold PA.process_request, PA.stamp_last_used, PA.dispatch, PA.call.
  repeat first
         [ wp_go
         | match goal with
           | |- wp (PA._run_protocol _ _ _ _) _ _ =>
               eapply wp_mono; [apply run_protocol_tidy|];
               intros r1 m1 t1 Hrun
           | |- wp (PA._list_protocols ?a ?b ?c ?d) ?m0 _ =>
               eapply wp_mono;
               [exact (emits_wp _ _ m0
                         (ProtocolAgentFacts.list_protocols_not_host a b c d))|];
               intros r1 m1 t1 Hsilent
           | |- wp (PA._inspect_protocol ?a ?b ?c ?d) ?m0 _ =>
               eapply wp_mono;
               [exact (emits_wp _ _ m0
                         (ProtocolAgentFacts.inspect_protocol_not_host a b c d))|];
               intros r1 m1 t1 Hsilent
           | |- wp (PA._get_protocol_status ?a ?b ?c ?d) ?m0 _ =>
               eapply wp_mono;
               [exact (emits_wp _ _ m0
                         (ProtocolAgentFacts.protocol_status_not_host a b c d))|];
               intros r1 m1 t1 Hsilent
           | |- wp (PA._general_protocol_query ?a ?b ?c ?d) ?m0 _ =>
               eapply wp_mono;
               [exact (emits_wp _ _ m0
                         (ProtocolAgentFacts.general_query_not_host a b c d))|];
               intros r1 m1 t1 Hsilent
           end
         | wp_case ].
  all: cbn [trace snd];
    rewrite ?host_calls_app;
    change (host_calls []) with (@nil value);
    repeat match goal with
           | |- context [host_calls [?ev]] =>
               change (host_calls [ev]) with (@nil value)
           end;
    cbn [app]; rewrite ?app_nil_r.
  all: try (intros Hnot; congruence).
  all: try reflexivity.
  all: try (intros _; apply flat_map_silent in Hsilent; exact Hsilent).
Qed.

(** X5. Only a request resolved to the intent [run_protocol] can reach the
    host window: when [process_request] calls [main_window.run_protocol],
    the intent was [run_protocol]. *)
Theorem host_reached_only_by_run_intent :
  forall (w : world) (user_input : string) (parameters context : dict)
         (m : machine PA.state),
    host_calls (trace (PA.process_request w user_input parameters context m))
    <> [] ->
    exists intent,
      PA.resolve_intent user_input context = Ok intent
      /\ eq_str intent "run_protocol" = true.
Proof.
  intros w user_input parameters context m Hhost.
  pose proof (host_calls_by_intent w user_input parameters context m) as H.
  cbv zeta in H.
  destruct (PA.resolve_intent user_input context) as [intent|e].
  - exists intent. split; [reflexivity|].
    destruct (eq_str intent "run_protocol"); [reflexivity|].
    now contradiction Hhost; apply H.
  - now contradiction Hhost.
Qed.

(** X11. With an empty protocol map [_list_protocols] answers with the
    fixed help text: it logs the count and does not call the model. *)
Theorem list_protocols_empty :
  forall (w : world) (user_input : string) (parameters context : dict)
         (m : machine PA.state),
    snapshot_protocols context = Ok (VDict []) ->
    let run := PA._list_protocols w user_input parameters context m in
    result run = Ok PA.no_protocols_message
    /\ final run = m
    /\ model_calls (trace run) = []
    /\ trace run
       = [EvLog "info" "Listing protocols. Found 0 protocols: []"].
Proof.
  intros w user_input parameters context m Hmap.
  apply wp_run. unfold PA._list_protocols. cbv zeta.
  unfold snapshot_protocols in Hmap.
  wp_step. wp_step. rewrite Hmap. wp_steps.
  cbn [len keys truthy negb]. wp_steps.
  cbn. repeat split; reflexivity.
Qed.

(** X12. With protocols loaded and the model answering, [_list_protocols]
    returns the header with the number of loaded protocols followed by the
    model's answer; the one prompt shows the protocol map and the
    request. *)
Theorem list_protocols_answered :
  forall (w : world) (user_input : string) (parameters context : dict)
         (protocols : dict) (response : string) (m : machine PA.state),
    snapshot_protocols context = Ok (VDict protocols) ->
    protocols <> [] ->
    let run := PA._list_protocols w user_input parameters context m in
    model_answered w (trace run) response ->
    result run
    = Ok (Str.cat ["📋 **Available Protocols (";
                   Str.of_nat (length protocols); " found):**";
                   Str.nl; Str.nl; response])
    /\ final run = m
    /\ exists prompt,
        model_calls (trace run) = [prompt]
        /\ Str.occurs (str (VDict protocols)) prompt
        /\ Str.occurs user_input prompt.
Proof.
  intros w user_input parameters context protocols response m Hmap Hsome.
  apply wp_run. unfold PA._list_protocols. cbv zeta.
  unfold snapshot_protocols in Hmap.
  destruct (dget context "system_state" (VDict [])) as [| | | | | |ss] eqn:Hss;
    try discriminate Hmap.
  wp_step. wp_step. rewrite Hmap. wp_steps.
  cbn [len keys truthy negb].
  destruct protocols as [|entry rest] eqn:Hprotocols; [congruence|].
  rewrite <- Hprotocols in *. cbn [negb].
  wp_steps. cbn [get]. wp_steps.
  destruct (keys (dget ss "instruments" (VDict []))) as [instrument_keys|e0].
  2:{ intros Hans. now apply answered_without in Hans. }
  wp_steps.
  match goal with |- context [agent_run w ?p] => set (prompt := p) end.
  cbn [trace result final fst snd app].
  destruct (agent_run w prompt) as [answer|e0] eqn:Hanswer.
  - wp_steps. cbn [len]. wp_steps. cbn [trace result final fst snd app].
    intros Hans.
    apply answered_with with (prompt := prompt) in Hans; [|reflexivity].
    assert (answer = response) by congruence. subst answer.
    split; [reflexivity|]. split; [reflexivity|].
    exists prompt. split; [reflexivity|]. split.
    + apply StrFacts.occurs_trans
        with (y := Str.cat ["        Available protocols: ";
                            str (VDict protocols)]);
        [ apply StrFacts.occurs_cat; cbn [In]; tauto
        | apply StrFacts.occurs_join; cbn [In]; tauto ].
    + apply StrFacts.occurs_trans
        with (y := Str.cat ["        "; Str.dq; user_input; Str.dq]);
        [ apply StrFacts.occurs_cat; cbn [In]; tauto
        | apply StrFacts.occurs_join; cbn [In]; tauto ].
  - wp_steps. cbn [key_names]. wp_steps. cbn [trace result final fst snd app].
    intros Hans.
    apply answered_with with (prompt := prompt) in Hans; [|reflexivity].
    congruence.
Qed.

(** X13. Asked to inspect without a protocol name, both agents answer at
    once, without calling the model: they offer the names of the loaded
    protocols, or say that none is loaded. *)
Theorem inspect_without_a_name :
  forall (w : world) (user_input : string) (parameters context : dict)
         (protocols : dict),
    truthy (dget parameters "protocol_name" VNone) = false ->
    snapshot_protocols context = Ok (VDict protocols) ->
    let reply :=
      match protocols with
      | [] => "📋 No protocols are currently loaded. Please load a protocol first."
      | _ => Str.cat ["📋 I can inspect any of these protocols: ";
                      str (VList (map VStr (Dict.keys protocols)));
                      ". Which one would you like to analyze?"]
      end in
    (forall m,
        PA._inspect_protocol w user_input parameters context m
        = (Ok reply, m, []))
    /\ (forall m,
           MC._inspect_protocol w user_input parameters context m
           = (Ok reply, m, [])).
Proof.
  intros w user_input parameters context protocols Hnone Hmap reply.
  unfold snapshot_protocols in Hmap.
  split; intros m.
  - unfold PA._inspect_protocol. cbv zeta. rewrite Hnone.
    unfold bind at 1. unfold lift at 1. rewrite Hmap. cbn [negb app].
    destruct protocols; reflexivity.
  - unfold MC._inspect_protocol. cbv zeta. rewrite Hnone.
    unfold bind at 1. unfold lift at 1. rewrite Hmap. cbn [negb app].
    destruct protocols; reflexivity.
Qed.

(** The prompt of a handler shows the request, quoted on a line of its
    own. *)
Lemma prompt_shows_request (user_input : string) (lines : list string) :
  In (Str.cat ["        "; Str.dq; user_input; Str.dq]) lines ->
  Str.occurs user_input (Str.lines lines).
Proof.
  intros Hline.
  apply StrFacts.occurs_trans
    with (y := Str.cat ["        "; Str.dq; user_input; Str.dq]);
    [ apply StrFacts.occurs_cat; cbn [In]; tauto
    | apply StrFacts.occurs_join; exact Hline ].
Qed.

(** The end of a run of a handler that relays the model's answer. *)
Ltac relay_end heading :=
  match goal with
  | |- context [agent_run ?w ?p] =>
      let Hanswer := fresh "Hanswer" in
      destruct (agent_run w p) as [response|e] eqn:Hanswer;
      wp_steps; exists p;
      (split;
       [ apply StrFacts.occurs_trans with (y := heading);
         [ now exists "        ", EmptyString
         | apply StrFacts.occurs_join; cbn [In]; tauto ]
       | split;
         [ apply prompt_shows_request; cbn [In]; tauto
         | split; [reflexivity|];
           rewrite Hanswer; cbn [app]; split; reflexivity ] ])
  end.

(** X15. The three handlers that only ask the model for advice
    ([_get_protocol_status], [_general_protocol_query] and
    [_analyze_measurement_request]), on a snapshot whose [system_state],
    [protocols] and [instruments] are dictionaries (or missing): each
    calls the model exactly once, with a prompt that has its own heading
    and the request in it, and relays the outcome.  The reply is the
    handler's banner followed by the model's answer; when the model call
    raises, the handler logs the error and the reply is its own error
    text with the exception's message.  The agent is left as it was. *)
Theorem advice_handlers_relay_the_model :
  forall (w : world) (user_input : string) (parameters context : dict)
         (ss protocols instruments : dict),
    dget context "system_state" (VDict []) = VDict ss ->
    dget ss "protocols" (VDict []) = VDict protocols ->
    dget ss "instruments" (VDict []) = VDict instruments ->
    (forall m,
        let run := PA._get_protocol_status w user_input parameters context m in
        exists prompt,
          Str.occurs "The user wants to check protocol status:" prompt
          /\ Str.occurs user_input prompt
          /\ final run = m
          /\ match agent_run w prompt with
             | Ok response =>
                 trace run = [EvAgentRun prompt]
                 /\ result run
                    = Ok (Str.cat ["📊 Protocol Status:"; Str.nl; Str.nl;
                                   response])
             | Raise e =>
                 trace run
                 = [EvAgentRun prompt;
                    EvLog "error"
                      (Str.cat ["Error getting protocol status: ";
                                str_exn e])]
                 /\ result run
                    = Ok (Str.cat ["I encountered an error while checking protocol status: ";
                                   str_exn e])
             end)
    /\ (forall m,
           let run :=
             PA._general_protocol_query w user_input parameters context m in
           exists prompt,
             Str.occurs "The user has a general protocol-related question:"
                        prompt
             /\ Str.occurs user_input prompt
             /\ final run = m
             /\ match agent_run w prompt with
                | Ok response =>
                    trace run = [EvAgentRun prompt]
                    /\ result run
                       = Ok (Str.cat ["🔬 Protocol Information: "; response])
                | Raise e =>
                    trace run
                    = [EvAgentRun prompt;
                       EvLog "error"
                         (Str.cat ["Error handling protocol query: ";
                                   str_exn e])]
                    /\ result run
                       = Ok (Str.cat ["I encountered an error while processing your protocol query: ";
                                      str_exn e])
                end)
    /\ (forall m,
           let run :=
             MC._analyze_measurement_request w user_input parameters context m
           in
           exists prompt,
             Str.occurs
               "The user has a measurement control question or request:"
               prompt
             /\ Str.occurs user_input prompt
             /\ final run = m
             /\ match agent_run w prompt with
                | Ok response =>
                    trace run = [EvAgentRun prompt]
                    /\ result run
                       = Ok (Str.cat ["🔬 Measurement Control Analysis:";
                                      Str.nl; Str.nl; response])
                | Raise e =>
                    trace run
                    = [EvAgentRun prompt;
                       EvLog "error"
                         (Str.cat ["Error analyzing measurement request: ";
                                   str_exn e])]
                    /\ result run
                       = Ok (Str.cat ["I encountered an error while analyzing your measurement request: ";
                                      str_exn e])
                end).
Proof.
  intros w user_input parameters context ss protocols instruments
         Hss Hprotocols Hinstruments.
  split; [|split]; intros m; apply wp_run.
  - unfold PA._get_protocol_status. cbv zeta. rewrite Hss. cbn [get].
    wp_steps. rewrite Hprotocols. cbn [keys]. wp_steps.
    relay_end "        The user wants to check protocol status:".
  - unfold PA._general_protocol_query. cbv zeta. rewrite Hss. cbn [get].
    wp_steps. rewrite Hprotocols. cbn [keys]. wp_steps.
    rewrite Hinstruments. cbn [keys]. wp_steps.
    relay_end "        The user has a general protocol-related question:".
  - unfold MC._analyze_measurement_request. cbv zeta. rewrite Hss. cbn [get].
    wp_steps. rewrite Hprotocols. cbn [keys]. wp_steps.
    rewrite Hinstruments. cbn [keys]. wp_steps.
    relay_end "        The user has a measurement control question or request:".
Qed.

End RequestFacts.

(* ================================================================== *)
(** ** Both agents: inspecting a loaded protocol *)

Module InspectFacts.

Import Py Eff Obs EffFacts Views MoreEffFacts.
Local Open Scope eff_scope.

Lemma occurs_lines (x : string) (ls : list string) :
  In x ls -> Str.occurs x (Str.lines ls).
Proof. apply StrFacts.occurs_join. Qed.

(** What both inspection handlers do with a protocol that is loaded. *)
Ltac inspect_known Hname Hne Hmap Hdata :=
  rewrite (AgentFacts.dget_found _ _ _ _ Hname),
          (AgentFacts.truthy_nonempty _ Hne);
  unfold snapshot_protocols in Hmap;
  match type of Hmap with
  | get ?ss _ _ = _ =>
      destruct ss as [| | | | | |ss0] eqn:Hss; try discriminate Hmap
  end;
  wp_step; wp_step; rewrite Hmap; cbv beta iota; cbn [negb];
  wp_step; wp_step; cbn [contains hashable];
  replace (Dict.mem _ _) with true
    by (unfold Dict.mem; now rewrite Hdata);
  cbn [negb]; wp_step; wp_step; cbn [getitem hashable];
  rewrite Hdata; wp_steps; cbn [get]; wp_steps.

Ltac inspect_leaf user_input data :=
  cbn [trace final result fst snd app];
  split; [reflexivity|]; split; [|split];
  [ first
      [ intros prompt0 [<- | []]; split;
         [ apply StrFacts.occurs_trans
             with (y := Str.cat ["        Protocol data: "; str data]);
           [ apply StrFacts.occurs_cat; cbn [In]; tauto
           | apply occurs_lines; cbn [In]; tauto ]
         | apply StrFacts.occurs_trans
             with (y := Str.cat ["        "; Str.dq; user_input; Str.dq]);
           [ apply StrFacts.occurs_cat; cbn [In]; tauto
           | apply occurs_lines; cbn [In]; tauto ] ]
      | intros prompt0 [] ]
  | intros response0 Hans;
    first [ now apply answered_without in Hans
          | eapply answered_with in Hans; [|reflexivity];
            rewrite Hans in *; first [ discriminate | match goal with H : Ok _ = Ok _ |- _ => injection H as <- end; reflexivity ] ]
  | intros e0 Hfail;
    first [ now apply ProtocolAgentFacts.failed_without in Hfail
          | eapply ProtocolAgentFacts.failed_with in Hfail; [|reflexivity];
            rewrite Hfail in *; first [ discriminate | match goal with H : Raise _ = Raise _ |- _ => injection H as <- end; reflexivity ] ] ].

Ltac inspect_finish w user_input data :=
  match goal with
  | |- context [keys ?i] => destruct (keys i) as [instrument_keys|e1]
  end;
  [ wp_steps;
    match goal with
    | |- context [agent_run w ?p] =>
        destruct (agent_run w p) as [answer|e1] eqn:Hanswer
    end; wp_steps; inspect_leaf user_input data
  | inspect_leaf user_input data ].

(** X14. Inspecting a protocol that is loaded, in both agents: the model is
    given the request and the protocol's data as they are, the reply is
    the banner followed by the model's answer, or the handler's error text
    when the model call raises; the agent is left as it was. *)
Theorem inspect_loaded_protocol :
  forall (w : world) (user_input : string) (parameters context : dict)
         (name : string) (protocols : dict) (data : value),
    Dict.lookup "protocol_name" parameters = Some (VStr name) ->
    name <> EmptyString ->
    snapshot_protocols context = Ok (VDict protocols) ->
    Dict.lookup name protocols = Some data ->
    (forall m,
        let run := PA._inspect_protocol w user_input parameters context m in
        final run = m
        /\ (forall prompt, In prompt (model_calls (trace run)) ->
                           Str.occurs (str data) prompt
                           /\ Str.occurs user_input prompt)
        /\ (forall response,
               model_answered w (trace run) response ->
               result run
               = Ok (Str.cat ["🔍 Protocol Analysis for '"; name; "':";
                              Str.nl; Str.nl; response]))
        /\ (forall e,
               model_failed w (trace run) e ->
               result run
               = Ok (Str.cat ["I encountered an error while inspecting the protocol: ";
                              str_exn e])))
    /\
    (forall m,
        let run := MC._inspect_protocol w user_input parameters context m in
        final run = m
        /\ (forall prompt, In prompt (model_calls (trace run)) ->
                           Str.occurs (str data) prompt
                           /\ Str.occurs user_input prompt)
        /\ (forall response,
               model_answered w (trace run) response ->
               result run
               = Ok (Str.cat ["🔍 Protocol Analysis for '"; name; "':";
                              Str.nl; Str.nl; response]))
        /\ (forall e,
               model_failed w (trace run) e ->
               result run
               = Ok (Str.cat ["I encountered an error while inspecting the protocol: ";
                              str_exn e]))).
Proof.
  intros w user_input parameters context name protocols data
         Hname Hne Hmap Hdata.
  split; intros m; apply wp_run.
  - unfold PA._inspect_protocol. cbv zeta.
    inspect_known Hname Hne Hmap Hdata.
    inspect_finish w user_input data.
  - unfold MC._inspect_protocol. cbv zeta.
    inspect_known Hname Hne Hmap Hdata.
    inspect_finish w user_input data.
Qed.

End InspectFacts.

(* ================================================================== *)
(** ** The measurement control agent: the store under the two tables *)

Module MoreDictFacts.

Section Facts.
Context {A B : Type}.
Implicit Types (k : string).

Lemma remove_absent k (d : Dict.t A) :
  Dict.mem k d = false -> Dict.remove k d = d.
Proof.
  unfold Dict.mem. induction d as [|[k' v'] d IH]; simpl; [reflexivity|].
  destruct (String.eqb k k'); [discriminate|].
  intros H. now rewrite IH.
Qed.

Lemma keys_assign_both k (v : A) (v' : B) (d : Dict.t A) (d' : Dict.t B) :
  Dict.keys d = Dict.keys d' ->
  Dict.keys (Dict.assign k v d) = Dict.keys (Dict.assign k v' d').
Proof.
  revert d'. induction d as [|[k1 v1] d IH]; intros [|[k2 v2] d'];
    simpl; try discriminate; [reflexivity|].
  intros [= <- Hrest]. destruct (String.eqb k k1); simpl.
  - now rewrite Hrest.
  - now rewrite (IH d' Hrest).
Qed.

Lemma keys_remove_both k (d : Dict.t A) (d' : Dict.t B) :
  Dict.keys d = Dict.keys d' ->
  Dict.keys (Dict.remove k d) = Dict.keys (Dict.remove k d').
Proof.
  revert d'. induction d as [|[k1 v1] d IH]; intros [|[k2 v2] d'];
    simpl; try discriminate; [reflexivity|].
  intros [= <- Hrest]. destruct (String.eqb k k1); simpl.
  - exact Hrest.
  - now rewrite (IH d' Hrest).
Qed.

End Facts.

Lemma lookup_remove_other {A} (k k' : string) (d : Dict.t A) :
  k <> k' -> Dict.lookup k (Dict.remove k' d) = Dict.lookup k d.
Proof.
  intros Hne. induction d as [|[k1 v1] d IH]; simpl; [reflexivity|].
  destruct (String.eqb_spec k' k1) as [->|Hne1]; simpl.
  - apply String.eqb_neq in Hne. now rewrite Hne.
  - now rewrite IH.
Qed.

Lemma lookup_remove_same {A} (k : string) (d : Dict.t A) :
  Dict.wf d -> Dict.lookup k (Dict.remove k d) = None.
Proof.
  unfold Dict.wf. induction d as [|[k1 v1] d IH]; simpl; [reflexivity|].
  intros Hnd. inversion Hnd as [|? ? Hnotin Hrest]; subst.
  destruct (String.eqb_spec k k1) as [->|Hne]; simpl.
  - apply DictFacts.not_mem_keys in Hnotin. unfold Dict.mem in Hnotin.
    now destruct (Dict.lookup k1 d).
  - apply String.eqb_neq in Hne. rewrite Hne. auto.
Qed.

Lemma keys_assign_present {A} (k : string) (v : A) (d : Dict.t A) :
  Dict.mem k d = true -> Dict.keys (Dict.assign k v d) = Dict.keys d.
Proof.
  unfold Dict.mem. induction d as [|[k1 v1] d IH]; simpl; [discriminate|].
  destruct (String.eqb_spec k k1) as [->|Hne]; simpl; [reflexivity|].
  intros H. now rewrite IH.
Qed.

End MoreDictFacts.

Module StoreFacts.

Import Py Eff Obs EffFacts Views MoreEffFacts MeasurementControlAgent
       MonitorFacts.
Local Open Scope eff_scope.

Lemma update_same (h : heap) (a : nat) :
  update h a (deref h a) = h.
Proof.
  unfold deref. revert a.
  induction h as [|x h IH]; intros [|a]; simpl; try reflexivity.
  now rewrite IH.
Qed.

Lemma wp_both {S A} (c : M S A) (m : machine S)
      (Q1 Q2 : outcome A -> machine S -> list event -> Prop) :
  wp c m Q1 -> wp c m Q2 -> wp c m (fun r m' t => Q1 r m' t /\ Q2 r m' t).
Proof. unfold wp. auto. Qed.

(** What [_stop_monitor] does to the store when the monitor is there: the
    record is marked, the registry and the table of threads lose the
    key, and nothing else changes. *)
Lemma stop_monitor_store (k : string) (r : nat) (m : machine state) :
  valid (self m) ->
  Dict.lookup k (registry (self m)) = Some (HRef r) ->
  let h := store (self m) in
  let a := active_monitors (self m) in
  let b := monitoring_threads (self m) in
  _stop_monitor (VStr k) m
  = (Ok tt,
     Machine (ticks m)
       (with_store (self m)
          (update
             (update
                (update h r (Dict.assign "status" (HVal (VStr "stopped"))
                                         (deref h r)))
                a (Dict.remove k (deref h a)))
             b (Dict.remove k (deref h b)))),
     []).
Proof.
  destruct m as [ticks0 [lu h a b c]]. cbn [self].
  rewrite valid_fields. unfold registry.
  cbn [self store active_monitors monitoring_threads ticks].
  intros (Ha & Hb & Hab & Hwf & Hrefs) Hk.
  assert (Hmem : Dict.mem k (deref h a) = true).
  { unfold Dict.mem. now rewrite Hk. }
  assert (Hr : r < length h /\ r <> a /\ r <> b).
  { rewrite Forall_forall in Hrefs.
    destruct (Hrefs _ (DictFacts.lookup_In _ _ _ Hk)) as (r' & [= <-] & ?).
    assumption. }
  destruct Hr as (Hr & Hra & Hrb).
  apply (wp_run (_stop_monitor (VStr k)) _ (fun run => run = _)).
  unfold _stop_monitor, set_status, read, write.
  wp_steps. cbn [self store active_monitors monitoring_threads].
  rewrite has_key, Hmem. wp_steps.
  cbn [self store active_monitors monitoring_threads].
  unfold item. cbn [hashable]. rewrite Hk.
  wp_steps. cbn [self store active_monitors monitoring_threads with_store ticks].
  set (h1 := update h r _).
  assert (Hh1a : deref h1 a = deref h a)
    by (subst h1; now apply deref_update_other).
  assert (Hh1b : deref h1 b = deref h b)
    by (subst h1; now apply deref_update_other).
  rewrite Hh1a. rewrite (without_key _ _ Hmem). wp_steps.
  cbn [self store active_monitors monitoring_threads with_store ticks].
  rewrite has_key.
  rewrite (deref_update_other h1 a b) by assumption. rewrite Hh1b.
  destruct (Dict.mem k (deref h b)) eqn:Hthread.
  - wp_steps. rewrite (without_key _ _ Hthread). wp_steps.
    cbn [self store active_monitors monitoring_threads with_store ticks
         last_used condition_handlers app].
    reflexivity.
  - wp_steps. cbn [app].
    rewrite (MoreDictFacts.remove_absent _ _ Hthread).
    assert (Hsame : update (update h1 a (Dict.remove k (deref h a))) b
                           (deref h b)
                    = update h1 a (Dict.remove k (deref h a))).
    { rewrite <- Hh1b.
      rewrite <- (deref_update_other h1 a b (Dict.remove k (deref h a)))
        by assumption.
      apply update_same. }
    rewrite Hsame. reflexivity.
Qed.

(** The second half of both creators, as an equation on the store. *)
Lemma register_store (id target : string) (record : object)
      (m : machine state) :
  let h := store (self m) in
  let a := active_monitors (self m) in
  let b := monitoring_threads (self m) in
  let h1 := (h ++ [record])%list in
  let h2 := update h1 a (Dict.assign id (HRef (length h)) (deref h1 a)) in
  (address <- new record ;;
   s <- get_self ;;
   monitors <- read (active_monitors s) ;;
   write (active_monitors s) (Dict.assign id (HRef address) monitors) ;;
   emit (EvThreadStart target id) ;;
   running <- read (monitoring_threads s) ;;
   write (monitoring_threads s)
         (Dict.assign id (HThread target id) running) ;;
   ret id) m
  = (Ok id,
     Machine (ticks m)
       (with_store (self m)
          (update h2 b (Dict.assign id (HThread target id) (deref h2 b)))),
     [EvThreadStart target id]).
Proof.
  destruct m as [ticks0 [lu h a b c]]. reflexivity.
Qed.

(** The record [_create_conditional_monitor] makes at instant [created]. *)
Lemma create_conditional_store (w : world) (protocol_name condition : value)
      (context : dict) (m : machine state) :
  let id := Str.cat ["conditional_"; str protocol_name; "_";
                     strftime_HMS (clock w (ticks m))] in
  let record := [("type", HVal (VStr "conditional"));
                 ("protocol", HVal protocol_name);
                 ("condition", HVal condition);
                 ("created", HTime (clock w (Datatypes.S (ticks m))));
                 ("status", HVal (VStr "active"))] in
  let h := store (self m) in
  let a := active_monitors (self m) in
  let b := monitoring_threads (self m) in
  let h1 := (h ++ [record])%list in
  let h2 := update h1 a (Dict.assign id (HRef (length h)) (deref h1 a)) in
  _create_conditional_monitor w protocol_name condition context m
  = (Ok id,
     Machine (Datatypes.S (Datatypes.S (ticks m)))
       (with_store (self m)
          (update h2 b
             (Dict.assign id (HThread "_conditional_monitor_loop" id)
                          (deref h2 b)))),
     [EvThreadStart "_conditional_monitor_loop" id]).
Proof.
  destruct m as [ticks0 [lu h a b c]]. reflexivity.
Qed.

(** The record [_create_device_monitor] makes. *)
Lemma create_device_store (w : world) (device_name parameter interval : value)
      (context : dict) (m : machine state) :
  let id := Str.cat ["device_"; str device_name; "_";
                     strftime_HMS (clock w (ticks m))] in
  let record := [("type", HVal (VStr "device"));
                 ("device", HVal device_name);
                 ("parameter", HVal parameter);
                 ("interval", HVal interval);
                 ("created", HTime (clock w (Datatypes.S (ticks m))));
                 ("status", HVal (VStr "active"))] in
  let h := store (self m) in
  let a := active_monitors (self m) in
  let b := monitoring_threads (self m) in
  let h1 := (h ++ [record])%list in
  let h2 := update h1 a (Dict.assign id (HRef (length h)) (deref h1 a)) in
  _create_device_monitor w device_name parameter interval context m
  = (Ok id,
     Machine (Datatypes.S (Datatypes.S (ticks m)))
       (with_store (self m)
          (update h2 b
             (Dict.assign id (HThread "_device_monitor_loop" id)
                          (deref h2 b)))),
     [EvThreadStart "_device_monitor_loop" id]).
Proof.
  destruct m as [ticks0 [lu h a b c]]. reflexivity.
Qed.

(** The parts of a store after a registration. *)
Lemma registered_store (h : heap) (a b : nat) (id : string) (record : object)
      (thread : hval) :
  a < length h -> b < length h -> a <> b ->
  let h1 := (h ++ [record])%list in
  let h2 := update h1 a (Dict.assign id (HRef (length h)) (deref h1 a)) in
  let h3 := update h2 b (Dict.assign id thread (deref h2 b)) in
  deref h3 a = Dict.assign id (HRef (length h)) (deref h a)
  /\ deref h3 b = Dict.assign id thread (deref h b)
  /\ deref h3 (length h) = record
  /\ length h3 = Datatypes.S (length h)
  /\ forall r, r < length h -> r <> a -> r <> b -> deref h3 r = deref h r.
Proof.
  intros Ha Hb Hab h1 h2 h3.
  assert (H1a : deref h1 a = deref h a) by (subst h1; now apply deref_grown).
  assert (H1b : deref h1 b = deref h b) by (subst h1; now apply deref_grown).
  assert (Hl1 : length h1 = Datatypes.S (length h))
    by (subst h1; apply length_grown).
  assert (Hl2 : length h2 = Datatypes.S (length h))
    by (subst h2; now rewrite length_update).
  assert (H2b : deref h2 b = deref h b)
    by (subst h2; rewrite deref_update_other by assumption; exact H1b).
  subst h3. rewrite H2b. repeat split.
  - rewrite deref_update_other by congruence. subst h2.
    rewrite H1a. apply deref_update_same. lia.
  - apply deref_update_same. lia.
  - rewrite deref_update_other by lia. subst h2.
    rewrite deref_update_other by lia. subst h1. apply deref_fresh.
  - now rewrite length_update.
  - intros r Hr Hra Hrb. rewrite deref_update_other by congruence.
    subst h2. rewrite deref_update_other by congruence.
    subst h1. now apply deref_grown.
Qed.

(** And after a stop. *)
Lemma stopped_store (h : heap) (a b r : nat) (k : string) :
  a < length h -> b < length h -> r < length h ->
  a <> b -> r <> a -> r <> b ->
  let h1 := update h r (Dict.assign "status" (HVal (VStr "stopped"))
                                    (deref h r)) in
  let h2 := update h1 a (Dict.remove k (deref h a)) in
  let h3 := update h2 b (Dict.remove k (deref h b)) in
  deref h3 a = Dict.remove k (deref h a)
  /\ deref h3 b = Dict.remove k (deref h b)
  /\ deref h3 r = Dict.assign "status" (HVal (VStr "stopped")) (deref h r)
  /\ length h3 = length h
  /\ forall r', r' <> r -> r' <> a -> r' <> b -> deref h3 r' = deref h r'.
Proof.
  intros Ha Hb Hr Hab Hra Hrb h1 h2 h3. subst h3 h2 h1. repeat split.
  - rewrite deref_update_other by congruence.
    apply deref_update_same. now rewrite length_update.
  - apply deref_update_same. now rewrite !length_update.
  - rewrite !deref_update_other by congruence. now apply deref_update_same.
  - now rewrite !length_update.
  - intros r' H1 H2 H3. now rewrite !deref_update_other by congruence.
Qed.

End StoreFacts.

(* ================================================================== *)
(** ** The measurement control agent: the life of a monitor *)

Module MonitorLife.

Import Py Eff Obs EffFacts Views Schedule MoreEffFacts
       MeasurementControlAgent MonitorFacts StoreFacts.
Local Open Scope eff_scope.

(** A registered monitor refers to a record of the store. *)
Lemma registered_is_record (s : state) (k : string) (slot : hval) :
  valid s -> Dict.lookup k (registry s) = Some slot ->
  exists r, slot = HRef r /\ r < length (store s)
            /\ r <> active_monitors s /\ r <> monitoring_threads s.
Proof.
  intros (_ & _ & _ & _ & Hrefs) Hk. rewrite Forall_forall in Hrefs.
  exact (Hrefs _ (DictFacts.lookup_In _ _ _ Hk)).
Qed.

(** What is left of an agent after [_stop_monitor] took a monitor out. *)
Lemma stop_monitor_effect (k : string) (r : nat) (m : machine state) :
  valid (self m) ->
  Dict.lookup k (registry (self m)) = Some (HRef r) ->
  exists m',
    _stop_monitor (VStr k) m = (Ok tt, m', [])
    /\ ticks m' = ticks m
    /\ valid (self m')
    /\ registry (self m') = Dict.remove k (registry (self m))
    /\ threads (self m') = Dict.remove k (threads (self m))
    /\ active_monitors (self m') = active_monitors (self m)
    /\ monitoring_threads (self m') = monitoring_threads (self m)
    /\ length (store (self m')) = length (store (self m))
    /\ deref (store (self m')) r
       = Dict.assign "status" (HVal (VStr "stopped"))
                     (deref (store (self m)) r)
    /\ forall r', r' <> r -> r' <> active_monitors (self m) ->
                  r' <> monitoring_threads (self m) ->
                  deref (store (self m')) r' = deref (store (self m)) r'.
Proof.
  intros Hvalid Hk.
  pose proof (stop_monitor_run k r m Hvalid Hk) as Hrun.
  pose proof (stop_monitor_store k r m Hvalid Hk) as Hstore.
  cbv zeta in Hstore. unfold wp in Hrun. rewrite Hstore in Hrun.
  cbn [result final trace fst snd] in Hrun.
  destruct Hrun as (_ & _ & _ & Hvalid').
  destruct (registered_is_record _ _ _ Hvalid Hk)
    as (r0 & [= <-] & Hr & Hra & Hrb).
  destruct Hvalid as (Ha & Hb & Hab & _).
  destruct (stopped_store (store (self m)) _ _ r k Ha Hb Hr Hab Hra Hrb)
    as (Hreg & Hthr & Hrec & Hlen & Hrest).
  eexists. split; [exact Hstore|].
  destruct m as [ticks0 [lu h a b c]].
  unfold registry, threads, with_store in *.
  cbn [self ticks store active_monitors monitoring_threads last_used
       condition_handlers] in *.
  split; [reflexivity|]. split; [exact Hvalid'|].
  split; [exact Hreg|]. split; [exact Hthr|].
  split; [reflexivity|]. split; [reflexivity|].
  split; [exact Hlen|]. split; [exact Hrec | exact Hrest].
Qed.

Lemma stop_named_effect :
  forall (user_input : string) (parameters context : dict) (k : string)
         (r : nat) (m : machine state),
    valid (self m) ->
    Dict.lookup "monitor_id" parameters = Some (VStr k) ->
    k <> EmptyString ->
    Dict.lookup k (registry (self m)) = Some (HRef r) ->
    let run := _stop_monitoring user_input parameters context m in
    result run = Ok (Str.cat ["🛑 Stopped monitoring task: "; k])
    /\ trace run = []
    /\ valid (self (final run))
    /\ registry (self (final run)) = Dict.remove k (registry (self m))
    /\ Dict.lookup k (registry (self (final run))) = None
    /\ (forall k', k' <> k ->
                   Dict.lookup k' (registry (self (final run)))
                   = Dict.lookup k' (registry (self m)))
    /\ threads (self (final run)) = Dict.remove k (threads (self m))
    /\ Dict.lookup "status" (deref (store (self (final run))) r)
       = Some (HVal (VStr "stopped")).
Proof.
  intros user_input parameters context k r m Hvalid Hid Hne Hk.
  destruct (stop_monitor_effect k r m Hvalid Hk)
    as (m' & Hrun & _ & Hvalid' & Hreg & Hthr & _ & _ & _ & Hrec & _).
  assert (Hmem : Dict.mem k (registry (self m)) = true)
    by (unfold Dict.mem; now rewrite Hk).
  apply wp_run. unfold _stop_monitoring.
  rewrite (AgentFacts.dget_found _ _ _ _ Hid),
          (AgentFacts.truthy_nonempty _ Hne).
  unfold read. wp_steps. fold (registry (self m)).
  rewrite has_key, Hmem. wp_steps.
  eapply wp_known; [exact Hrun|]. cbv beta iota. wp_steps.
  cbn [result final trace fst snd app str].
  split; [reflexivity|]. split; [reflexivity|]. split; [exact Hvalid'|].
  split; [exact Hreg|]. rewrite Hreg, Hthr, Hrec.
  split; [apply MoreDictFacts.lookup_remove_same; apply Hvalid|].
  split; [intros k' Hk'; now apply MoreDictFacts.lookup_remove_other|].
  split; [reflexivity|]. apply DictFacts.lookup_assign_same.
Qed.

(** X16. Stopping one monitor by its identifier takes that monitor, and only
    that one, out of the registry and out of the table of threads, marks
    its record as stopped and answers with the identifier. *)
Theorem stop_named_monitor :
  forall (user_input : string) (parameters context : dict) (k : string)
         (r : nat) (m : machine state),
    valid (self m) ->
    Dict.lookup "monitor_id" parameters = Some (VStr k) ->
    k <> EmptyString ->
    Dict.lookup k (registry (self m)) = Some (HRef r) ->
    let run := _stop_monitoring user_input parameters context m in
    result run = Ok (Str.cat ["🛑 Stopped monitoring task: "; k])
    /\ trace run = []
    /\ valid (self (final run))
    /\ registry (self (final run)) = Dict.remove k (registry (self m))
    /\ Dict.lookup k (registry (self (final run))) = None
    /\ (forall k', k' <> k ->
                   Dict.lookup k' (registry (self (final run)))
                   = Dict.lookup k' (registry (self m)))
    /\ threads (self (final run)) = Dict.remove k (threads (self m))
    /\ Dict.lookup "status" (deref (store (self (final run))) r)
       = Some (HVal (VStr "stopped")).
Proof. exact stop_named_effect. Qed.

(** *** Creating monitors *)

(** An agent whose store has grown by one registered record. *)
Lemma grown_coherent (s : state) (id : string) (record : object)
      (thread : hval) :
  coherent s ->
  let h := store s in
  let a := active_monitors s in
  let b := monitoring_threads s in
  let h1 := (h ++ [record])%list in
  let h2 := update h1 a (Dict.assign id (HRef (length h)) (deref h1 a)) in
  let h3 := update h2 b (Dict.assign id thread (deref h2 b)) in
  coherent (with_store s h3)
  /\ registry (with_store s h3) = Dict.assign id (HRef (length h)) (registry s)
  /\ threads (with_store s h3) = Dict.assign id thread (threads s)
  /\ deref h3 (length h) = record
  /\ forall r, r < length h -> r <> a -> r <> b -> deref h3 r = deref h r.
Proof.
  destruct s as [lu h a b c]. intros [Hvalid Hsync].
  pose proof Hvalid as Hfields. rewrite valid_fields in Hfields.
  destruct Hfields as (Ha & Hb & Hab & Hwf & Hrefs).
  cbn [store active_monitors monitoring_threads].
  destruct (registered_store h a b id record thread Ha Hb Hab)
    as (Hreg & Hthr & Hrec & Hlen & Hrest).
  cbv zeta in *. unfold coherent, synced, registry, threads, with_store in *.
  cbn [store active_monitors monitoring_threads last_used condition_handlers]
    in *.
  rewrite Hreg, Hthr.
  split; [split|].
  - rewrite valid_fields, Hlen, Hreg. repeat split; try lia.
    + now apply DictFacts.wf_assign.
    + rewrite Forall_forall in *. intros entry Hin.
      apply DictFacts.In_assign in Hin. destruct Hin as [-> | Hin].
      * exists (length h). cbn. repeat split; lia.
      * destruct (Hrefs _ Hin) as (r & ? & ? & ? & ?).
        exists r. repeat split; auto; lia.
  - now apply MoreDictFacts.keys_assign_both.
  - repeat split; auto.
Qed.

Lemma create_conditional_effect (w : world) (protocol_name condition : value)
      (context : dict) (m : machine state) :
  coherent (self m) ->
  let id := Str.cat ["conditional_"; str protocol_name; "_";
                     strftime_HMS (clock w (ticks m))] in
  let n := length (store (self m)) in
  exists m',
    _create_conditional_monitor w protocol_name condition context m
    = (Ok id, m', [EvThreadStart "_conditional_monitor_loop" id])
    /\ ticks m' = Datatypes.S (Datatypes.S (ticks m))
    /\ coherent (self m')
    /\ registry (self m') = Dict.assign id (HRef n) (registry (self m))
    /\ threads (self m')
       = Dict.assign id (HThread "_conditional_monitor_loop" id)
                     (threads (self m))
    /\ deref (store (self m')) n
       = [("type", HVal (VStr "conditional"));
          ("protocol", HVal protocol_name);
          ("condition", HVal condition);
          ("created", HTime (clock w (Datatypes.S (ticks m))));
          ("status", HVal (VStr "active"))]
    /\ length (store (self m')) = Datatypes.S n
    /\ forall r, r < n -> deref (store (self m')) r
                          = deref (store (self m)) r
                          \/ r = active_monitors (self m)
                          \/ r = monitoring_threads (self m).
Proof.
  intros Hcoh. cbv zeta. rewrite create_conditional_store. cbv zeta.
  eexists. split; [reflexivity|]. cbn [ticks self].
  split; [reflexivity|].
  match goal with
  | |- context [with_store (self m)
                  (update (update _ _ (Dict.assign ?id _ _)) _
                          (Dict.assign _ ?thread _))] =>
      match goal with
      | |- context [(store (self m) ++ [?record])%list] =>
          destruct (grown_coherent (self m) id record thread Hcoh)
            as (Hcoh' & Hreg & Hthr & Hrec & Hrest)
      end
  end.
  cbv zeta in *. split; [exact Hcoh'|]. split; [exact Hreg|].
  split; [exact Hthr|].
  destruct m as [ticks0 [lu h a b c]].
  cbn [self store with_store active_monitors monitoring_threads] in *.
  split; [exact Hrec|]. split.
  - rewrite !length_update. apply length_grown.
  - intros r Hr.
    destruct (Nat.eq_dec r a) as [->|Hra]; [auto|].
    destruct (Nat.eq_dec r b) as [->|Hrb]; [auto|].
    left. now apply Hrest.
Qed.

Lemma create_device_effect (w : world)
      (device_name parameter interval : value)
      (context : dict) (m : machine state) :
  coherent (self m) ->
  let id := Str.cat ["device_"; str device_name; "_";
                     strftime_HMS (clock w (ticks m))] in
  let n := length (store (self m)) in
  exists m',
    _create_device_monitor w device_name parameter interval context m
    = (Ok id, m', [EvThreadStart "_device_monitor_loop" id])
    /\ coherent (self m')
    /\ registry (self m') = Dict.assign id (HRef n) (registry (self m))
    /\ Dict.lookup "status" (deref (store (self m')) n)
       = Some (HVal (VStr "active")).
Proof.
  intros Hcoh. cbv zeta. rewrite create_device_store. cbv zeta.
  eexists. split; [reflexivity|]. cbn [ticks self].
  match goal with
  | |- context [with_store (self m)
                  (update (update _ _ (Dict.assign ?id _ _)) _
                          (Dict.assign _ ?thread _))] =>
      match goal with
      | |- context [(store (self m) ++ [?record])%list] =>
          destruct (grown_coherent (self m) id record thread Hcoh)
            as (Hcoh' & Hreg & Hthr & Hrec & Hrest)
      end
  end.
  cbv zeta in *. split; [exact Hcoh'|]. split; [exact Hreg|].
  destruct m as [ticks0 [lu h a b c]].
  cbn [self ticks store with_store active_monitors monitoring_threads] in *.
  exact (eq_trans (f_equal (Dict.lookup "status") Hrec) eq_refl).
Qed.

(** X18. The identifier of a monitor has the time of day to the second:
    two conditional monitors made for one protocol within the same second
    get the same identifier.  The registry then has one entry for both,
    the entry refers to the record made last, and two loops have been
    started under the one identifier. *)
Theorem monitors_of_one_second_collide :
  forall (w : world) (protocol_name condition1 condition2 : value)
         (context : dict) (m : machine state),
    coherent (self m) ->
    strftime_HMS (clock w (ticks m))
    = strftime_HMS (clock w (Datatypes.S (Datatypes.S (ticks m)))) ->
    let first :=
      _create_conditional_monitor w protocol_name condition1 context m in
    let second :=
      _create_conditional_monitor w protocol_name condition2 context
                                  (final first) in
    exists id,
      result first = Ok id
      /\ result second = Ok id
      /\ thread_starts (trace first ++ trace second)
         = [("_conditional_monitor_loop", id);
            ("_conditional_monitor_loop", id)]
      /\ Dict.keys (registry (self (final second)))
         = Dict.keys (registry (self (final first)))
      /\ Dict.lookup id (registry (self (final second)))
         = Some (HRef (Datatypes.S (length (store (self m)))))
      /\ Dict.lookup "condition"
           (deref (store (self (final second)))
                  (Datatypes.S (length (store (self m)))))
         = Some (HVal condition2).
Proof.
  intros w protocol_name condition1 condition2 context m Hcoh Hsame.
  destruct (create_conditional_effect w protocol_name condition1 context m
              Hcoh)
    as (m1 & Hrun1 & Hticks1 & Hcoh1 & Hreg1 & _ & _ & Hlen1 & _).
  destruct (create_conditional_effect w protocol_name condition2 context m1
              Hcoh1)
    as (m2 & Hrun2 & _ & _ & Hreg2 & _ & Hrec2 & _).
  cbv zeta. rewrite Hrun1. cbn [final fst snd result trace].
  rewrite Hrun2. cbn [final fst snd result trace].
  rewrite Hticks1, <- Hsame in *. rewrite Hlen1 in *.
  eexists. split; [reflexivity|]. split; [reflexivity|].
  split; [reflexivity|]. rewrite Hreg2. split; [|split].
  - apply MoreDictFacts.keys_assign_present. rewrite Hreg1.
    apply DictFacts.mem_assign_same.
  - apply DictFacts.lookup_assign_same.
  - exact (eq_trans (f_equal (Dict.lookup "condition") Hrec2) eq_refl).
Qed.

(** X19. [_setup_device_monitoring] registers a device monitor and starts
    its loop if and only if a device is named and the model call it makes
    first has answered.  Otherwise the agent is left as it was and no loop
    is started; when the model has answered and no device is named, the
    reply is the analysis alone. *)
Theorem device_setup_registers_iff :
  forall (w : world) (user_input : string) (parameters context : dict)
         (m : machine state),
    valid (self m) ->
    let run := _setup_device_monitoring w user_input parameters context m in
    let named := truthy (dget parameters "device" (VStr EmptyString)) in
    let answered := exists response, model_answered w (trace run) response in
    (loop_registered "_device_monitor_loop" run
     <-> named = true /\ answered)
    /\ (~ (named = true /\ answered) ->
        self (final run) = self m /\ thread_starts (trace run) = [])
    /\ (named = false ->
        forall response,
          model_answered w (trace run) response ->
          result run
          = Ok (Str.cat ["📊 Device Monitoring Analysis:"; Str.nl; Str.nl;
                         response])).
Proof.
  intros w user_input parameters context m Hvalid.
  apply wp_run. unfold _setup_device_monitoring. cbv zeta.
  set (named := truthy (dget parameters "device" (VStr EmptyString))).
  assert (Hquiet : forall (r : outcome string),
             (loop_registered "_device_monitor_loop" (r, m, [])
              <-> named = true
                  /\ exists response,
                      model_answered w (trace (r, m, [])) response)
             /\ (~ (named = true
                    /\ exists response,
                        model_answered w (trace (r, m, [])) response) ->
                 self (final (r, m, [])) = self m
                 /\ thread_starts (trace (r, m, [])) = [])
             /\ (named = false ->
                 forall response,
                   model_answered w (trace (r, m, [])) response ->
                   result (r, m, []) = Ok (Str.cat ["📊 Device Monitoring Analysis:"; Str.nl; Str.nl; response]))).
  { intros r. cbn [trace final result fst snd]. split; [|split].
    - split.
      + intros (id & r0 & Hstart & _). discriminate Hstart.
      + intros (_ & response & Hans). now apply not_answered_silent in Hans.
    - auto.
    - intros _ response Hans. now apply not_answered_silent in Hans. }
  wp_step. wp_step.
  destruct (get _ "instruments" _) as [instruments|e]; [|apply Hquiet].
  wp_step. wp_step.
  destruct (keys instruments) as [instrument_keys|e]; [|apply Hquiet].
  clear Hquiet. wp_steps.
  match goal with |- context [agent_run w ?p] => set (prompt := p) end.
  destruct (agent_run w prompt) as [response|e] eqn:Hanswer.
  - destruct named eqn:Hnamed.
    + wp_step.
      eapply wp_mono;
        [exact (create_device_monitor_run w _ _ _ context m Hvalid _ eq_refl)|].
      intros res m1 t1 (-> & -> & Hreg & Hstatus & Hvalid1).
      wp_steps. cbn [trace final result fst snd app].
      assert (Hans : exists response0,
                 model_answered w
                   [EvAgentRun prompt;
                    EvThreadStart "_device_monitor_loop"
                      (Str.cat ["device_";
                                str (dget parameters "device"
                                          (VStr EmptyString));
                                "_"; strftime_HMS (clock w (ticks m))])]
                   response0).
      { exists response. apply answered_once; [reflexivity | exact Hanswer]. }
      split; [|split].
      * split; [auto|]. intros _. unfold loop_registered.
        cbn [trace final result fst snd]. eexists. eexists.
        split; [reflexivity|]. split; [|exact Hstatus].
        rewrite Hreg. apply DictFacts.lookup_assign_same.
      * intros Hnot. exfalso. apply Hnot. auto.
      * discriminate.
    + wp_steps. cbn [trace final result fst snd app].
      split; [|split].
      * split.
        -- intros (id & r0 & Hstart & _). discriminate Hstart.
        -- intros (Hf & _). discriminate Hf.
      * auto.
      * intros _ response0 Hans. apply answered_once in Hans; [|reflexivity].
        congruence.
  - wp_steps. cbn [trace final result fst snd app].
    assert (Hnone : forall response,
               ~ model_answered w
                   [EvAgentRun prompt;
                    EvLog "error"
                      (Str.cat ["Error setting up device monitoring: ";
                                str_exn e])] response).
    { intros response Hans. apply answered_once in Hans; [|reflexivity].
      congruence. }
    split; [|split].
    + split.
      * intros (id & r0 & Hstart & _). discriminate Hstart.
      * intros (_ & response & Hans). now apply Hnone in Hans.
    + auto.
    + intros _ response Hans. now apply Hnone in Hans.
Qed.

(** X20. The identifier [_create_device_monitor] returns for a device
    contains [device] and the device name, and right after the creation
    it is a key of the listing [get_active_monitors] returns. *)
Theorem device_monitor_is_listed :
  forall (w : world) (device parameter : string) (interval : value)
         (context : dict) (m : machine state),
    valid (self m) ->
    let created :=
      _create_device_monitor w (VStr device) (VStr parameter) interval
                             context m in
    exists id,
      result created = Ok id
      /\ Str.occurs "device" id
      /\ Str.occurs device id
      /\ let listing := get_active_monitors (final created) in
         exists copy,
           result listing = Ok copy
           /\ Dict.mem id (deref (store (self (final listing))) copy) = true.
Proof.
  intros w device parameter interval context m Hvalid.
  apply wp_run.
  eapply wp_mono;
    [exact (create_device_monitor_run w _ _ _ context m Hvalid _ eq_refl)|].
  intros res m1 t1 (-> & -> & Hreg & _ & Hvalid1).
  cbn [result final trace fst snd]. eexists. split; [reflexivity|].
  split; [|split].
  - apply StrFacts.occurs_trans with (y := "device_").
    + now exists EmptyString, "_".
    + apply StrFacts.occurs_cat. now left.
  - apply StrFacts.occurs_cat. cbn [In str]. tauto.
  - apply wp_run.
    eapply wp_mono; [apply get_active_monitors_run, Hvalid1|].
    intros res m2 t2 (-> & -> & _ & Hcopy & _).
    cbn [result final trace fst snd]. eexists. split; [reflexivity|].
    rewrite Hcopy, Hreg. apply DictFacts.mem_assign_same.
Qed.

(** X21. The listing of [get_active_monitors] is a shallow copy: it has the
    same identifiers, and under each identifier the very record of the
    registry, not a copy of it.  A status the caller writes into a record
    of the listing is the status the agent then finds for that monitor. *)
Theorem listing_shares_the_records :
  forall (id : string) (r : nat) (status : value) (m : machine state),
    valid (self m) ->
    Dict.lookup id (registry (self m)) = Some (HRef r) ->
    let listing := get_active_monitors m in
    exists copy,
      result listing = Ok copy
      /\ deref (store (self (final listing))) copy = registry (self m)
      /\ Dict.lookup id (deref (store (self (final listing))) copy)
         = Some (HRef r)
      /\ let s := self (final listing) in
         let written :=
           with_store s
             (update (store s) r
                (Dict.assign "status" (HVal status) (deref (store s) r))) in
         status_of written id = Some (HVal status).
Proof.
  intros id r status m Hvalid Hid.
  destruct (registered_is_record _ _ _ Hvalid Hid)
    as (r0 & [= <-] & Hr & Hra & _).
  destruct Hvalid as (Ha & _).
  destruct m as [ticks0 [lu h a b c]]. unfold registry in *.
  cbn [self store active_monitors monitoring_threads] in *.
  exists (length h).
  change (get_active_monitors
            {| ticks := ticks0; self := State lu h a b c |})
    with (Ok (length h),
          Machine ticks0 (State lu (h ++ [deref h a])%list a b c),
          @nil event).
  cbn [result final fst snd self store].
  split; [reflexivity|]. split; [apply deref_fresh|].
  split; [now rewrite deref_fresh|].
  cbv zeta. unfold status_of, registry, with_store.
  cbn [store active_monitors monitoring_threads last_used condition_handlers].
  rewrite deref_update_other by congruence.
  rewrite deref_grown by assumption. rewrite Hid.
  rewrite deref_update_same by (rewrite length_grown; lia).
  apply DictFacts.lookup_assign_same.
Qed.

(** *** Turns of a loop *)

(** The test of a loop on a registered monitor reads its status. *)
Lemma monitor_is_active_registered (id status : string) (r : nat)
      (m : machine state) :
  Dict.lookup id (registry (self m)) = Some (HRef r) ->
  Dict.lookup "status" (deref (store (self m)) r)
  = Some (HVal (VStr status)) ->
  monitor_is_active id m = (Ok (String.eqb status "active"), m, []).
Proof.
  destruct m as [ticks0 [lu h a b c]]. unfold registry.
  cbn [self store active_monitors]. intros Hid Hstatus.
  unfold monitor_is_active, read, bind, get_self, ret, lift, item, Dict.mem.
  cbn [self store active_monitors hashable].
  rewrite Hid. cbn [self store]. rewrite Hstatus. reflexivity.
Qed.

Lemma monitor_is_active_absent (id : string) (m : machine state) :
  Dict.lookup id (registry (self m)) = None ->
  monitor_is_active id m = (Ok false, m, []).
Proof.
  destruct m as [ticks0 [lu h a b c]]. unfold registry.
  cbn [self store active_monitors]. intros Hid.
  unfold monitor_is_active, read, bind, get_self, ret, Dict.mem.
  cbn [self store active_monitors]. now rewrite Hid.
Qed.


(** *** A stop beside a running loop *)

Lemma wp_meanwhile {A} (other : agent A) (m m' : machine state)
      (r : outcome A) (t : list event) Q :
  other m = (r, m', t) -> Q (Ok tt) m' t -> wp (meanwhile other) m Q.
Proof. unfold wp, meanwhile. now intros ->. Qed.

(** With nothing in the gaps, the turns are those of the agent. *)
Lemma undisturbed_test (id : string) (m : machine state) :
  monitor_is_active_amid undisturbed undisturbed id m
  = monitor_is_active id m.
Proof.
  unfold monitor_is_active_amid, monitor_is_active, undisturbed, read,
    bind, get_self, ret, lift.
  destruct (Dict.mem id _); [|reflexivity].
  destruct (item _ _) as [[r|v|t|j]|e]; cbn [app]; try reflexivity.
  - destruct (item _ _) as [status|e]; reflexivity.
  - destruct (getitem _ _) as [found|e]; reflexivity.
Qed.

Lemma undisturbed_turns (id : string) (protocol_name condition : value)
      (device_name parameter interval : value) (m : machine state) :
  _conditional_monitor_loop_turn_amid undisturbed undisturbed id
    protocol_name condition m
  = _conditional_monitor_loop_turn id protocol_name condition m
  /\ _device_monitor_loop_turn_amid undisturbed undisturbed id
       device_name parameter interval m
     = _device_monitor_loop_turn id device_name parameter interval m.
Proof.
  unfold _conditional_monitor_loop_turn_amid, _conditional_monitor_loop_turn,
    _device_monitor_loop_turn_amid, _device_monitor_loop_turn,
    try_except, bind.
  now rewrite undisturbed_test.
Qed.

(** The run of a stop request that names a registered monitor, and what
    it leaves. *)
Lemma stop_named_run :
  forall (user_input : string) (parameters context : dict) (k : string)
         (r : nat) (m : machine state),
    valid (self m) ->
    Dict.lookup "monitor_id" parameters = Some (VStr k) ->
    k <> EmptyString ->
    Dict.lookup k (registry (self m)) = Some (HRef r) ->
    exists m',
      _stop_monitoring user_input parameters context m
      = (Ok (Str.cat ["🛑 Stopped monitoring task: "; k]), m', [])
      /\ Dict.lookup k (registry (self m')) = None
      /\ active_monitors (self m') = active_monitors (self m)
      /\ Dict.lookup "status" (deref (store (self m')) r)
         = Some (HVal (VStr "stopped")).
Proof.
  intros user_input parameters context k r m Hvalid Hid Hne Hk.
  destruct (stop_monitor_effect k r m Hvalid Hk)
    as (m' & Hrun & _ & _ & Hreg & _ & Hactive & _ & _ & Hrec & _).
  assert (Hmem : Dict.mem k (registry (self m)) = true)
    by (unfold Dict.mem; now rewrite Hk).
  exists m'. split; [|split; [|split]].
  - apply (wp_run (_stop_monitoring user_input parameters context) m
             (fun run => run = _)).
    unfold _stop_monitoring.
    rewrite (AgentFacts.dget_found _ _ _ _ Hid),
            (AgentFacts.truthy_nonempty _ Hne).
    unfold read. wp_steps. fold (registry (self m)).
    rewrite has_key, Hmem. wp_steps.
    eapply wp_known; [exact Hrun|]. cbv beta iota. wp_steps.
    reflexivity.
  - rewrite Hreg. apply MoreDictFacts.lookup_remove_same. apply Hvalid.
  - exact Hactive.
  - rewrite Hrec. apply DictFacts.lookup_assign_same.
Qed.

(** A turn whose test finds the monitor and then, at the subscript, finds
    it gone: the [KeyError] ends the loop through the [except] branch. *)
Lemma turn_loses_monitor {A} (stop : agent A) (k : string)
      (m m' : machine state) (reply : outcome A) (line : string)
      (failed : exn -> string) :
  Dict.mem k (registry (self m)) = true ->
  stop m = (reply, m', []) ->
  Dict.lookup k (registry (self m')) = None ->
  active_monitors (self m') = active_monitors (self m) ->
  try_except
    (active <- monitor_is_active_amid (meanwhile stop) undisturbed k ;;
     if active then log_info line ;; ret true else ret false)
    (fun e => monitor_failed k (failed e) ;; ret false) m
  = (Ok false, m', [EvLog "error" (failed (KeyError (VStr k)))]).
Proof.
  intros Hmem Hstop Hgone Hactive.
  apply (wp_run _ m (fun run => run = _)).
  unfold monitor_is_active_amid, read. wp_steps.
  fold (registry (self m)). rewrite Hmem. wp_steps.
  eapply wp_meanwhile; [exact Hstop|]. wp_steps.
  rewrite <- Hactive. fold (registry (self m')).
  unfold item. cbn [hashable]. rewrite Hgone. wp_steps.
  unfold monitor_failed, read. wp_steps.
  fold (registry (self m')).
  replace (Dict.mem k (registry (self m'))) with false
    by (unfold Dict.mem; now rewrite Hgone).
  wp_steps. reflexivity.
Qed.

(** A turn that has the record in hand when the monitor is stopped: it
    reads the status [stopped] and ends the loop. *)
Lemma turn_reads_stopped {A} (stop : agent A) (k : string) (r : nat)
      (m m' : machine state) (reply : outcome A) (line : string)
      (failed : exn -> string) :
  Dict.lookup k (registry (self m)) = Some (HRef r) ->
  stop m = (reply, m', []) ->
  Dict.lookup "status" (deref (store (self m')) r)
  = Some (HVal (VStr "stopped")) ->
  try_except
    (active <- monitor_is_active_amid undisturbed (meanwhile stop) k ;;
     if active then log_info line ;; ret true else ret false)
    (fun e => monitor_failed k (failed e) ;; ret false) m
  = (Ok false, m', []).
Proof.
  intros Hk Hstop Hstatus.
  apply (wp_run _ m (fun run => run = _)).
  unfold monitor_is_active_amid, undisturbed, read. wp_steps.
  fold (registry (self m)).
  replace (Dict.mem k (registry (self m))) with true
    by (unfold Dict.mem; now rewrite Hk).
  wp_steps. fold (registry (self m)).
  unfold item at 1. cbn [hashable]. rewrite Hk. wp_steps.
  eapply wp_meanwhile; [exact Hstop|]. wp_steps.
  unfold item. cbn [hashable]. rewrite Hstatus. wp_steps.
  reflexivity.
Qed.

(** X23. Stopping a monitor ends its loop, wherever the stop falls among
    the three reads of the loop's test.  A turn begun after
    [_stop_monitoring] took the monitor out finds it gone and ends the
    loop without a log line.  A turn that had passed the membership test
    when the stop came fails at the subscript: the loop ends through its
    [except] branch, with one logged [Error in ... monitor <id>: '<id>'],
    and writes no status.  A turn that had the record in hand reads the
    status [stopped] and ends without a log line.  In each case the turn
    answers that the loop is over and leaves the agent as the stop left
    it.  With no other thread between its reads, a turn is the turn of
    the agent.  The stop is taken as one step of the other thread, placed
    in a gap between two reads. *)
Theorem stop_ends_the_loop :
  forall (user_input : string) (parameters context : dict) (k : string)
         (r : nat) (protocol_name condition : value)
         (device_name parameter interval : value) (m : machine state),
    valid (self m) ->
    Dict.lookup "monitor_id" parameters = Some (VStr k) ->
    k <> EmptyString ->
    Dict.lookup k (registry (self m)) = Some (HRef r) ->
    let stop := _stop_monitoring user_input parameters context in
    let stopped_agent := final (stop m) in
    (_conditional_monitor_loop_turn k protocol_name condition stopped_agent
     = (Ok false, stopped_agent, [])
     /\ _device_monitor_loop_turn k device_name parameter interval
                                  stopped_agent
        = (Ok false, stopped_agent, []))
    /\
    (_conditional_monitor_loop_turn_amid (meanwhile stop) undisturbed k
       protocol_name condition m
     = (Ok false, stopped_agent,
        [EvLog "error"
           (Str.cat ["Error in conditional monitor "; k; ": ";
                     repr (VStr k)])])
     /\ _device_monitor_loop_turn_amid (meanwhile stop) undisturbed k
          device_name parameter interval m
        = (Ok false, stopped_agent,
           [EvLog "error"
              (Str.cat ["Error in device monitor "; k; ": ";
                        repr (VStr k)])]))
    /\
    (_conditional_monitor_loop_turn_amid undisturbed (meanwhile stop) k
       protocol_name condition m
     = (Ok false, stopped_agent, [])
     /\ _device_monitor_loop_turn_amid undisturbed (meanwhile stop) k
          device_name parameter interval m
        = (Ok false, stopped_agent, []))
    /\
    (_conditional_monitor_loop_turn_amid undisturbed undisturbed k
       protocol_name condition m
     = _conditional_monitor_loop_turn k protocol_name condition m
     /\ _device_monitor_loop_turn_amid undisturbed undisturbed k
          device_name parameter interval m
        = _device_monitor_loop_turn k device_name parameter interval m).
Proof.
  intros user_input parameters context k r protocol_name condition
         device_name parameter interval m Hvalid Hid Hne Hk stop
         stopped_agent.
  destruct (stop_named_run user_input parameters context k r m
              Hvalid Hid Hne Hk)
    as (m' & Hrun & Hgone & Hactive & Hstatus).
  assert (Hmem : Dict.mem k (registry (self m)) = true)
    by (unfold Dict.mem; now rewrite Hk).
  subst stopped_agent stop. rewrite Hrun. cbn [final fst snd].
  split; [|split; [|split; [|apply undisturbed_turns]]].
  - unfold _conditional_monitor_loop_turn, _device_monitor_loop_turn,
      try_except, bind.
    now rewrite (monitor_is_active_absent k _ Hgone).
  - split.
    + exact (turn_loses_monitor _ k m m' _ _
               (fun e => Str.cat ["Error in conditional monitor "; k; ": ";
                                  str_exn e])
               Hmem Hrun Hgone Hactive).
    + exact (turn_loses_monitor _ k m m' _ _
               (fun e => Str.cat ["Error in device monitor "; k; ": ";
                                  str_exn e])
               Hmem Hrun Hgone Hactive).
  - split.
    + exact (turn_reads_stopped _ k r m m' _ _
               (fun e => Str.cat ["Error in conditional monitor "; k; ": ";
                                  str_exn e])
               Hk Hrun Hstatus).
    + exact (turn_reads_stopped _ k r m m' _ _
               (fun e => Str.cat ["Error in device monitor "; k; ": ";
                                  str_exn e])
               Hk Hrun Hstatus).
Qed.

(** X24. A monitor that was just created keeps its loop going: the first
    turn of the loop finds the monitor active, logs the condition it
    watches and leaves the agent as it is. *)
Theorem created_monitor_loop_runs :
  forall (w : world) (protocol_name condition : value) (context : dict)
         (m : machine state),
    coherent (self m) ->
    let created :=
      _create_conditional_monitor w protocol_name condition context m in
    exists id,
      result created = Ok id
      /\ _conditional_monitor_loop_turn id protocol_name condition
                                        (final created)
         = (Ok true, final created,
            [EvLog "info"
               (Str.cat ["Monitoring condition '"; str condition;
                         "' for protocol '"; str protocol_name; "'"])]).
Proof.
  intros w protocol_name condition context m Hcoh.
  destruct (create_conditional_effect w protocol_name condition context m
              Hcoh)
    as (m1 & Hrun & _ & _ & Hreg & _ & Hrec & _).
  cbv zeta. rewrite Hrun. cbn [final fst snd result].
  eexists. split; [reflexivity|].
  unfold _conditional_monitor_loop_turn, try_except, bind.
  rewrite (monitor_is_active_registered _ "active"
             (length (store (self m))) m1).
  - reflexivity.
  - rewrite Hreg. apply DictFacts.lookup_assign_same.
  - exact (eq_trans (f_equal (Dict.lookup "status") Hrec) eq_refl).
Qed.

(** *** Stopping every monitor *)

Lemma stop_monitor_coherent (k : string) (r : nat) (m : machine state) :
  coherent (self m) ->
  Dict.lookup k (registry (self m)) = Some (HRef r) ->
  exists m',
    _stop_monitor (VStr k) m = (Ok tt, m', [])
    /\ coherent (self m')
    /\ registry (self m') = Dict.remove k (registry (self m))
    /\ stopped (self m') r
    /\ forall r', r' <> active_monitors (self m) ->
                  r' <> monitoring_threads (self m) ->
                  stopped (self m) r' -> stopped (self m') r'.
Proof.
  intros [Hvalid Hsync] Hk.
  destruct (stop_monitor_effect k r m Hvalid Hk)
    as (m' & Hrun & _ & Hvalid' & Hreg & Hthr & Ha & Hb & _ & Hrec & Hrest).
  exists m'. split; [exact Hrun|]. split; [|split; [exact Hreg|split]].
  - split; [exact Hvalid'|]. unfold synced in *. rewrite Hreg, Hthr.
    now apply MoreDictFacts.keys_remove_both.
  - unfold stopped. rewrite Hrec. apply DictFacts.lookup_assign_same.
  - intros r' Hra Hrb Hmarked. unfold stopped in *.
    destruct (Nat.eq_dec r' r) as [->|Hne].
    + rewrite Hrec. apply DictFacts.lookup_assign_same.
    + now rewrite Hrest.
Qed.

Lemma stop_each_coherent (entries : object) :
  forall m : machine state,
    coherent (self m) ->
    registry (self m) = entries ->
    exists m',
      for_each (Dict.keys entries) (fun mid => _stop_monitor (VStr mid)) m
      = (Ok tt, m', [])
      /\ coherent (self m')
      /\ registry (self m') = []
      /\ (forall r', r' <> active_monitors (self m) ->
                     r' <> monitoring_threads (self m) ->
                     stopped (self m) r' -> stopped (self m') r')
      /\ forall k r, In (k, HRef r) entries -> stopped (self m') r.
Proof.
  induction entries as [|[k slot] rest IH]; intros m Hcoh Hreg.
  - exists m. split; [reflexivity|]. split; [exact Hcoh|].
    split; [exact Hreg|]. split; [auto | intros k r []].
  - destruct (registered_is_record (self m) k slot (proj1 Hcoh))
      as (r & -> & Hr & Hra & Hrb).
    { rewrite Hreg. simpl. now rewrite String.eqb_refl. }
    assert (Hk : Dict.lookup k (registry (self m)) = Some (HRef r)).
    { rewrite Hreg. simpl. now rewrite String.eqb_refl. }
    destruct (stop_monitor_effect k r m (proj1 Hcoh) Hk)
      as (m1' & Hrun1' & _ & _ & _ & _ & Ha1 & Hb1 & _).
    destruct (stop_monitor_coherent k r m Hcoh Hk)
      as (m1 & Hrun1 & Hcoh1 & Hreg1 & Hmark1 & Hkeep1).
    assert (m1' = m1) by congruence. subst m1'.
    rewrite Hreg, DictFacts.remove_head in Hreg1.
    destruct (IH m1 Hcoh1 Hreg1)
      as (m2 & Hrun2 & Hcoh2 & Hreg2 & Hkeep2 & Hmark2).
    exists m2. split.
    { cbn [Dict.keys map for_each fst]. unfold bind.
      rewrite Hrun1. fold (Dict.keys rest). rewrite Hrun2. reflexivity. }
    split; [exact Hcoh2|]. split; [exact Hreg2|]. split.
    + intros r' H1 H2 Hs. apply Hkeep2; [congruence | congruence |].
      now apply Hkeep1.
    + intros k' r' [[= <- <-] | Hin].
      * apply Hkeep2; [congruence | congruence | exact Hmark1].
      * eapply Hmark2; eassumption.
Qed.

(** X17. A stop request without an identifier: with an empty registry
    nothing happens and the reply says so; otherwise every monitor is
    taken out of the registry and of the table of threads, every record
    that was registered is marked as stopped, and the reply lists the
    identifiers in the order of their registration. *)
Theorem stop_all_monitors :
  forall (user_input : string) (parameters context : dict)
         (m : machine state),
    coherent (self m) ->
    truthy (dget parameters "monitor_id" (VStr EmptyString)) = false ->
    let run := _stop_monitoring user_input parameters context m in
    (registry (self m) = [] -> run = (Ok no_active_message, m, []))
    /\ (registry (self m) <> [] ->
        result run
        = Ok (Str.cat ["🛑 Stopped all monitoring tasks: ";
                       str (VList (map VStr (Dict.keys (registry (self m)))))])
        /\ trace run = []
        /\ registry (self (final run)) = []
        /\ threads (self (final run)) = []
        /\ coherent (self (final run))
        /\ forall k r,
            Dict.lookup k (registry (self m)) = Some (HRef r) ->
            stopped (self (final run)) r).
Proof.
  intros user_input parameters context m Hcoh Hnone.
  destruct (stop_each_coherent _ m Hcoh eq_refl)
    as (m' & Hrun & Hcoh' & Hempty & _ & Hmarked).
  apply wp_run. unfold _stop_monitoring. rewrite Hnone.
  unfold read. wp_steps. fold (registry (self m)).
  cbn [negb andb].
  destruct (registry (self m)) as [|entry rest] eqn:Hreg.
  - wp_steps. split; [intros _; now destruct m | intros Hne; now contradiction Hne].
  - rewrite <- Hreg in *. wp_step.
    eapply wp_known; [exact Hrun|]. cbv beta iota. wp_steps.
    cbn [result final trace fst snd app].
    split; [rewrite Hreg; discriminate|]. intros _.
    split; [reflexivity|]. split; [reflexivity|]. split; [exact Hempty|].
    split; [|split; [exact Hcoh'|]].
    + destruct Hcoh' as [_ Hsync]. unfold synced in Hsync.
      rewrite Hempty in Hsync. cbn in Hsync.
      destruct (threads (self m')); [reflexivity | discriminate].
    + intros k r Hk. apply (Hmarked k r).
      now apply DictFacts.lookup_In.
Qed.

(** *** The two tables stay in step *)

Lemma coherent_init : coherent init.
Proof. split; [exact valid_init | reflexivity]. Qed.

Lemma monitor_failed_coherent (monitor_id message : string)
      (m : machine state) :
  coherent (self m) ->
  wp (monitor_failed monitor_id message) m
     (fun _ m' _ => coherent (self m')).
Proof.
  destruct m as [ticks0 [lu h a b c]]. cbn [self]. intros [Hvalid Hsync].
  pose proof Hvalid as Hfields. rewrite valid_fields in Hfields.
  destruct Hfields as (Ha & Hb & Hab & Hwf & Hrefs).
  unfold monitor_failed, set_status, read, write. wp_steps.
  cbn [self store active_monitors].
  destruct (Dict.mem monitor_id (deref h a)) eqn:Hmem;
    [|wp_steps; now split].
  apply DictFacts.mem_lookup in Hmem. destruct Hmem as (slot & Hslot).
  rewrite Forall_forall in Hrefs.
  destruct (Hrefs _ (DictFacts.lookup_In _ _ _ Hslot))
    as (r & Hr & Hlt & Hra & Hrb).
  cbn [snd] in Hr. subst slot.
  wp_steps. cbn [self store active_monitors].
  unfold item. cbn [hashable]. rewrite Hslot. wp_steps.
  unfold coherent, synced, registry, threads, with_store in *.
  cbn [self store active_monitors monitoring_threads last_used
       condition_handlers] in *.
  split.
  - apply valid_same_registry with (h := h);
      [apply length_update | | exact Hvalid].
    now apply deref_update_other.
  - now rewrite !deref_update_other by assumption.
Qed.

Section Coherent.
Variable w : world.
Variables (user_input : string) (parameters context : dict).

Lemma inspect_keeps_coherent :
  keeps coherent (_inspect_protocol w user_input parameters context).
Proof. unfold _inspect_protocol. keeps_auto. Qed.

Lemma analyze_keeps_coherent :
  keeps coherent
        (_analyze_measurement_request w user_input parameters context).
Proof. unfold _analyze_measurement_request. keeps_auto. Qed.

Lemma create_conditional_keeps_coherent protocol_name condition :
  keeps coherent
        (_create_conditional_monitor w protocol_name condition context).
Proof.
  intros m Hm.
  destruct (create_conditional_effect w protocol_name condition context m Hm)
    as (m' & Hrun & _ & Hcoh & _).
  now rewrite Hrun.
Qed.

Lemma create_device_keeps_coherent device_name parameter interval :
  keeps coherent
        (_create_device_monitor w device_name parameter interval context).
Proof.
  intros m Hm.
  destruct (create_device_effect w device_name parameter interval context
              m Hm) as (m' & Hrun & Hcoh & _).
  now rewrite Hrun.
Qed.

Lemma setup_conditional_keeps_coherent :
  keeps coherent
        (_setup_conditional_execution w user_input parameters context).
Proof.
  unfold _setup_conditional_execution. cbv zeta.
  repeat first [apply create_conditional_keeps_coherent | keeps_step].
Qed.

Lemma setup_device_keeps_coherent :
  keeps coherent (_setup_device_monitoring w user_input parameters context).
Proof.
  unfold _setup_device_monitoring. cbv zeta.
  repeat first [apply create_device_keeps_coherent | keeps_step].
Qed.

Lemma stop_monitoring_keeps_coherent :
  keeps coherent (_stop_monitoring user_input parameters context).
Proof.
  apply keeps_wp. intros m Hm. unfold _stop_monitoring. cbv zeta.
  unfold read. wp_step. wp_step. wp_step. wp_step. wp_step. wp_step.
  fold (registry (self m)).
  destruct (truthy (dget parameters "monitor_id" (VStr EmptyString))) eqn:Hid.
  - wp_step.
    destruct (dget parameters "monitor_id" (VStr EmptyString)) as [| | | |k| |];
      cbn [has hashable]; try exact Hm.
    destruct (Dict.mem k (registry (self m))) eqn:Hmem.
    + apply DictFacts.mem_lookup in Hmem. destruct Hmem as (slot & Hslot).
      destruct (registered_is_record _ _ _ (proj1 Hm) Hslot)
        as (r & -> & _).
      destruct (stop_monitor_coherent k r m Hm Hslot)
        as (m1 & Hrun & Hcoh & _).
      wp_steps. eapply wp_known; [exact Hrun|]. cbv beta iota.
      wp_steps. exact Hcoh.
    + cbn [negb andb]. wp_steps. exact Hm.
  - wp_step. cbn [negb andb].
    destruct (registry (self m)) as [|entry rest] eqn:Hreg.
    + wp_steps. exact Hm.
    + rewrite <- Hreg.
      destruct (stop_each_coherent _ m Hm eq_refl)
        as (m1 & Hrun & Hcoh & _).
      wp_steps. eapply wp_known; [exact Hrun|]. cbv beta iota.
      wp_steps. exact Hcoh.
Qed.

Lemma stamp_keeps_coherent : keeps coherent (stamp_last_used w).
Proof. intros [ticks0 [lu h a b c]] Hm. exact Hm. Qed.

Lemma process_request_keeps_coherent :
  keeps coherent (process_request w user_input parameters context).
Proof.
  unfold process_request, dispatch, call.
  repeat first
         [ apply stamp_keeps_coherent
         | apply inspect_keeps_coherent
         | apply setup_conditional_keeps_coherent
         | apply setup_device_keeps_coherent
         | apply stop_monitoring_keeps_coherent
         | apply analyze_keeps_coherent
         | keeps_step ].
Qed.

End Coherent.

(** X25. The registry and the table of threads always list the same
    monitors in the same order, and each registered monitor refers to a
    record of the store that is neither of the two tables: this holds of
    the agent [__init__] makes, and every request and every turn of a
    monitor loop keeps it. *)
Theorem tables_stay_in_step :
  coherent init
  /\ (forall (w : world) (user_input : string) (parameters context : dict)
             (m : machine state),
         coherent (self m) ->
         coherent
           (self (final (process_request w user_input parameters context
                                         m))))
  /\ (forall (id : string) (protocol_name condition : value)
             (m : machine state),
         coherent (self m) ->
         coherent
           (self (final (_conditional_monitor_loop_turn
                           id protocol_name condition m))))
  /\ (forall (id : string) (device_name parameter interval : value)
             (m : machine state),
         coherent (self m) ->
         coherent
           (self (final (_device_monitor_loop_turn
                           id device_name parameter interval m)))).
Proof.
  split; [exact coherent_init|]. split; [|split].
  - intros w user_input parameters context m Hm.
    now apply process_request_keeps_coherent.
  - intros id protocol_name condition m Hm.
    apply (wp_run (_conditional_monitor_loop_turn id protocol_name condition)
             m (fun run => coherent (self (final run)))).
    unfold _conditional_monitor_loop_turn. wp_step. wp_step.
    eapply wp_mono; [exact (monitor_is_active_run id m (proj1 Hm))|].
    intros [active|e] m1 t1 (-> & ->).
    + destruct active; wp_steps; exact Hm.
    + wp_step. eapply wp_mono; [exact (monitor_failed_coherent _ _ m Hm)|].
      intros [[]|e'] m1 t1 Hkept; wp_steps; exact Hkept.
  - intros id device_name parameter interval m Hm.
    apply (wp_run (_device_monitor_loop_turn id device_name parameter
                                             interval)
             m (fun run => coherent (self (final run)))).
    unfold _device_monitor_loop_turn. wp_step. wp_step.
    eapply wp_mono; [exact (monitor_is_active_run id m (proj1 Hm))|].
    intros [active|e] m1 t1 (-> & ->).
    + destruct active; wp_steps; exact Hm.
    + wp_step. eapply wp_mono; [exact (monitor_failed_coherent _ _ m Hm)|].
      intros [[]|e'] m1 t1 Hkept; wp_steps; exact Hkept.
Qed.

End MonitorLife.

(** ** The theorems at work on concrete requests *)

Module Witnesses.

Import Py Eff Obs Examples.

Module PA := ProtocolAgent.
Module MC := MeasurementControlAgent.

(** The agent of [Examples.two_monitors] is in the shape every method
    keeps. *)
Lemma two_monitors_valid : valid (self two_monitors).
Proof.
  unfold valid. cbn. repeat split; try lia.
  - unfold Dict.wf. cbn. repeat constructor; cbn; intuition discriminate.
  - repeat constructor; cbn; eexists; (split; [reflexivity|]); cbn; lia.
Defined.

(** C1 on a request to run [scan] while no sample is active. *)
Lemma no_sample_no_host_run_witness :
  let ss := [("protocols", VDict two_protocols);
             ("active_sample", VStr "None")] in
  Dict.lookup "system_state" snapshot_no_sample = Some (VDict ss)
  /\ Dict.lookup "active_sample" ss = Some (VStr "None")
  /\ host_calls
       (trace (PA._run_protocol answering "run scan"
                 [("protocol_name", VStr "scan")] snapshot_no_sample
                 protocol_agent)) = []
  /\ host_calls
       (trace (PA.process_request answering "run scan"
                 [("protocol_name", VStr "scan")] snapshot_no_sample
                 protocol_agent)) = [].
Proof.
  cbv zeta. split; [reflexivity|]. split; [reflexivity|].
  apply (ProtocolAgentFacts.no_sample_no_host_run answering "run scan"
           [("protocol_name", VStr "scan")] snapshot_no_sample
           [("protocols", VDict two_protocols);
            ("active_sample", VStr "None")] protocol_agent);
    reflexivity.
Defined.

(** C2 on a request to inspect [ghost], which is not loaded. *)
Lemma inspect_unknown_protocol_witness :
  Dict.lookup "protocol_name" [("protocol_name", VStr "ghost")]
  = Some (VStr "ghost")
  /\ "ghost" <> EmptyString
  /\ snapshot_protocols snapshot_no_sample = Ok (VDict two_protocols)
  /\ ~ In "ghost" (Dict.keys two_protocols)
  /\ (exists msg,
         result (PA._inspect_protocol answering "inspect ghost"
                   [("protocol_name", VStr "ghost")] snapshot_no_sample
                   protocol_agent) = Ok msg
         /\ Str.occurs "['scan', 'anneal']" msg)
  /\ (exists msg,
         result (MC._inspect_protocol answering "inspect ghost"
                   [("protocol_name", VStr "ghost")] snapshot_no_sample
                   control_agent) = Ok msg
         /\ Str.occurs "['scan', 'anneal']" msg).
Proof.
  assert (Hnew : ~ In "ghost" (Dict.keys two_protocols))
    by (cbn; intuition discriminate).
  assert (Hne : "ghost" <> EmptyString) by discriminate.
  destruct (AgentFacts.inspect_unknown_protocol_lists_names answering
              "inspect ghost" [("protocol_name", VStr "ghost")]
              snapshot_no_sample "ghost" two_protocols
              eq_refl Hne eq_refl Hnew) as [Hpa Hmc].
  split; [reflexivity|]. split; [exact Hne|].
  split; [reflexivity|]. split; [exact Hnew|].
  split.
  - destruct (Hpa protocol_agent) as (msg & Hmsg & Hlist & _).
    exists msg. auto.
  - destruct (Hmc control_agent) as (msg & Hmsg & Hlist & _).
    exists msg. auto.
Defined.

(** C3 on a request to stop [ghost] while two other monitors run: both
    are registered and active, and the reply says that no monitoring task
    is active. *)
Lemma stop_unregistered_monitor_witness :
  Dict.lookup "monitor_id" [("monitor_id", VStr "ghost")]
  = Some (VStr "ghost")
  /\ "ghost" <> EmptyString
  /\ Dict.mem "ghost" (MC.registry (self two_monitors)) = false
  /\ MC.registry (self two_monitors)
     = [("conditional_scan_090500", MC.HRef 3);
        ("device_gauge_090502", MC.HRef 4)]
  /\ Dict.lookup "status" (MC.deref (MC.store (self two_monitors)) 3)
     = Some (MC.HVal (VStr "active"))
  /\ Dict.lookup "status" (MC.deref (MC.store (self two_monitors)) 4)
     = Some (MC.HVal (VStr "active"))
  /\ MC._stop_monitoring "stop ghost" [("monitor_id", VStr "ghost")] []
                         two_monitors
     = (Ok "ℹ️ No active monitoring tasks to stop.", two_monitors, []).
Proof.
  assert (Hne : "ghost" <> EmptyString) by discriminate.
  split; [reflexivity|]. split; [exact Hne|]. split; [reflexivity|].
  split; [reflexivity|]. split; [reflexivity|]. split; [reflexivity|].
  apply (MonitorFacts.stop_unregistered_monitor "stop ghost"
           [("monitor_id", VStr "ghost")] [] "ghost" two_monitors
           eq_refl Hne eq_refl).
Defined.

(** C4 on an intent neither agent knows, and on requests whose intent
    the protocol agent has to find for itself. *)
Lemma unknown_intent_falls_back_once_witness :
  let history :=
    [("system_state", VDict []);
     ("conversation_history",
      VList [VDict [("intent", VStr "run_protocol")];
             VDict [("intent", VStr "protocol_status")]])] in
  snapshot_intent (snapshot_with "dance") = Ok (VStr "dance")
  /\ unknown_to MC.known_intents (VStr "dance")
  /\ PA.resolve_intent "shall we" (snapshot_with "dance") = Ok (VStr "dance")
  /\ unknown_to PA.known_intents (VStr "dance")
  /\ result (MC.process_request answering "shall we" []
               (snapshot_with "dance") control_agent)
     = Ok (Str.cat ["🔬 Measurement Control Analysis:"; Str.nl; Str.nl;
                    "Looks fine."])
  /\ thread_starts
       (trace (MC.process_request answering "shall we" []
                 (snapshot_with "dance") control_agent)) = []
  /\ result (PA.process_request answering "shall we" []
               (snapshot_with "dance") protocol_agent)
     = Ok "🔬 Protocol Information: Looks fine."
  /\ host_calls
       (trace (PA.process_request answering "shall we" []
                 (snapshot_with "dance") protocol_agent)) = []
  /\ PA.resolve_intent "shall we" history = Ok (VStr "protocol_status")
  /\ undetermined snapshot_no_sample
  /\ PA.resolve_intent "Show me the protocols I can run" snapshot_no_sample
     = Ok (VStr "list_protocols")
  /\ PA.resolve_intent "Execute the scan" snapshot_no_sample
     = Ok (VStr "run_protocol")
  /\ PA.resolve_intent "examine the scan" snapshot_no_sample
     = Ok (VStr "inspect_protocol")
  /\ PA.resolve_intent "shall we" snapshot_no_sample = Ok (VStr "unknown").
Proof.
  cbv zeta.
  assert (Hmc : unknown_to MC.known_intents (VStr "dance")).
  { intros k Hk. cbn in Hk.
    repeat (destruct Hk as [<- | Hk]; [reflexivity|]). contradiction. }
  assert (Hpa : unknown_to PA.known_intents (VStr "dance")).
  { intros k Hk. cbn in Hk.
    repeat (destruct Hk as [<- | Hk]; [reflexivity|]). contradiction. }
  assert (Hnone : undetermined snapshot_no_sample)
    by (split; [reflexivity | left; reflexivity]).
  destruct (AgentFacts.unknown_intent_falls_back_once answering "shall we" []
              (snapshot_with "dance"))
    as (Hcontrol & Hprotocol & _).
  destruct (Hcontrol (VStr "dance") control_agent eq_refl Hmc)
    as ((_ & _ & Hreply1) & Hthreads & _).
  destruct (Hprotocol (VStr "dance") protocol_agent eq_refl Hpa)
    as ((_ & _ & Hreply2) & Hhost & _).
  split; [reflexivity|]. split; [exact Hmc|].
  split; [reflexivity|]. split; [exact Hpa|].
  split; [rewrite Hreply1; reflexivity|]. split; [exact Hthreads|].
  split; [rewrite Hreply2; reflexivity|]. split; [exact Hhost|].
  split.
  { destruct (AgentFacts.unknown_intent_falls_back_once answering "shall we"
                []
                [("system_state", VDict []);
                 ("conversation_history",
                  VList [VDict [("intent", VStr "run_protocol")];
                         VDict [("intent", VStr "protocol_status")]])])
      as (_ & _ & _ & Hhistory & _).
    exact (Hhistory [VDict [("intent", VStr "run_protocol")]]
             [("intent", VStr "protocol_status")] (VStr "protocol_status")
             eq_refl eq_refl eq_refl eq_refl). }
  split; [exact Hnone|].
  split.
  { destruct (AgentFacts.unknown_intent_falls_back_once answering
                "Show me the protocols I can run" [] snapshot_no_sample)
      as (_ & _ & _ & _ & Hwords).
    destruct (Hwords Hnone) as (Hlist & _). exact (Hlist eq_refl). }
  split.
  { destruct (AgentFacts.unknown_intent_falls_back_once answering
                "Execute the scan" [] snapshot_no_sample)
      as (_ & _ & _ & _ & Hwords).
    destruct (Hwords Hnone) as (_ & Hrun & _). exact (Hrun eq_refl eq_refl). }
  split.
  { destruct (AgentFacts.unknown_intent_falls_back_once answering
                "examine the scan" [] snapshot_no_sample)
      as (_ & _ & _ & _ & Hwords).
    destruct (Hwords Hnone) as (_ & _ & Hinspect & _).
    exact (Hinspect eq_refl eq_refl eq_refl). }
  destruct (AgentFacts.unknown_intent_falls_back_once answering
              "shall we" [] snapshot_no_sample)
    as (_ & _ & _ & _ & Hwords).
  destruct (Hwords Hnone) as (_ & _ & _ & Hnothing).
  exact (Hnothing eq_refl eq_refl eq_refl).
Defined.

(** C5 on a request whose protocol name is a list: the membership test of
    [_inspect_protocol] raises [TypeError], and the router answers with its
    error text. *)
Lemma process_request_contains_failures_witness :
  let parameters := [("protocol_name", VList [VInt 1])] in
  let e := Exn "TypeError" "unhashable type: 'list'" in
  result (PA.dispatch answering "inspect it" parameters
            (snapshot_with "inspect_protocol")
            (final (PA.stamp_last_used answering protocol_agent)))
  = Raise e
  /\ result (PA.process_request answering "inspect it" parameters
               (snapshot_with "inspect_protocol") protocol_agent)
     = Ok "I encountered an error while processing your protocol request: unhashable type: 'list'. Please try again."
  /\ result (MC.dispatch answering "inspect it" parameters
               (snapshot_with "inspect_protocol")
               (final (MC.stamp_last_used answering control_agent)))
     = Raise e
  /\ result (MC.process_request answering "inspect it" parameters
               (snapshot_with "inspect_protocol") control_agent)
     = Ok "I encountered an error while processing your measurement control request: unhashable type: 'list'. Please try again.".
Proof.
  cbv zeta.
  destruct (AgentFacts.process_request_contains_failures answering
              "inspect it" [("protocol_name", VList [VInt 1])]
              (snapshot_with "inspect_protocol"))
    as (_ & _ & Hpa & Hmc).
  split; [reflexivity|].
  split;
    [exact (Hpa protocol_agent (Exn "TypeError" "unhashable type: 'list'")
              eq_refl)|].
  split; [reflexivity|].
  exact (Hmc control_agent (Exn "TypeError" "unhashable type: 'list'")
           eq_refl).
Defined.

(** C6 on a request with a protocol name and a condition taken from the
    request, answered by the model. *)
Lemma conditional_setup_registers_iff_witness :
  valid (self control_agent)
  /\ started_and_registered
       (MC._setup_conditional_execution answering "run scan until cold"
          [("protocol_name", VStr "scan")]
          (snapshot_with "conditional_execution") control_agent).
Proof.
  split; [exact MonitorFacts.valid_init|].
  destruct (MonitorFacts.conditional_setup_registers_iff answering
              "run scan until cold" [("protocol_name", VStr "scan")]
              (snapshot_with "conditional_execution") control_agent
              MonitorFacts.valid_init) as [[_ Hreg] _].
  apply Hreg. split; [reflexivity|].
  exists "Looks fine.". eexists. split; [left; reflexivity | reflexivity].
Defined.

(** C7 on a fresh agent. *)
Lemma conditional_monitor_is_listed_witness :
  valid (self control_agent)
  /\ exists id,
      result (MC._create_conditional_monitor answering (VStr "scan")
                (VStr "stop when pressure<1e-9") [] control_agent) = Ok id
      /\ Str.occurs "conditional" id
      /\ Str.occurs "scan" id.
Proof.
  split; [exact MonitorFacts.valid_init|].
  destruct (MonitorFacts.conditional_monitor_is_listed answering "scan"
              "stop when pressure<1e-9" [] control_agent
              MonitorFacts.valid_init) as (id & Hid & Hc & Hp & _).
  exists id. auto.
Defined.

(** C8 on the agent with two monitors. *)
Lemma stop_all_empties_registry_witness :
  truthy (dget [] "monitor_id" (VStr EmptyString)) = false
  /\ valid (self two_monitors)
  /\ MC.registry (self two_monitors)
     = [("conditional_scan_090500", MC.HRef 3);
        ("device_gauge_090502", MC.HRef 4)]
  /\ MC.registry
       (self (final (MC._stop_monitoring "stop everything" [] []
                       two_monitors))) = [].
Proof.
  split; [reflexivity|]. split; [exact two_monitors_valid|].
  split; [reflexivity|].
  apply (MonitorFacts.stop_all_empties_registry "stop everything" [] []
           two_monitors "conditional_scan_090500" "device_gauge_090502"
           (MC.HRef 3) (MC.HRef 4) eq_refl two_monitors_valid eq_refl).
Defined.

(** C9 on a model that cannot be reached. *)
Lemma listing_falls_back_to_bullets_witness :
  let e := Exn "ConnectionError" "connection refused" in
  let run := PA._list_protocols unreachable "list protocols" []
               snapshot_no_sample protocol_agent in
  snapshot_protocols snapshot_no_sample = Ok (VDict two_protocols)
  /\ two_protocols <> []
  /\ model_failed unreachable (trace run) e
  /\ exists msg,
      result run = Ok msg
      /\ Str.occurs (PA.bullet_list ["scan"; "anneal"]) msg.
Proof.
  cbv zeta.
  assert (Hsome : two_protocols <> []) by discriminate.
  assert (Hfailed :
            model_failed unreachable
              (trace (PA._list_protocols unreachable "list protocols" []
                        snapshot_no_sample protocol_agent))
              (Exn "ConnectionError" "connection refused")).
  { eexists. split; [left; reflexivity | reflexivity]. }
  split; [reflexivity|]. split; [exact Hsome|]. split; [exact Hfailed|].
  destruct (ProtocolAgentFacts.listing_falls_back_to_bullets unreachable
              "list protocols" [] snapshot_no_sample two_protocols
              (Exn "ConnectionError" "connection refused") protocol_agent
              eq_refl Hsome Hfailed) as (msg & Hmsg & _ & Hlist & _).
  exists msg. auto.
Defined.

(** C10 on the agent with two monitors: the caller empties the listing
    and the registry still has both. *)
Lemma listing_is_a_fresh_copy_witness :
  MC.active_monitors (self two_monitors)
  < length (MC.store (self two_monitors))
  /\ exists copy,
      result (MC.get_active_monitors two_monitors) = Ok copy
      /\ MC.deref
           (MC.apply_mutations copy [MC.Clear]
              (MC.store (self (final (MC.get_active_monitors
                                        two_monitors)))))
           (MC.active_monitors (self two_monitors))
         = MC.registry (self two_monitors).
Proof.
  assert (Hvalid : MC.active_monitors (self two_monitors)
                   < length (MC.store (self two_monitors)))
    by (cbn; lia).
  split; [exact Hvalid|].
  destruct (MonitorFacts.listing_is_a_fresh_copy two_monitors Hvalid)
    as (copy & Hcopy & _ & _ & _ & _ & Hkept).
  exists copy. split; [exact Hcopy | apply Hkept].
Defined.

End Witnesses.

(* ================================================================== *)
(** ** The further theorems at work on concrete requests *)

Module MoreWitnesses.

Import Py Eff Obs Examples Views Schedule Cases.

(** The agent of [Examples.two_monitors] has its two tables in step. *)
Lemma two_monitors_coherent : coherent (self two_monitors).
Proof. split; [exact Witnesses.two_monitors_valid | reflexivity]. Defined.

(** The model of [answering] has answered a run that called it. *)
Lemma answering_answered (t : list event) (prompt : string) :
  model_calls t = [prompt] -> model_answered answering t "Looks fine.".
Proof.
  intros Hcalls. exists prompt. rewrite Hcalls.
  split; [left; reflexivity | reflexivity].
Defined.

(** X1 on a request to run [ghost], which is not loaded. *)
Lemma run_refused_without_outward_call_witness :
  Dict.lookup "protocol_name" [("protocol_name", VStr "ghost")]
  = Some (VStr "ghost")
  /\ snapshot_protocols (snapshot_with "run_protocol")
     = Ok (VDict two_protocols)
  /\ ~ In "ghost" (Dict.keys two_protocols)
  /\ trace (PA._run_protocol answering "run ghost"
              [("protocol_name", VStr "ghost")]
              (snapshot_with "run_protocol") protocol_agent) = [].
Proof.
  assert (Hnew : ~ In "ghost" (Dict.keys two_protocols))
    by (cbn; intuition discriminate).
  split; [reflexivity|]. split; [reflexivity|]. split; [exact Hnew|].
  refine (proj1 (RunFacts.run_refused_without_outward_call answering
                   "run ghost" [("protocol_name", VStr "ghost")]
                   (snapshot_with "run_protocol") protocol_agent _)).
  right. exists "ghost", two_protocols.
  split; [reflexivity|]. split; [reflexivity | exact Hnew].
Defined.

(** X2 on a request to run [scan] while another protocol is running. *)
Lemma host_needs_executable_snapshot_witness :
  Dict.lookup "system_state" busy_context = Some (VDict busy_state)
  /\ executable busy_state = false
  /\ host_calls
       (trace (PA.process_request answering "run scan" naming_scan
                 busy_context protocol_agent)) = [].
Proof.
  split; [reflexivity|]. split; [reflexivity|].
  exact (proj2 (RunFacts.host_needs_executable_snapshot answering
                  "run scan" naming_scan busy_context busy_state
                  protocol_agent eq_refl eq_refl)).
Defined.

(** X3 on a request to run [scan] with a sample in place. *)
Lemma run_protocol_outcomes_witness :
  let run := PA._run_protocol answering "run scan" naming_scan
               (snapshot_with "run_protocol") protocol_agent in
  Dict.lookup "protocol_name" naming_scan = Some (VStr "scan")
  /\ "scan" <> EmptyString
  /\ Dict.lookup "system_state" (snapshot_with "run_protocol")
     = Some (VDict (state_with "run_protocol"))
  /\ dget (state_with "run_protocol") "protocols" (VDict [])
     = VDict two_protocols
  /\ In "scan" (Dict.keys two_protocols)
  /\ executable (state_with "run_protocol") = true
  /\ model_answered answering (trace run) "Looks fine."
  /\ host_calls (trace run) = [VStr "scan"].
Proof.
  cbv zeta.
  assert (Hne : "scan" <> EmptyString) by discriminate.
  assert (Hin : In "scan" (Dict.keys two_protocols)) by (left; reflexivity).
  assert (Hans :
            model_answered answering
              (trace (PA._run_protocol answering "run scan" naming_scan
                        (snapshot_with "run_protocol") protocol_agent))
              "Looks fine.").
  { eapply answering_answered. reflexivity. }
  split; [reflexivity|]. split; [exact Hne|]. split; [reflexivity|].
  split; [reflexivity|]. split; [exact Hin|]. split; [reflexivity|].
  split; [exact Hans|].
  destruct (RunFacts.run_protocol_outcomes answering "run scan" naming_scan
              (snapshot_with "run_protocol") (state_with "run_protocol")
              "scan" two_protocols "Looks fine." protocol_agent
              eq_refl Hne eq_refl eq_refl Hin eq_refl Hans)
    as (Hstarted & _).
  exact (proj1 (Hstarted eq_refl eq_refl)).
Defined.

(** X5 on a request that did reach the host. *)
Lemma host_reached_only_by_run_intent_witness :
  host_calls (trace (PA.process_request answering "run scan" naming_scan
                       (snapshot_with "run_protocol") protocol_agent))
  <> []
  /\ exists intent,
      PA.resolve_intent "run scan" (snapshot_with "run_protocol")
      = Ok intent
      /\ eq_str intent "run_protocol" = true.
Proof.
  assert (Hhost :
            host_calls
              (trace (PA.process_request answering "run scan" naming_scan
                        (snapshot_with "run_protocol") protocol_agent))
            <> []) by (vm_compute; discriminate).
  split; [exact Hhost|].
  exact (RequestFacts.host_reached_only_by_run_intent answering "run scan"
           naming_scan (snapshot_with "run_protocol") protocol_agent Hhost).
Defined.

(** X10 on a context whose [system_state] is [None]. *)
Lemma unreadable_snapshot_is_contained_witness :
  let e := AttributeError VNone "get" in
  snapshot_intent unreadable_context = Raise e
  /\ result (PA.process_request answering "run scan" naming_scan
               unreadable_context protocol_agent)
     = Ok (PA.request_error_message e)
  /\ model_calls
       (trace (MC.process_request answering "run scan" naming_scan
                 unreadable_context control_agent)) = [].
Proof.
  cbv zeta.
  destruct (RequestFacts.unreadable_snapshot_is_contained answering
              "run scan" naming_scan unreadable_context
              (AttributeError VNone "get") eq_refl) as (Hpa & Hmc).
  split; [reflexivity|]. split; [exact (proj2 (Hpa protocol_agent))|].
  rewrite (proj1 (Hmc control_agent)). reflexivity.
Defined.

(** X11 on a snapshot with an empty protocol map. *)
Lemma list_protocols_empty_witness :
  snapshot_protocols nothing_loaded = Ok (VDict [])
  /\ result (PA._list_protocols answering "list protocols" []
               nothing_loaded protocol_agent)
     = Ok PA.no_protocols_message.
Proof.
  split; [reflexivity|].
  exact (proj1 (RequestFacts.list_protocols_empty answering "list protocols"
                  [] nothing_loaded protocol_agent eq_refl)).
Defined.

(** X12 on the snapshot with two protocols. *)
Lemma list_protocols_answered_witness :
  let run := PA._list_protocols answering "list protocols" []
               snapshot_no_sample protocol_agent in
  snapshot_protocols snapshot_no_sample = Ok (VDict two_protocols)
  /\ two_protocols <> []
  /\ model_answered answering (trace run) "Looks fine."
  /\ result run
     = Ok (Str.cat ["📋 **Available Protocols ("; "2"; " found):**";
                    Str.nl; Str.nl; "Looks fine."]).
Proof.
  cbv zeta.
  assert (Hsome : two_protocols <> []) by discriminate.
  assert (Hans :
            model_answered answering
              (trace (PA._list_protocols answering "list protocols" []
                        snapshot_no_sample protocol_agent))
              "Looks fine.").
  { eapply answering_answered. reflexivity. }
  split; [reflexivity|]. split; [exact Hsome|]. split; [exact Hans|].
  exact (proj1 (RequestFacts.list_protocols_answered answering
                  "list protocols" [] snapshot_no_sample two_protocols
                  "Looks fine." protocol_agent eq_refl Hsome Hans)).
Defined.

(** X13 on a request that names no protocol. *)
Lemma inspect_without_a_name_witness :
  truthy (dget [] "protocol_name" VNone) = false
  /\ snapshot_protocols snapshot_no_sample = Ok (VDict two_protocols)
  /\ MC._inspect_protocol answering "inspect" [] snapshot_no_sample
                          control_agent
     = (Ok (Str.cat ["📋 I can inspect any of these protocols: ";
                     "['scan', 'anneal']";
                     ". Which one would you like to analyze?"]),
        control_agent, []).
Proof.
  split; [reflexivity|]. split; [reflexivity|].
  exact (proj2 (RequestFacts.inspect_without_a_name answering "inspect" []
                  snapshot_no_sample two_protocols eq_refl eq_refl)
               control_agent).
Defined.

(** X14 on a request to inspect [scan]. *)
Lemma inspect_loaded_protocol_witness :
  let run := PA._inspect_protocol answering "inspect scan" naming_scan
               snapshot_no_sample protocol_agent in
  Dict.lookup "protocol_name" naming_scan = Some (VStr "scan")
  /\ "scan" <> EmptyString
  /\ snapshot_protocols snapshot_no_sample = Ok (VDict two_protocols)
  /\ Dict.lookup "scan" two_protocols = Some (VDict [("steps", VInt 3)])
  /\ model_answered answering (trace run) "Looks fine."
  /\ result run
     = Ok (Str.cat ["🔍 Protocol Analysis for '"; "scan"; "':";
                    Str.nl; Str.nl; "Looks fine."]).
Proof.
  cbv zeta.
  assert (Hne : "scan" <> EmptyString) by discriminate.
  assert (Hans :
            model_answered answering
              (trace (PA._inspect_protocol answering "inspect scan"
                        naming_scan snapshot_no_sample protocol_agent))
              "Looks fine.").
  { eapply answering_answered. reflexivity. }
  split; [reflexivity|]. split; [exact Hne|]. split; [reflexivity|].
  split; [reflexivity|]. split; [exact Hans|].
  destruct (InspectFacts.inspect_loaded_protocol answering "inspect scan"
              naming_scan snapshot_no_sample "scan" two_protocols
              (VDict [("steps", VInt 3)]) eq_refl Hne eq_refl eq_refl)
    as (Hpa & _).
  destruct (Hpa protocol_agent) as (_ & _ & Hanswered & _).
  exact (Hanswered "Looks fine." Hans).
Defined.

(** X16 on the agent with two monitors, asked to stop the device
    monitor. *)
Lemma stop_named_monitor_witness :
  let parameters := [("monitor_id", VStr "device_gauge_090502")] in
  let run := MC._stop_monitoring "stop the gauge" parameters []
               two_monitors in
  valid (self two_monitors)
  /\ Dict.lookup "monitor_id" parameters
     = Some (VStr "device_gauge_090502")
  /\ "device_gauge_090502" <> EmptyString
  /\ Dict.lookup "device_gauge_090502" (MC.registry (self two_monitors))
     = Some (MC.HRef 4)
  /\ Dict.keys (MC.registry (self (final run)))
     = ["conditional_scan_090500"].
Proof.
  cbv zeta.
  assert (Hne : "device_gauge_090502" <> EmptyString) by discriminate.
  split; [exact Witnesses.two_monitors_valid|]. split; [reflexivity|].
  split; [exact Hne|]. split; [reflexivity|].
  destruct (MonitorLife.stop_named_monitor "stop the gauge"
              [("monitor_id", VStr "device_gauge_090502")] []
              "device_gauge_090502" 4 two_monitors
              Witnesses.two_monitors_valid eq_refl Hne eq_refl)
    as (_ & _ & _ & Hreg & _).
  rewrite Hreg. reflexivity.
Defined.

(** X17 on the agent with two monitors. *)
Lemma stop_all_monitors_witness :
  let run := MC._stop_monitoring "stop everything" [] [] two_monitors in
  coherent (self two_monitors)
  /\ truthy (dget [] "monitor_id" (VStr EmptyString)) = false
  /\ MC.threads (self (final run)) = []
  /\ stopped (self (final run)) 3
  /\ stopped (self (final run)) 4.
Proof.
  cbv zeta.
  split; [exact two_monitors_coherent|]. split; [reflexivity|].
  destruct (MonitorLife.stop_all_monitors "stop everything" [] []
              two_monitors two_monitors_coherent eq_refl) as (_ & Hall).
  destruct Hall as (_ & _ & _ & Hthreads & _ & Hmarked);
    [discriminate|].
  split; [exact Hthreads|].
  split; [apply (Hmarked "conditional_scan_090500" 3); reflexivity|].
  apply (Hmarked "device_gauge_090502" 4); reflexivity.
Defined.

(** X18 on a clock that stands still. *)
Lemma monitors_of_one_second_collide_witness :
  coherent (self control_agent)
  /\ strftime_HMS (clock frozen (ticks control_agent))
     = strftime_HMS (clock frozen (S (S (ticks control_agent))))
  /\ exists id,
      result (MC._create_conditional_monitor frozen (VStr "scan")
                (VStr "stop when cold") [] control_agent) = Ok id
      /\ result (MC._create_conditional_monitor frozen (VStr "scan")
                   (VStr "stop when warm") []
                   (final (MC._create_conditional_monitor frozen
                             (VStr "scan") (VStr "stop when cold") []
                             control_agent))) = Ok id.
Proof.
  split; [exact MonitorLife.coherent_init|]. split; [reflexivity|].
  destruct (MonitorLife.monitors_of_one_second_collide frozen (VStr "scan")
              (VStr "stop when cold") (VStr "stop when warm") []
              control_agent MonitorLife.coherent_init eq_refl)
    as (id & Hfirst & Hsecond & _).
  exists id. split; [exact Hfirst | exact Hsecond].
Defined.

(** X19 on a request that names a device, answered by the model. *)
Lemma device_setup_registers_iff_witness :
  valid (self control_agent)
  /\ loop_registered "_device_monitor_loop"
       (MC._setup_device_monitoring answering "watch the gauge"
          [("device", VStr "gauge")] (snapshot_with "monitor_devices")
          control_agent).
Proof.
  split; [exact MonitorFacts.valid_init|].
  destruct (MonitorLife.device_setup_registers_iff answering
              "watch the gauge" [("device", VStr "gauge")]
              (snapshot_with "monitor_devices") control_agent
              MonitorFacts.valid_init) as [[_ Hreg] _].
  apply Hreg. split; [reflexivity|].
  exists "Looks fine.". eapply answering_answered. reflexivity.
Defined.

(** X20 on a fresh agent. *)
Lemma device_monitor_is_listed_witness :
  valid (self control_agent)
  /\ exists id,
      result (MC._create_device_monitor answering (VStr "gauge")
                (VStr "pressure") (VFloat "1.0") [] control_agent) = Ok id
      /\ Str.occurs "device" id
      /\ Str.occurs "gauge" id.
Proof.
  split; [exact MonitorFacts.valid_init|].
  destruct (MonitorLife.device_monitor_is_listed answering "gauge"
              "pressure" (VFloat "1.0") [] control_agent
              MonitorFacts.valid_init) as (id & Hid & Hd & Hg & _).
  exists id. auto.
Defined.

(** X21 on the agent with two monitors: the caller marks the record of
    the listing as paused, and the agent finds its monitor paused. *)
Lemma listing_shares_the_records_witness :
  valid (self two_monitors)
  /\ Dict.lookup "conditional_scan_090500"
       (MC.registry (self two_monitors)) = Some (MC.HRef 3)
  /\ exists copy,
      result (MC.get_active_monitors two_monitors) = Ok copy
      /\ Dict.lookup "conditional_scan_090500"
           (MC.deref (MC.store (self (final (MC.get_active_monitors
                                               two_monitors)))) copy)
         = Some (MC.HRef 3).
Proof.
  split; [exact Witnesses.two_monitors_valid|]. split; [reflexivity|].
  destruct (MonitorLife.listing_shares_the_records
              "conditional_scan_090500" 3 (VStr "paused") two_monitors
              Witnesses.two_monitors_valid eq_refl)
    as (copy & Hcopy & _ & Hsame & _).
  exists copy. split; [exact Hcopy | exact Hsame].
Defined.

(** X23 on the agent with two monitors, asked to stop the conditional
    monitor before, amid and after the reads of its loop's test. *)
Lemma stop_ends_the_loop_witness :
  let parameters := [("monitor_id", VStr "conditional_scan_090500")] in
  let stop := MC._stop_monitoring "stop the scan" parameters [] in
  let stopped_agent := final (stop two_monitors) in
  valid (self two_monitors)
  /\ Dict.lookup "monitor_id" parameters
     = Some (VStr "conditional_scan_090500")
  /\ "conditional_scan_090500" <> EmptyString
  /\ Dict.lookup "conditional_scan_090500"
       (MC.registry (self two_monitors)) = Some (MC.HRef 3)
  /\ MC._conditional_monitor_loop_turn "conditional_scan_090500"
       (VStr "scan") (VStr "stop when cold") stopped_agent
     = (Ok false, stopped_agent, [])
  /\ _conditional_monitor_loop_turn_amid (meanwhile stop) undisturbed
       "conditional_scan_090500" (VStr "scan") (VStr "stop when cold")
       two_monitors
     = (Ok false, stopped_agent,
        [EvLog "error"
           "Error in conditional monitor conditional_scan_090500: 'conditional_scan_090500'"])
  /\ _conditional_monitor_loop_turn_amid undisturbed (meanwhile stop)
       "conditional_scan_090500" (VStr "scan") (VStr "stop when cold")
       two_monitors
     = (Ok false, stopped_agent, [])
  /\ _conditional_monitor_loop_turn_amid undisturbed undisturbed
       "conditional_scan_090500" (VStr "scan") (VStr "stop when cold")
       two_monitors
     = (Ok true, two_monitors,
        [EvLog "info"
           "Monitoring condition 'stop when cold' for protocol 'scan'"]).
Proof.
  cbv zeta.
  assert (Hne : "conditional_scan_090500" <> EmptyString) by discriminate.
  destruct (MonitorLife.stop_ends_the_loop "stop the scan"
              [("monitor_id", VStr "conditional_scan_090500")] []
              "conditional_scan_090500" 3 (VStr "scan")
              (VStr "stop when cold") (VStr "gauge") (VStr "pressure")
              (VFloat "1.0") two_monitors
              Witnesses.two_monitors_valid eq_refl Hne eq_refl)
    as (Hafter & Hbetween & Hlate & Halone).
  split; [exact Witnesses.two_monitors_valid|]. split; [reflexivity|].
  split; [exact Hne|]. split; [reflexivity|].
  split; [exact (proj1 Hafter)|]. split; [exact (proj1 Hbetween)|].
  split; [exact (proj1 Hlate)|].
  rewrite (proj1 Halone). reflexivity.
Defined.

(** X24 on a fresh agent. *)
Lemma created_monitor_loop_runs_witness :
  coherent (self control_agent)
  /\ exists id,
      result (MC._create_conditional_monitor answering (VStr "scan")
                (VStr "stop when cold") [] control_agent) = Ok id
      /\ result (MC._conditional_monitor_loop_turn id (VStr "scan")
                   (VStr "stop when cold")
                   (final (MC._create_conditional_monitor answering
                             (VStr "scan") (VStr "stop when cold") []
                             control_agent))) = Ok true.
Proof.
  split; [exact MonitorLife.coherent_init|].
  destruct (MonitorLife.created_monitor_loop_runs answering (VStr "scan")
              (VStr "stop when cold") [] control_agent
              MonitorLife.coherent_init) as (id & Hid & Hturn).
  exists id. split; [exact Hid|]. now rewrite Hturn.
Defined.

(** X4 on a request that did reach the host. *)
Lemma host_only_after_model_witness :
  let run := PA.process_request answering "run scan" naming_scan
               (snapshot_with "run_protocol") protocol_agent in
  host_calls (trace run) <> []
  /\ has_run_protocol answering = true
  /\ exists prompt response,
      model_calls (trace run) = [prompt]
      /\ agent_run answering prompt = Ok response.
Proof.
  cbv zeta.
  assert (Hhost :
            host_calls
              (trace (PA.process_request answering "run scan" naming_scan
                        (snapshot_with "run_protocol") protocol_agent))
            <> []) by (vm_compute; discriminate).
  split; [exact Hhost|].
  exact (RunFacts.host_only_after_model answering "run scan" naming_scan
           (snapshot_with "run_protocol") protocol_agent Hhost).
Defined.

(** X15 on three questions put to a model that answers, and on one put
    to a model that is out of reach. *)
Lemma advice_handlers_relay_the_model_witness :
  let context := snapshot_with "protocol_status" in
  let status w :=
    PA._get_protocol_status w "how far is it?" [] context protocol_agent in
  let query :=
    PA._general_protocol_query answering "what is a protocol?" [] context
      protocol_agent in
  let analysis :=
    MC._analyze_measurement_request answering "is the gauge stable?" []
      context control_agent in
  dget context "system_state" (VDict [])
  = VDict (state_with "protocol_status")
  /\ dget (state_with "protocol_status") "protocols" (VDict [])
     = VDict two_protocols
  /\ dget (state_with "protocol_status") "instruments" (VDict [])
     = VDict []
  /\ (length (model_calls (trace (status answering))) = 1
      /\ result (status answering)
         = Ok (Str.cat ["📊 Protocol Status:"; Str.nl; Str.nl;
                        "Looks fine."]))
  /\ (length (model_calls (trace query)) = 1
      /\ result query = Ok "🔬 Protocol Information: Looks fine.")
  /\ (length (model_calls (trace analysis)) = 1
      /\ result analysis
         = Ok (Str.cat ["🔬 Measurement Control Analysis:"; Str.nl; Str.nl;
                        "Looks fine."]))
  /\ (length (model_calls (trace (status unreachable))) = 1
      /\ result (status unreachable)
         = Ok "I encountered an error while checking protocol status: connection refused").
Proof.
  cbv zeta.
  destruct (RequestFacts.advice_handlers_relay_the_model answering
              "how far is it?" [] (snapshot_with "protocol_status")
              (state_with "protocol_status") two_protocols []
              eq_refl eq_refl eq_refl) as (Hstatus & _ & _).
  destruct (RequestFacts.advice_handlers_relay_the_model answering
              "what is a protocol?" [] (snapshot_with "protocol_status")
              (state_with "protocol_status") two_protocols []
              eq_refl eq_refl eq_refl) as (_ & Hquery & _).
  destruct (RequestFacts.advice_handlers_relay_the_model answering
              "is the gauge stable?" [] (snapshot_with "protocol_status")
              (state_with "protocol_status") two_protocols []
              eq_refl eq_refl eq_refl) as (_ & _ & Hanalysis).
  destruct (RequestFacts.advice_handlers_relay_the_model unreachable
              "how far is it?" [] (snapshot_with "protocol_status")
              (state_with "protocol_status") two_protocols []
              eq_refl eq_refl eq_refl) as (Hfailed & _ & _).
  destruct (Hstatus protocol_agent) as (p1 & _ & _ & _ & Ht1 & Hr1).
  destruct (Hquery protocol_agent) as (p2 & _ & _ & _ & Ht2 & Hr2).
  destruct (Hanalysis control_agent) as (p3 & _ & _ & _ & Ht3 & Hr3).
  destruct (Hfailed protocol_agent) as (p4 & _ & _ & _ & Ht4 & Hr4).
  split; [reflexivity|]. split; [reflexivity|]. split; [reflexivity|].
  split; [split; [now rewrite Ht1 | exact Hr1]|].
  split; [split; [now rewrite Ht2 | exact Hr2]|].
  split; [split; [now rewrite Ht3 | exact Hr3]|].
  split; [now rewrite Ht4 | exact Hr4].
Defined.


(** X25 on a request to the agent with two monitors. *)
Lemma tables_stay_in_step_witness :
  coherent (self two_monitors)
  /\ coherent
       (self (final (MC.process_request answering "watch the gauge"
                       [("device", VStr "gauge")]
                       (snapshot_with "monitor_devices") two_monitors))).
Proof.
  split; [exact two_monitors_coherent|].
  destruct MonitorLife.tables_stay_in_step as (_ & Hrequest & _).
  exact (Hrequest answering "watch the gauge" [("device", VStr "gauge")]
           (snapshot_with "monitor_devices") two_monitors
           two_monitors_coherent).
Defined.

End MoreWitnesses.
